(** * data_folklore: the raw-dataset pipeline of [src/folklore/data/datasets.py]

    A shallow embedding of the [RawDataset] and [Dataset] classes: Python
    values as an inductive type, dictionaries as insertion-ordered
    association lists, the objects as records, the cache directory as a
    table from file names to pickled values, and the external
    collaborators (fetcher, unpacker, hashing library, transforms) as the
    fields of one interface record. *)

From stdpp Require Import base list strings pretty.
From Stdlib Require Import ZArith Lia.

Local Open Scope string_scope.
Local Open Scope list_scope.
Set Warnings "-register-all".

(** ** Python values *)

(** The values that flow through the module: [None], booleans, integers,
    strings, lists (tuples are modelled as lists) and dictionaries with
    string keys, kept in insertion order as Python 3.7+ dictionaries are. *)
Inductive pyval : Type :=
| PNone
| PBool (b : bool)
| PInt (z : Z)
| PStr (s : string)
| PList (l : list pyval)
| PDict (d : list (string * pyval)).

Abbreviation pydict := (list (string * pyval)).

(** Truth value of an object, as tested by [if x:]. *)
Definition truthy (v : pyval) : bool :=
  match v with
  | PNone => false
  | PBool b => b
  | PInt z => negb (Z.eqb z 0)
  | PStr s => negb (String.eqb s "")
  | PList l => match l with [] => false | _ => true end
  | PDict d => match d with [] => false | _ => true end
  end.

(** ** Dictionaries *)

Module Dict.

(** [d.get(k)], [None] of the option standing for an absent key. *)
Fixpoint get (k : string) (d : pydict) : option pyval :=
  match d with
  | [] => None
  | (k', v) :: d' => if String.eqb k k' then Some v else get k d'
  end.

(** [d.get(k, dflt)]. *)
Definition get_default (k : string) (dflt : pyval) (d : pydict) : pyval :=
  match get k d with Some v => v | None => dflt end.

(** [d[k] = v]: an existing key keeps its position, a new one goes last. *)
Fixpoint set (k : string) (v : pyval) (d : pydict) : pydict :=
  match d with
  | [] => [(k, v)]
  | (k', v') :: d' =>
      if String.eqb k k' then (k', v) :: d' else (k', v') :: set k v d'
  end.

(** [{**d, **e}]: the entries of [e] are stored into a copy of [d], in
    the order of [e]. *)
Definition update (d e : pydict) : pydict :=
  fold_left (fun acc kv => set kv.1 kv.2 acc) e d.

(** [d.pop(k, None)], for its effect on [d].  Keys of a Python
    dictionary are unique, so dropping every entry under [k] drops the
    one entry there is. *)
Fixpoint pop (k : string) (d : pydict) : pydict :=
  match d with
  | [] => []
  | (k', v) :: d' => if String.eqb k k' then pop k d' else (k', v) :: pop k d'
  end.

(** [for key in ignore: d.pop(key, None)]. *)
Definition pop_all (ks : list string) (d : pydict) : pydict :=
  fold_left (fun acc k => pop k acc) ks d.

Definition keys (d : pydict) : list string := map fst d.

Definition mem (k : string) (d : pydict) : bool :=
  match get k d with Some _ => true | None => false end.

End Dict.

(** Python's [==] on values: numbers compare by value ([True == 1]),
    lists element-wise, dictionaries as mappings (order of insertion is
    irrelevant). *)
Fixpoint py_eq (a b : pyval) {struct a} : bool :=
  match a, b with
  | PNone, PNone => true
  | PBool x, PBool y => Bool.eqb x y
  | PBool x, PInt y => Z.eqb (if x then 1 else 0) y
  | PInt x, PBool y => Z.eqb x (if y then 1 else 0)
  | PInt x, PInt y => Z.eqb x y
  | PStr x, PStr y => String.eqb x y
  | PList xs, PList ys =>
      (fix go (xs ys : list pyval) {struct xs} : bool :=
         match xs, ys with
         | [], [] => true
         | x :: xs', y :: ys' => py_eq x y && go xs' ys'
         | _, _ => false
         end) xs ys
  | PDict xs, PDict ys =>
      Nat.eqb (length xs) (length ys) &&
      (fix go (xs : pydict) {struct xs} : bool :=
         match xs with
         | [] => true
         | (k, x) :: xs' =>
             match Dict.get k ys with
             | Some y => py_eq x y
             | None => false
             end && go xs'
         end) xs
  | _, _ => false
  end.

(** [(k, v) in d.items()]: the key is present and its value equals [v]. *)
Definition item_in (kv : string * pyval) (d : pydict) : bool :=
  match Dict.get kv.1 d with
  | Some v' => py_eq kv.2 v'
  | None => false
  end.

(** [a.items() <= b.items()] on dictionary views: [a] has no more entries
    than [b] and each of them is an entry of [b]. *)
Definition items_le (a b : pydict) : bool :=
  Nat.leb (length a) (length b) && forallb (fun kv => item_in kv b) a.

(** ** Paths *)

(** [pathlib.Path(d) / f], as the string it prints to, for a directory
    [d] written as [pathlib] prints it and a relative file name [f]. *)
Definition path_join (d f : string) : string := d +:+ "/" +:+ f.

(** ** Exceptions *)

(** The exceptions the modelled code can raise.  A raising call is a
    result [inl e]; the state it leaves behind is returned next to it. *)
Inductive exn : Type :=
| FileNotFoundError (path : string)
| KeyError (key : string)
| TypeError
| AttributeError (attr : string)
| DatasetNameRequired
| MatchingMetadataExists
| MetadataChanged (metadata_filename : string)
| UnknownFunction (module_name function_name : string)
| ValueError
| CollaboratorError (msg : string).

(** ** Transform references *)

(** [load_function]: a function, named by its module and name, with the
    positional and keyword arguments a [functools.partial] binds to it. *)
Record callable : Type := Callable {
  func_module : string;
  func_name : string;
  args : list pyval;
  keywords : pydict;
}.

(** ** The RawDataset object *)

Record RawDataset : Type := MkRawDataset {
  name : string;
  file_list : list pydict;
  load_function : callable;
  dataset_dir : string;
  fetched_ : bool;
  fetched_files_ : list pyval;
  unpacked_ : bool;
  unpack_path_ : option string;
}.

(** ** Collaborators and the world outside the objects *)

(** One entry per call made to a collaborator, in call order.  The trace
    is bookkeeping of the model: it makes "was attempted" and "was
    invoked" statements expressible. *)
Inductive event : Type :=
| EvFetch (item : pydict) (status : bool)
| EvUnpack (filename : pyval) (dst_dir : string)
| EvTransform (f : callable) (kwargs : pydict).

(** The number of times a transform was invoked. *)
Fixpoint transform_calls (t : list event) : nat :=
  match t with
  | [] => 0
  | EvTransform _ _ :: t' => S (transform_calls t')
  | _ :: t' => transform_calls t'
  end.

(** What the module imports and does not define: the path configuration
    ([..paths]), the fetcher and unpacker ([.fetch]), the helpers of
    [.utils], [joblib.hash], and the process-wide table of transforms.
    [Ext] is the state these act on (network, raw and interim
    directories). *)
Record Collaborators : Type := MkCollaborators {
  Ext : Type;
  raw_data_path : string;
  interim_data_path : string;
  processed_data_path : string;
  (** [fetch_file], called with the entries of [item] as keywords:
      [(status, result, hash_value)]. *)
  fetch_file : pydict -> Ext -> Ext * (bool * pyval * pyval);
  (** [unpack(filename, dst_dir=...)] of [.fetch]; it may raise. *)
  unpack : pyval -> string -> Ext -> exn + Ext;
  (** [get_dataset_filename(fetch_dict)]. *)
  get_dataset_filename : pydict -> string;
  (** [open(path, 'r').read()]. *)
  read_text : string -> Ext -> exn + string;
  (** [partial_call_signature(func)]: [(fqfunc, invocation)]. *)
  partial_call_signature : callable -> string * string;
  (** [func.func.__doc__], already formatted. *)
  func_doc : callable -> string;
  (** [joblib.hash(obj, hash_name=...)], for the algorithms it accepts
      (['md5'] and ['sha1']); for any other name it raises. *)
  joblib_hash : string -> pyval -> string;
  (** The registered transforms: module and name to the function, which
      receives positional arguments, keyword arguments and the external
      state, and returns or raises. *)
  transforms : string -> string -> option (list pyval -> pydict -> Ext -> (exn + pyval) * Ext);
  (** [process_dataset_default] of [.utils]. *)
  process_dataset_default : callable;
}.

Section Pipeline.

Context (C : Collaborators).

(** The external state, the files of pickled objects (cache and dump
    directories, by full path), and the trace of collaborator calls. *)
Record World : Type := MkWorld {
  ext : Ext C;
  files : pydict;
  trace : list event;
}.

Definition set_ext (e : Ext C) (w : World) : World :=
  {| ext := e; files := files w; trace := trace w |}.

Definition log (ev : event) (w : World) : World :=
  {| ext := ext w; files := files w; trace := trace w ++ [ev] |}.

Definition write_file (path : string) (v : pyval) (w : World) : World :=
  {| ext := ext w; files := Dict.set path v (files w); trace := trace w |}.

(** *** RawDataset.__init__ *)

Definition RawDataset_init (name : option string) (load_function : option callable)
    (dataset_dir : option string) (file_list : option (list pydict)) : RawDataset :=
  {| name := default "raw_dataset" name;
     file_list := default [] file_list;
     load_function := default (process_dataset_default C) load_function;
     dataset_dir := default (raw_data_path C) dataset_dir;
     fetched_ := false;
     fetched_files_ := [];
     unpacked_ := false;
     unpack_path_ := None |}.

(** *** RawDataset.fetch *)

(** [item.get('url', False)] as a condition. *)
Definition has_url (item : pydict) : bool :=
  truthy (Dict.get_default "url" (PBool false) item).

(** The [for item in self.file_list: ... else: ...] loop.  The result is
    whether the loop ran to its [else] branch (no [break]), the file list
    with the verified hashes written back, the fetched files, and the
    world after the calls. *)
Fixpoint fetch_loop (items : list pydict) (fetched_files : list pyval) (w : World)
    : bool * list pydict * list pyval * World :=
  match items with
  | [] => (true, [], fetched_files, w)
  | item :: rest =>
      let '(e, (status, result, hash_value)) := fetch_file C item (ext w) in
      let w1 := log (EvFetch item status) (set_ext e w) in
      if status then
        let '(completed, rest', ff, w2) := fetch_loop rest (fetched_files ++ [result]) w1 in
        (completed, Dict.set "hash_value" hash_value item :: rest', ff, w2)
      else if has_url item then
        (false, item :: rest, fetched_files, w1)
      else
        let '(completed, rest', ff, w2) := fetch_loop rest fetched_files w1 in
        (completed, item :: rest', ff, w2)
  end.

(** [fetch(self, fetch_path=None, force=False)].  The return value is
    [None] for a bare [return] and [Some b] for [return self.fetched_].
    [fetch_path] is computed by the source and not used afterwards. *)
Definition RawDataset_fetch (fetch_path : option string) (force : bool)
    (self : RawDataset) (w : World) : option bool * RawDataset * World :=
  if fetched_ self && negb force then (None, self, w)
  else
    let '(completed, items, ff, w') := fetch_loop (file_list self) [] w in
    let self' :=
      {| name := name self;
         file_list := items;
         load_function := load_function self;
         dataset_dir := dataset_dir self;
         fetched_ := completed;
         fetched_files_ := ff;
         unpacked_ := unpacked_ self;
         unpack_path_ := unpack_path_ self |} in
    (Some (fetched_ self'), self', w').

(** *** RawDataset.unpack *)

(** [for filename in self.fetched_files_: unpack(filename, dst_dir=...)];
    an exception of the unpacker ends the loop and propagates. *)
Fixpoint unpack_loop (filenames : list pyval) (dst_dir : string) (w : World)
    : option exn * World :=
  match filenames with
  | [] => (None, w)
  | filename :: rest =>
      let w1 := log (EvUnpack filename dst_dir) w in
      match unpack C filename dst_dir (ext w1) with
      | inl e => (Some e, w1)
      | inr e' => unpack_loop rest dst_dir (set_ext e' w1)
      end
  end.

Definition set_unpacked (path : string) (self : RawDataset) : RawDataset :=
  {| name := name self;
     file_list := file_list self;
     load_function := load_function self;
     dataset_dir := dataset_dir self;
     fetched_ := fetched_ self;
     fetched_files_ := fetched_files_ self;
     unpacked_ := true;
     unpack_path_ := Some path |}.

(** [if not self.fetched_: self.fetch()], the return value of [fetch]
    being dropped. *)
Definition ensure_fetched (self : RawDataset) (w : World) : RawDataset * World :=
  if negb (fetched_ self)
  then let '(_, s, w') := RawDataset_fetch None false self w in (s, w')
  else (self, w).

(** [unpack(self, unpack_path=None, force=False)], returning
    [self.unpack_path_]. *)
Definition RawDataset_unpack (unpack_path : option string) (force : bool)
    (self : RawDataset) (w : World) : (exn + option string) * RawDataset * World :=
  let '(self1, w1) := ensure_fetched self w in
  if unpacked_ self1 && negb force then (inr (unpack_path_ self1), self1, w1)
  else
    let dst := default (path_join (interim_data_path C) (name self1)) unpack_path in
    match unpack_loop (fetched_files_ self1) dst w1 with
    | (Some e, w2) => (inl e, self1, w2)
    | (None, w2) =>
        let self2 := set_unpacked dst self1 in
        (inr (unpack_path_ self2), self2, w2)
    end.

(** *** Serialized transform references *)

(** Modelled from the spec: [serialize_partial] of [.utils] is not part of
    the module.  Section 4.2: serializing a callable produces its
    function id and its bound positional and keyword arguments.  The
    keys are the ones the docstring of [from_dict] lists
    ([load_function_{name|module|args|kwargs}]); module and name together
    are the function id. *)
Definition serialize_partial (f : callable) : pydict :=
  [("load_function_module", PStr (func_module f));
   ("load_function_name", PStr (func_name f));
   ("load_function_args", PList (args f));
   ("load_function_kwargs", PDict (keywords f))].

(** Modelled from the spec: [deserialize_partial] of [.utils] is not part
    of the module.  Section 4.2 and 6: the function id is looked up in
    the process-wide table of transforms, and a callable bound with the
    stored arguments is rebuilt; an id that is absent from the table is a
    fatal resolution error. *)
Definition deserialize_partial (func_dict : pydict) : exn + callable :=
  match Dict.get "load_function_module" func_dict,
        Dict.get "load_function_name" func_dict,
        Dict.get "load_function_args" func_dict,
        Dict.get "load_function_kwargs" func_dict with
  | Some (PStr m), Some (PStr n), Some (PList a), Some (PDict k) =>
      match transforms C m n with
      | Some _ => inr (Callable m n a k)
      | None => inl (UnknownFunction m n)
      end
  | None, _, _, _ => inl (KeyError "load_function_module")
  | _, None, _, _ => inl (KeyError "load_function_name")
  | _, _, None, _ => inl (KeyError "load_function_args")
  | _, _, _, None => inl (KeyError "load_function_kwargs")
  | _, _, _, _ => inl TypeError
  end.

(** *** RawDataset.to_dict, to_hash, from_dict *)

(** The dictionary display of [to_dict], entry by entry: ['url_list'],
    the entries of the serialized transform, ['name'], ['dataset_dir']. *)
Definition RawDataset_to_dict (self : RawDataset) : pydict :=
  Dict.set "dataset_dir" (PStr (dataset_dir self))
    (Dict.set "name" (PStr (name self))
       (Dict.update [("url_list", PList (map PDict (file_list self)))]
          (serialize_partial (load_function self)))).

(** [my_dict] of [to_hash] when it reaches [joblib.hash]: the dictionary
    merged with the keyword arguments, minus the ignored keys. *)
Definition to_hash_dict (ignore : option (list string)) (kwargs : pydict)
    (self : RawDataset) : pydict :=
  Dict.pop_all (default ["dataset_dir"] ignore)
    (Dict.update (RawDataset_to_dict self) kwargs).

(** [to_hash(self, ignore=None, hash_type='sha1', **kwargs)]. *)
Definition RawDataset_to_hash (ignore : option (list string)) (hash_type : string)
    (kwargs : pydict) (self : RawDataset) : string :=
  joblib_hash C hash_type (PDict (to_hash_dict ignore kwargs self)).

(** The elements of a list of dictionaries, or [None] when the value is
    not one. *)
Fixpoint as_dicts (l : list pyval) : option (list pydict) :=
  match l with
  | [] => Some []
  | PDict d :: l' => match as_dicts l' with Some ds => Some (d :: ds) | None => None end
  | _ :: _ => None
  end.

(** [from_dict(cls, obj_dict)].  The record types the attributes: a
    ['url_list'] that is not a list of dictionaries, a name that is not a
    string or a directory that is neither a string nor [None] is reported
    as a [TypeError] here. *)
Definition RawDataset_from_dict (obj_dict : pydict) : exn + RawDataset :=
  let file_list := Dict.get_default "url_list" (PList []) obj_dict in
  match deserialize_partial obj_dict with
  | inl e => inl e
  | inr load_function =>
      match Dict.get "name" obj_dict with
      | None => inl (KeyError "name")
      | Some name =>
          let dataset_dir := Dict.get_default "dataset_dir" PNone obj_dict in
          match file_list, name, dataset_dir with
          | PList l, PStr n, PNone =>
              match as_dicts l with
              | Some fl => inr (RawDataset_init (Some n) (Some load_function) None (Some fl))
              | None => inl TypeError
              end
          | PList l, PStr n, PStr dir =>
              match as_dicts l with
              | Some fl => inr (RawDataset_init (Some n) (Some load_function) (Some dir) (Some fl))
              | None => inl TypeError
              end
          | _, _, _ => inl TypeError
          end
      end
  end.

(** ** The Dataset object *)

(** A [Dataset] is a [Bunch], that is a dictionary: the extra keyword
    arguments of the constructor, then ['metadata'], ['data'] and
    ['target']. *)

(** [get_data_hashes(self, exclude_list=None, hash_type='sha1')]. *)
Definition Dataset_get_data_hashes (exclude_list : option (list string))
    (hash_type : string) (self : pydict) : pydict :=
  let exclude_list := default ["metadata"] exclude_list in
  fold_left
    (fun ret kv =>
       if existsb (String.eqb kv.1) exclude_list then ret
       else Dict.set (kv.1 +:+ "_hash") (PStr (joblib_hash C hash_type kv.2)) ret)
    self [("hash_type", PStr hash_type)].

(** [Dataset.__init__], called with the entries of [opts] as keywords:
    the named parameters are taken out of [opts], the rest initialises
    the [Bunch]. *)
Definition Dataset_init (opts : pydict) : exn + pydict :=
  let dataset_name := Dict.get_default "dataset_name" PNone opts in
  let data := Dict.get_default "data" PNone opts in
  let target := Dict.get_default "target" PNone opts in
  let metadata := Dict.get_default "metadata" PNone opts in
  let update_hashes := Dict.get_default "update_hashes" (PBool true) opts in
  let kwargs :=
    Dict.pop_all ["dataset_name"; "data"; "target"; "metadata"; "update_hashes"] opts in
  let resolved :=
    match dataset_name with
    | PNone =>
        match metadata with
        | PNone => inl DatasetNameRequired
        | PDict m =>
            match Dict.get_default "dataset_name" PNone m with
            | PNone => inl DatasetNameRequired
            | v => inr v
            end
        | _ => inl (AttributeError "get")
        end
    | v => inr v
    end in
  match resolved with
  | inl e => inl e
  | inr dataset_name =>
      match metadata with
      | PNone | PDict _ =>
          let m := match metadata with PDict m => m | _ => [] end in
          let m := Dict.set "dataset_name" dataset_name m in
          let self :=
            Dict.set "target" target
              (Dict.set "data" data (Dict.set "metadata" (PDict m) kwargs)) in
          if truthy update_hashes then
            let data_hashes := Dataset_get_data_hashes None "sha1" self in
            inr (Dict.set "metadata" (PDict (Dict.update m data_hashes)) self)
          else inr self
      | _ => inl TypeError
      end
  end.

(** [Dataset.load(file_base, data_path=None, metadata_only=False)]. *)
Definition Dataset_load (file_base : string) (data_path : option string)
    (metadata_only : bool) (w : World) : exn + pyval :=
  let data_path := default (processed_data_path C) data_path in
  let fq :=
    if metadata_only then path_join data_path (file_base +:+ ".metadata")
    else path_join data_path (file_base +:+ ".dataset") in
  match Dict.get fq (files w) with
  | Some v => inr v
  | None => inl (FileNotFoundError fq)
  end.

(** [if file_base is None: file_base = self.name], where [self.name] is
    [self['metadata'].get('dataset_name', None)]; a name that is not a
    string cannot be joined with the file suffix. *)
Definition dump_file_base (file_base : option string) (metadata : pydict)
    : exn + string :=
  match file_base with
  | Some fb => inr fb
  | None =>
      match Dict.get_default "dataset_name" PNone metadata with
      | PStr s => inr s
      | _ => inl TypeError
      end
  end.

(** [dump(self, file_base=None, dump_path=None, hash_type='sha1',
    force=True, create_dirs=True, dump_metadata=True)].  Creating the
    directory leaves the files of the model as they are; a write into a
    directory that is missing, which fails without [create_dirs], is
    not modelled. *)
Definition Dataset_dump (file_base dump_path : option string) (hash_type : string)
    (force create_dirs dump_metadata : bool) (self : pydict) (w : World)
    : (exn + unit) * pydict * World :=
  let dump_path := default (processed_data_path C) dump_path in
  match Dict.get "metadata" self with
  | None => (inl (KeyError "metadata"), self, w)
  | Some (PDict metadata) =>
      match dump_file_base file_base metadata with
      | inl e => (inl e, self, w)
      | inr file_base =>
          let metadata_filename := file_base +:+ ".metadata" in
          let dataset_filename := file_base +:+ ".dataset" in
          let metadata_fq := path_join dump_path metadata_filename in
          let data_hashes := Dataset_get_data_hashes None hash_type self in
          let self' := Dict.set "metadata" (PDict (Dict.update metadata data_hashes)) self in
          match (if negb force then Dict.get metadata_fq (files w) else None) with
          | Some (PDict cached_metadata) =>
              if items_le metadata cached_metadata
              then (inl MatchingMetadataExists, self', w)
              else (inl (MetadataChanged metadata_filename), self', w)
          | Some _ => (inl (AttributeError "items"), self', w)
          | None =>
              let w1 :=
                if dump_metadata then write_file metadata_fq (PDict metadata) w else w in
              let dataset_fq := path_join dump_path dataset_filename in
              (inr tt, self', write_file dataset_fq (PDict self') w1)
          end
      end
  | Some _ =>
      (inl (match file_base with None => AttributeError "get" | Some _ => TypeError end),
       self, w)
  end.

(** ** RawDataset.default_metadata and process *)

Definition newline : string := String (Ascii.ascii_of_nat 10) "".

(** [name in optmap] followed by [optmap[name]]; a list or dictionary is
    unhashable and makes the test raise. *)
Definition optmap (name : pyval) : exn + option string :=
  match name with
  | PStr n =>
      if String.eqb n "DESCR" then inr (Some "descr")
      else if String.eqb n "LICENSE" then inr (Some "license")
      else inr None
  | PList _ | PDict _ => inl TypeError
  | _ => inr None
  end.

(** The loop of [default_metadata] over the file list. *)
Fixpoint default_metadata_loop (fl : list pydict) (metadata : pydict) (e : Ext C)
    : exn + pydict :=
  match fl with
  | [] => inr metadata
  | fetch_dict :: rest =>
      match optmap (Dict.get_default "name" PNone fetch_dict) with
      | inl ex => inl ex
      | inr None => default_metadata_loop rest metadata e
      | inr (Some key) =>
          let txtfile := get_dataset_filename C fetch_dict in
          match read_text C (path_join (raw_data_path C) txtfile) e with
          | inl ex => inl ex
          | inr txt => default_metadata_loop rest (Dict.set key (PStr txt) metadata) e
          end
      end
  end.

(** [default_metadata(self, use_docstring=False)]. *)
Definition RawDataset_default_metadata (use_docstring : bool) (self : RawDataset)
    (w : World) : exn + pydict :=
  match default_metadata_loop (file_list self) [] (ext w) with
  | inl ex => inl ex
  | inr metadata =>
      let metadata :=
        if use_docstring then
          let func := load_function self in
          let '(fqfunc, invocation) := partial_call_signature C func in
          Dict.set "descr"
            (PStr ("Data processed by: " +:+ fqfunc +:+ newline +:+ newline +:+ ">>> "
                   +:+ invocation +:+ newline +:+ newline +:+ ">>> help("
                   +:+ func_name func +:+ ")" +:+ newline +:+ newline
                   +:+ func_doc C func))
            metadata
        else metadata in
      inr (Dict.set "dataset_name" (PStr (name self)) metadata)
  end.

Fixpoint chars (s : string) : list string :=
  match s with
  | EmptyString => []
  | String c s' => String c "" :: chars s'
  end.

(** The keys popped by [for key in ignore: my_dict.pop(key, None)] for
    the elements of a sequence: a string pops its key, another hashable
    value pops nothing (the keys are strings), an unhashable one raises. *)
Fixpoint ignore_keys (l : list pyval) : exn + list string :=
  match l with
  | [] => inr []
  | v :: l' =>
      match v with
      | PList _ | PDict _ => inl TypeError
      | _ =>
          match ignore_keys l' with
          | inl e => inl e
          | inr ks => inr (match v with PStr k => k :: ks | _ => ks end)
          end
      end
  end.

(** [self.to_hash] called with the entries of [kwargs] as keywords, as
    [process] does: Python binds the keys ['ignore'] and ['hash_type'] to
    the parameters of these names and the remaining entries to the
    keyword dictionary.  A [hash_type] that is not a string is refused
    by the hashing library. *)
Definition to_hash_kw (kwargs : pydict) (self : RawDataset) : exn + string :=
  let rest := Dict.pop "hash_type" (Dict.pop "ignore" kwargs) in
  let ignore :=
    match Dict.get_default "ignore" PNone kwargs with
    | PNone => inr None
    | PList l => match ignore_keys l with inl e => inl e | inr ks => inr (Some ks) end
    | PStr s => inr (Some (chars s))
    | PDict d => inr (Some (Dict.keys d))
    | PBool _ | PInt _ => inl TypeError
    end in
  match ignore, Dict.get_default "hash_type" (PStr "sha1") kwargs with
  | inl e, _ => inl e
  | inr ignore, PStr hash_type => inr (RawDataset_to_hash ignore hash_type rest self)
  | inr _, _ => inl ValueError
  end.

(** [self.load_function] called with the entries of [kwargs] as keywords:
    the bound positional arguments, and the bound keywords overridden by
    [kwargs].  A reference that resolves to no registered transform
    raises. *)
Definition call_load_function (f : callable) (kwargs : pydict) (w : World)
    : (exn + pyval) * World :=
  match transforms C (func_module f) (func_name f) with
  | None => (inl (UnknownFunction (func_module f) (func_name f)), w)
  | Some fn =>
      let w1 := log (EvTransform f kwargs) w in
      let '(r, e) := fn (args f) (Dict.update (keywords f) kwargs) (ext w1) in
      (r, set_ext e w1)
  end.

(** The part of [process] under [if dset is None:]: build the metadata,
    run the transform, construct the [Dataset], dump it under the key. *)
Definition process_create (cache_path meta_hash : string) (use_docstring : bool)
    (kwargs : pydict) (self : RawDataset) (w : World) : (exn + pydict) * World :=
  match RawDataset_default_metadata use_docstring self w with
  | inl e => (inl e, w)
  | inr metadata =>
      match Dict.get_default "metadata" (PDict []) kwargs with
      | PDict supplied_metadata =>
          let kwargs :=
            Dict.set "metadata" (PDict (Dict.update metadata supplied_metadata))
              (Dict.pop "metadata" kwargs) in
          match call_load_function (load_function self) kwargs w with
          | (inl e, w1) => (inl e, w1)
          | (inr (PDict dset_opts), w1) =>
              match Dataset_init dset_opts with
              | inl e => (inl e, w1)
              | inr dset =>
                  match Dataset_dump (Some meta_hash) (Some cache_path) "sha1"
                          true true true dset w1 with
                  | (inl e, _, w2) => (inl e, w2)
                  | (inr _, dset', w2) => (inr dset', w2)
                  end
              end
          | (inr _, w1) => (inl TypeError, w1)
          end
      | _ => (inl TypeError, w)
      end
  end.

(** [return dset.data, dset.target] or [return dset]. *)
Definition process_return (return_X_y : bool) (dset : pyval) : exn + pyval :=
  if return_X_y then
    match dset with
    | PDict d =>
        match Dict.get "data" d, Dict.get "target" d with
        | Some data, Some target => inr (PList [data; target])
        | None, _ => inl (AttributeError "data")
        | _, None => inl (AttributeError "target")
        end
    | _ => inl (AttributeError "data")
    end
  else inr dset.

(** [process(self, cache_path=None, force=False, return_X_y=False,
    use_docstring=False, **kwargs)]. *)
Definition RawDataset_process (cache_path : option string)
    (force return_X_y use_docstring : bool) (kwargs : pydict)
    (self : RawDataset) (w : World) : (exn + pyval) * RawDataset * World :=
  let '(unpacked, self1, w1) :=
    if negb (unpacked_ self)
    then RawDataset_unpack None false self w
    else (inr None, self, w) in
  match unpacked with
  | inl e => (inl e, self1, w1)
  | inr _ =>
      let cache_path := default (interim_data_path C) cache_path in
      match to_hash_kw kwargs self1 with
      | inl e => (inl e, self1, w1)
      | inr meta_hash =>
          let dset :=
            if negb force then
              match Dataset_load meta_hash (Some cache_path) false w1 with
              | inr v => v
              | inl _ => PNone
              end
            else PNone in
          match dset with
          | PNone =>
              match process_create cache_path meta_hash use_docstring kwargs self1 w1 with
              | (inl e, w2) => (inl e, self1, w2)
              | (inr dset, w2) => (process_return return_X_y (PDict dset), self1, w2)
              end
          | _ => (process_return return_X_y dset, self1, w1)
          end
      end
  end.

End Pipeline.

Arguments ext {C} w.
Arguments files {C} w.
Arguments trace {C} w.

(** ** The other methods of the module *)

(** The exceptions raised as plain [Exception(...)] by [add_metadata] and
    [Dataset.from_raw], next to the ones above. *)
Inductive exception : Type :=
| Raised (e : exn)
| UnknownKind (kind : string)
| FilenameOrContentsRequired
| UnknownDataset (dataset_name : string).

Definition opt_str (o : option string) : pyval :=
  match o with
  | Some s => PStr s
  | None => PNone
  end.

Section Methods.

Context (C : Collaborators).

(** *** RawDataset.add_metadata, add_file, add_url *)

(** [self.file_list.append(entry); self.fetched_ = False]. *)
Definition append_entry (entry : pydict) (self : RawDataset) : RawDataset :=
  {| name := name self;
     file_list := file_list self ++ [entry];
     load_function := load_function self;
     dataset_dir := dataset_dir self;
     fetched_ := false;
     fetched_files_ := fetched_files_ self;
     unpacked_ := unpacked_ self;
     unpack_path_ := unpack_path_ self |}.

(** [filename_map] of [add_metadata], as a lookup. *)
Definition filename_map (self : RawDataset) (kind : string) : option string :=
  if String.eqb kind "DESCR" then Some (name self +:+ ".readme")
  else if String.eqb kind "LICENSE" then Some (name self +:+ ".license")
  else None.

(** [add_metadata(self, filename=None, contents=None, metadata_path=None,
    kind='DESCR')].  [metadata_path] is computed by the source and not
    used afterwards. *)
Definition RawDataset_add_metadata (filename contents metadata_path : option string)
    (kind : string) (self : RawDataset) : (exception + unit) * RawDataset :=
  match filename_map self kind with
  | None => (inl (UnknownKind kind), self)
  | Some mapped =>
      match filename, contents with
      | Some f, _ =>
          (inr tt, append_entry [("file_name", PStr f); ("name", PStr kind)] self)
      | None, Some c =>
          (inr tt,
           append_entry [("contents", PStr c); ("file_name", PStr mapped);
                         ("name", PStr kind)] self)
      | None, None => (inl FilenameOrContentsRequired, self)
      end
  end.

(** [add_file(self, hash_type='sha1', hash_value=None, name=None, *,
    file_name)].  The test whether the file is on disk only logs a
    warning. *)
Definition RawDataset_add_file (hash_type : string) (hash_value name : option string)
    (file_name : string) (self : RawDataset) : RawDataset :=
  append_entry [("hash_type", PStr hash_type); ("hash_value", opt_str hash_value);
                ("name", opt_str name); ("file_name", PStr file_name)] self.

(** [add_url(self, url=None, hash_type='sha1', hash_value=None, name=None,
    file_name=None)]. *)
Definition RawDataset_add_url (url : option string) (hash_type : string)
    (hash_value name file_name : option string) (self : RawDataset) : RawDataset :=
  append_entry [("url", opt_str url); ("hash_type", PStr hash_type);
                ("hash_value", opt_str hash_value); ("name", opt_str name);
                ("file_name", opt_str file_name)] self.

(** *** Dataset: name, has_target, attribute access *)

(** The property [name]: [self['metadata'].get('dataset_name', None)]. *)
Definition Dataset_name (self : pydict) : exn + pyval :=
  match Dict.get "metadata" self with
  | None => inl (KeyError "metadata")
  | Some (PDict m) => inr (Dict.get_default "dataset_name" PNone m)
  | Some _ => inl (AttributeError "get")
  end.

(** The property [has_target]: [self['target'] is not None]. *)
Definition Dataset_has_target (self : pydict) : exn + bool :=
  match Dict.get "target" self with
  | None => inl (KeyError "target")
  | Some PNone => inr false
  | Some _ => inr true
  end.

(** [str.isupper] and [str.lower] on attribute names, which are taken to
    be ASCII: some letter is upper case and none is lower case. *)
Definition is_upper_letter (c : Ascii.ascii) : bool :=
  let n := Ascii.nat_of_ascii c in Nat.leb 65 n && Nat.leb n 90.

Definition is_lower_letter (c : Ascii.ascii) : bool :=
  let n := Ascii.nat_of_ascii c in Nat.leb 97 n && Nat.leb n 122.

Fixpoint has_upper (s : string) : bool :=
  match s with
  | EmptyString => false
  | String c s' => is_upper_letter c || has_upper s'
  end.

Fixpoint has_lower (s : string) : bool :=
  match s with
  | EmptyString => false
  | String c s' => is_lower_letter c || has_lower s'
  end.

Definition isupper (s : string) : bool := has_upper s && negb (has_lower s).

Definition lower_char (c : Ascii.ascii) : Ascii.ascii :=
  if is_upper_letter c then Ascii.ascii_of_nat (Ascii.nat_of_ascii c + 32) else c.

Fixpoint lower (s : string) : string :=
  match s with
  | EmptyString => EmptyString
  | String c s' => String (lower_char c) (lower s')
  end.

(** [self['metadata'][k] = v]. *)
Definition set_metadata (k : string) (v : pyval) (self : pydict) : exn + pydict :=
  match Dict.get "metadata" self with
  | None => inl (KeyError "metadata")
  | Some (PDict m) => inr (Dict.set "metadata" (PDict (Dict.set k v m)) self)
  | Some _ => inl TypeError
  end.

(** [__setattr__(self, key, value)]; the last branch is the one of
    [Bunch], which stores the attribute as an item. *)
Definition Dataset_setattr (key : string) (value : pyval) (self : pydict)
    : exn + pydict :=
  if isupper key then set_metadata (lower key) value self
  else if String.eqb key "name" then set_metadata "dataset_name" value self
  else inr (Dict.set key value self).

(** [__getattribute__(self, key)] for an upper-case [key]: the entry of
    the metadata under the lower-case key, any failure being turned into
    [AttributeError(key)].  [None] stands for the other branch, the
    ordinary attribute lookup. *)
Definition Dataset_getattribute (key : string) (self : pydict) : option (exn + pyval) :=
  if isupper key then
    Some (match Dict.get "metadata" self with
          | Some (PDict m) =>
              match Dict.get (lower key) m with
              | Some v => inr v
              | None => inl (AttributeError key)
              end
          | _ => inl (AttributeError key)
          end)
  else None.

(** *** The registry of raw datasets *)

(** Modelled from the spec: [load_json] and [save_json] of [..utils] are
    not part of the module.  Section 6: the registry is a key-value
    store with one record per raw dataset name; here it is the JSON
    object held by the registry file, among the files of the world.
    [module_dir] is [_MODULE_DIR], the directory of the module. *)
Definition load_json (path : string) (w : World C) : option pyval :=
  Dict.get path (files w).

Definition save_json (path : string) (v : pyval) (w : World C) : World C :=
  write_file C path v w.

(** [available_raw_datasets(raw_dataset_file='raw_datasets.json',
    raw_dataset_path=None, keys_only=True)]: the list of names, or the
    dictionary and the file name.  A registry file that does not hold a
    JSON object is reported as a [TypeError] here. *)
Definition available_raw_datasets (module_dir raw_dataset_file : string)
    (raw_dataset_path : option string) (keys_only : bool) (w : World C)
    : exn + (list string + pydict * string) :=
  let raw_dataset_file_fq :=
    path_join (default module_dir raw_dataset_path) raw_dataset_file in
  let loaded :=
    match load_json raw_dataset_file_fq w with
    | None => inr []
    | Some (PDict d) => inr d
    | Some _ => inl TypeError
    end in
  match loaded with
  | inl e => inl e
  | inr raw_dataset_dict =>
      if keys_only then inr (inl (Dict.keys raw_dataset_dict))
      else inr (inr (raw_dataset_dict, raw_dataset_file_fq))
  end.

(** [add_raw_dataset(rawds)]. *)
Definition add_raw_dataset (module_dir : string) (rawds : RawDataset) (w : World C)
    : (exn + unit) * World C :=
  match available_raw_datasets module_dir "raw_datasets.json" None false w with
  | inr (inr (rawds_list, rds_file_fq)) =>
      let rawds_list :=
        Dict.set (name rawds) (PDict (RawDataset_to_dict rawds)) rawds_list in
      (inr tt, save_json rds_file_fq (PDict rawds_list) w)
  | inr (inl _) => (inl TypeError, w)
  | inl e => (inl e, w)
  end.

(** [RawDataset.from_name(raw_dataset_name,
    raw_dataset_file='raw_datasets.json', raw_dataset_path=None)]. *)
Definition RawDataset_from_name (module_dir raw_dataset_name raw_dataset_file : string)
    (raw_dataset_path : option string) (w : World C) : exn + RawDataset :=
  match available_raw_datasets module_dir raw_dataset_file raw_dataset_path false w with
  | inr (inr (raw_datasets, _)) =>
      match Dict.get raw_dataset_name raw_datasets with
      | None => inl (KeyError raw_dataset_name)
      | Some (PDict obj_dict) => RawDataset_from_dict C obj_dict
      | Some _ => inl (AttributeError "get")
      end
  | inr (inl _) => inl TypeError
  | inl e => inl e
  end.

(** [raw_ds.process(cache_path=cache_path, force=force, ...)] with the
    entries of [kwargs] as further keywords: Python binds the keys
    ['return_X_y'] and ['use_docstring'] to the parameters of these
    names, and refuses a second value for [cache_path] or [force]. *)
Definition process_kw (cache_path : option string) (force : bool) (kwargs : pydict)
    (self : RawDataset) (w : World C) : (exn + pyval) * RawDataset * World C :=
  if Dict.mem "cache_path" kwargs || Dict.mem "force" kwargs
  then (inl TypeError, self, w)
  else
    RawDataset_process C cache_path force
      (truthy (Dict.get_default "return_X_y" (PBool false) kwargs))
      (truthy (Dict.get_default "use_docstring" (PBool false) kwargs))
      (Dict.pop "use_docstring" (Dict.pop "return_X_y" kwargs)) self w.

(** [Dataset.from_raw(dataset_name, cache_path=None, fetch_path=None,
    force=False, unpack_path=None, **kwargs)].  The values returned by
    [fetch] and [unpack] are dropped; an exception of [unpack] or
    [process] propagates. *)
Definition Dataset_from_raw (module_dir dataset_name : string)
    (cache_path fetch_path : option string) (force : bool)
    (unpack_path : option string) (kwargs : pydict) (w : World C)
    : (exception + pyval) * World C :=
  match available_raw_datasets module_dir "raw_datasets.json" None false w with
  | inr (inr (dataset_list, _)) =>
      match Dict.get dataset_name dataset_list with
      | None => (inl (UnknownDataset dataset_name), w)
      | Some entry =>
          let built :=
            match entry with
            | PDict obj_dict => RawDataset_from_dict C obj_dict
            | _ => inl (AttributeError "get")
            end in
          match built with
          | inl e => (inl (Raised e), w)
          | inr raw_ds =>
              let '(_, raw_ds1, w1) := RawDataset_fetch C fetch_path force raw_ds w in
              match RawDataset_unpack C unpack_path force raw_ds1 w1 with
              | (inl e, _, w2) => (inl (Raised e), w2)
              | (inr _, raw_ds2, w2) =>
                  match process_kw cache_path force kwargs raw_ds2 w2 with
                  | (inl e, _, w3) => (inl (Raised e), w3)
                  | (inr ds, _, w3) => (inr ds, w3)
                  end
              end
          end
      end
  | inr (inl _) => (inl (Raised TypeError), w)
  | inl e => (inl (Raised e), w)
  end.

End Methods.

(** ** Vocabulary of the statements *)

Section Statements.

Context (C : Collaborators).

(** The declarative definition of a raw dataset: everything but the
    progress flags and the results of the stages. *)
Definition same_definition (D1 D2 : RawDataset) : Prop :=
  name D1 = name D2 /\ file_list D1 = file_list D2 /\
  load_function D1 = load_function D2 /\ dataset_dir D1 = dataset_dir D2.

(** Two raw datasets that differ at most in [dataset_dir] and in the
    transient attributes. *)
Definition same_but_dir (D1 D2 : RawDataset) : Prop :=
  name D1 = name D2 /\ file_list D1 = file_list D2 /\
  load_function D1 = load_function D2.

(** [joblib.hash] tells the two dictionaries apart.  No hash of fixed
    width does so for all pairs; the sensitivity of the key is stated for
    the pairs on which it does. *)
Definition collision_free (hash_type : string) (d1 d2 : pydict) : Prop :=
  joblib_hash C hash_type (PDict d1) = joblib_hash C hash_type (PDict d2) -> d1 = d2.

(** The changes of the definition [D] or of the extra arguments [A] that
    reach the hashed dictionary: a change of an attribute (of a file's
    hash value in particular) whose entry no extra argument overrides, a change of the value of an extra argument
    other than ['dataset_dir'], and a new extra argument under a key that
    is neither ['dataset_dir'] nor a key of [to_dict]. *)
Inductive identity_change (D : RawDataset) (A : pydict) : RawDataset -> pydict -> Prop :=
| change_file_list D' :
    file_list D' <> file_list D -> "url_list" ∉ Dict.keys A ->
    identity_change D A D' A
| change_file_hash D' i item hash_value :
    file_list D !! i = Some item ->
    Dict.get "hash_value" item <> Some hash_value ->
    file_list D' = <[i := Dict.set "hash_value" hash_value item]> (file_list D) ->
    "url_list" ∉ Dict.keys A ->
    identity_change D A D' A
| change_function_module D' :
    func_module (load_function D') <> func_module (load_function D) ->
    "load_function_module" ∉ Dict.keys A ->
    identity_change D A D' A
| change_function_name D' :
    func_name (load_function D') <> func_name (load_function D) ->
    "load_function_name" ∉ Dict.keys A ->
    identity_change D A D' A
| change_bound_args D' :
    args (load_function D') <> args (load_function D) ->
    "load_function_args" ∉ Dict.keys A ->
    identity_change D A D' A
| change_bound_kwargs D' :
    keywords (load_function D') <> keywords (load_function D) ->
    "load_function_kwargs" ∉ Dict.keys A ->
    identity_change D A D' A
| change_name D' :
    name D' <> name D -> "name" ∉ Dict.keys A ->
    identity_change D A D' A
| change_argument A' k v v' :
    NoDup (Dict.keys A) -> NoDup (Dict.keys A') -> k <> "dataset_dir" ->
    Dict.get k A = Some v -> Dict.get k A' = Some v' -> v <> v' ->
    identity_change D A D A'
| new_argument A' k v' :
    NoDup (Dict.keys A') -> k <> "dataset_dir" ->
    k ∉ Dict.keys (RawDataset_to_dict D) ->
    k ∉ Dict.keys A -> Dict.get k A' = Some v' ->
    identity_change D A D A'.

(** The calls to the fetcher made by one run of the loop: the item and
    the status it came back with. *)
Definition fetch_events (attempts : list (pydict * bool)) : list event :=
  map (fun a => EvFetch a.1 a.2) attempts.

(** A failed fetch of an item that has a url. *)
Definition remote_failure (a : pydict * bool) : bool := negb a.2 && has_url a.1.

Definition unpack_events (dst_dir : string) (filenames : list pyval) : list event :=
  map (fun f => EvUnpack f dst_dir) filenames.

End Statements.

(** ** Auxiliary definitions of the further statements *)

Section MoreStatements.

Context (C : Collaborators).

(** [s] ends with [suffix]. *)
Fixpoint ends_with (suffix s : string) : bool :=
  String.eqb s suffix ||
  match s with
  | EmptyString => false
  | String _ s' => ends_with suffix s'
  end.

(** One step of the loop of [get_data_hashes]. *)
Definition hash_step (exclude_list : list string) (hash_type : string)
    (ret : pydict) (kv : string * pyval) : pydict :=
  if existsb (String.eqb kv.1) exclude_list then ret
  else Dict.set (kv.1 +:+ "_hash") (PStr (joblib_hash C hash_type kv.2)) ret.

End MoreStatements.

(** The algorithms that [joblib.hash] accepts; for any other name it
    raises [ValueError]. *)
Definition supported_hash (hash_type : string) : Prop :=
  hash_type = "md5" \/ hash_type = "sha1".

(** Strings of ASCII characters, on which [isupper] and [lower] above
    are [str.isupper] and [str.lower]. *)
Fixpoint ascii_only (s : string) : bool :=
  match s with
  | EmptyString => true
  | String c s' => Nat.ltb (Ascii.nat_of_ascii c) 128 && ascii_only s'
  end.






(** ** A concrete set of collaborators *)

(** Used to run the model on examples: a fetcher that fails on the items
    whose expected hash is ['mismatch'], an unpacker that never raises, a printer in
    the place of the hash function, and one registered transform,
    [toy.load], which returns the fixed arrays of a toy dataset. *)
Module Demo.

Fixpoint repr (v : pyval) : string :=
  match v with
  | PNone => "None"
  | PBool b => if b then "True" else "False"
  | PInt z => pretty z
  | PStr s => "'" +:+ s +:+ "'"
  | PList l =>
      "[" +:+
      (fix go (l : list pyval) : string :=
         match l with
         | [] => ""
         | x :: l' => repr x +:+ "," +:+ go l'
         end) l +:+ "]"
  | PDict d =>
      "{" +:+
      (fix go (d : pydict) : string :=
         match d with
         | [] => ""
         | (k, x) :: d' => "'" +:+ k +:+ "':" +:+ repr x +:+ "," +:+ go d'
         end) d +:+ "}"
  end.

Definition repr_hash (hash_type : string) (v : pyval) : string :=
  hash_type +:+ ":" +:+ repr v.

Definition fetch_toy (item : pydict) (calls : nat) : nat * (bool * pyval * pyval) :=
  match Dict.get "hash_value" item with
  | Some (PStr h) =>
      if String.eqb h "mismatch"
      then (S calls, (false, PStr "hash does not match", PNone))
      else (S calls, (true, Dict.get_default "file_name" PNone item, PStr h))
  | _ => (S calls, (true, Dict.get_default "file_name" PNone item, PStr "da39a3ee"))
  end.

Definition toy_load (args : list pyval) (kwargs : pydict) (calls : nat)
    : (exn + pyval) * nat :=
  (inr (PDict [("data", PList [PInt 1; PInt 2; PInt 3]);
               ("target", PList [PInt 0; PInt 1; PInt 0]);
               ("metadata", Dict.get_default "metadata" (PDict []) kwargs)]),
   S calls).

Definition collaborators : Collaborators :=
  {| Ext := nat;
     raw_data_path := "data/raw";
     interim_data_path := "data/interim";
     processed_data_path := "data/processed";
     fetch_file := fetch_toy;
     unpack := fun _ _ calls => inr (S calls);
     get_dataset_filename := fun d =>
       match Dict.get "file_name" d with Some (PStr f) => f | _ => "unknown" end;
     read_text := fun path _ => inr ("contents of " +:+ path);
     partial_call_signature := fun f => (func_module f +:+ "." +:+ func_name f,
                                         func_name f +:+ "()");
     func_doc := fun _ => "None";
     joblib_hash := repr_hash;
     transforms := fun m n =>
       if String.eqb m "toy" && String.eqb n "load" then Some toy_load else None;
     process_dataset_default := Callable "toy" "load" [] [] |}.

Definition load : callable := Callable "toy" "load" [] [].

Definition world0 : World collaborators :=
  MkWorld collaborators 0%nat [] [].

(** A raw dataset of one local file, as constructed. *)
Definition toy : RawDataset :=
  RawDataset_init collaborators (Some "toy") (Some load) None
    (Some [[("hash_type", PStr "sha1"); ("hash_value", PStr "da39a3ee");
            ("file_name", PStr "toy.csv")]]).

(** The same definition under another name. *)
Definition toy_renamed : RawDataset :=
  RawDataset_init collaborators (Some "toy2") (Some load) None (Some (file_list toy)).

Definition local_good : pydict :=
  [("hash_type", PStr "sha1"); ("hash_value", PStr "da39a3ee");
   ("file_name", PStr "toy.csv")].

Definition local_bad : pydict :=
  [("hash_type", PStr "sha1"); ("hash_value", PStr "mismatch");
   ("file_name", PStr "local.csv")].

Definition remote_bad : pydict :=
  [("url", PStr "http://example.org/toy.zip"); ("hash_type", PStr "sha1");
   ("hash_value", PStr "mismatch"); ("file_name", PStr "toy.zip")].

(** One local file whose verification fails. *)
Definition raw_local_bad : RawDataset :=
  RawDataset_init collaborators (Some "local") (Some load) None (Some [local_bad]).

(** A good local file, a remote file whose fetch fails, another good
    local file. *)
Definition raw_remote_bad : RawDataset :=
  RawDataset_init collaborators (Some "remote") (Some load) None
    (Some [local_good; remote_bad; local_good]).

(** [toy] after a successful [fetch()]. *)
Definition toy_fetched : RawDataset :=
  (RawDataset_fetch collaborators None false toy world0).1.2.

(** The definition of [toy] with another working directory. *)
Definition toy_elsewhere : RawDataset :=
  RawDataset_init collaborators (Some "toy") (Some load) (Some "/mnt/raw")
    (Some (file_list toy)).

(** [toy] and the world after [unpack()]. *)
Definition toy_unpacked : RawDataset :=
  (RawDataset_unpack collaborators None false toy world0).1.2.

Definition world_unpacked : World collaborators :=
  (RawDataset_unpack collaborators None false toy world0).2.

(** A dataset as the constructor leaves it without hashes, and a world
    in which a metadata-only record already bears its name. *)
Definition dataset : pydict :=
  [("metadata", PDict [("dataset_name", PStr "toy")]);
   ("data", PList [PInt 1; PInt 2; PInt 3]);
   ("target", PList [PInt 0; PInt 1; PInt 0])].


(** The collaborators above, with an unpacker that refuses the archive
    [broken.zip]. *)
Definition strict : Collaborators :=
  {| Ext := nat;
     raw_data_path := "data/raw";
     interim_data_path := "data/interim";
     processed_data_path := "data/processed";
     fetch_file := fetch_toy;
     unpack := fun f _ calls =>
       match f with
       | PStr n => if String.eqb n "broken.zip"
                   then inl (CollaboratorError "bad archive") else inr (S calls)
       | _ => inr (S calls)
       end;
     get_dataset_filename := get_dataset_filename collaborators;
     read_text := read_text collaborators;
     partial_call_signature := partial_call_signature collaborators;
     func_doc := func_doc collaborators;
     joblib_hash := repr_hash;
     transforms := transforms collaborators;
     process_dataset_default := load |}.

Definition strict_world0 : World strict := MkWorld strict 0%nat [] [].

(** Three archives, the second of which cannot be unpacked. *)
Definition raw_broken : RawDataset :=
  RawDataset_init strict (Some "broken") (Some load) None
    (Some [[("file_name", PStr "good.zip")]; [("file_name", PStr "broken.zip")];
           [("file_name", PStr "later.zip")]]).

(** The keyword arguments of a constructor call. *)
Definition dataset_opts : pydict :=
  [("dataset_name", PStr "toy"); ("data", PList [PInt 1; PInt 2; PInt 3]);
   ("target", PList [PInt 0; PInt 1; PInt 0])].

(** The dataset that the constructor builds from these arguments, the
    world after it was dumped to [cache], the metadata that this dump
    recorded, and the dataset with its payload replaced afterwards. *)
Definition dataset_hashed : pydict :=
  match Dataset_init collaborators dataset_opts with
  | inr ds => ds
  | inl _ => []
  end.

Definition world_dumped : World collaborators :=
  (Dataset_dump collaborators None (Some "cache") "sha1" true true true
     dataset_hashed world0).2.

Definition metadata_dumped : pydict :=
  match Dict.get "cache/toy.metadata" (files world_dumped) with
  | Some (PDict m) => m
  | _ => []
  end.

Definition dataset_mutated : pydict :=
  Dict.set "data" (PList [PInt 9; PInt 9; PInt 9])
    (Dataset_dump collaborators None (Some "cache") "sha1" true true true
       dataset_hashed world0).1.2.

End Demo.

(** * Properties *)

(** ** Dictionary lemmas *)

Section DictFacts.

Implicit Types (k : string) (v : pyval) (d e : pydict).

Lemma eqb_ne k k' : k <> k' -> String.eqb k k' = false.
Proof. intros H. by apply String.eqb_neq. Qed.

Lemma get_set_eq k v d : Dict.get k (Dict.set k v d) = Some v.
Proof.
  induction d as [|[k' v'] d IH]; simpl.
  - by rewrite String.eqb_refl.
  - destruct (String.eqb k k') eqn:E; simpl; rewrite E; [done | exact IH].
Qed.

Lemma get_set_ne k k' v d : k <> k' -> Dict.get k' (Dict.set k v d) = Dict.get k' d.
Proof.
  intros Hne. induction d as [|[k0 v0] d IH]; simpl.
  - rewrite eqb_ne; [done | congruence].
  - destruct (String.eqb k k0) eqn:E; simpl.
    + apply String.eqb_eq in E. subst k0. rewrite eqb_ne; [done | congruence].
    + by rewrite IH.
Qed.

Lemma get_pop_eq k d : Dict.get k (Dict.pop k d) = None.
Proof.
  induction d as [|[k' v'] d IH]; simpl; [done|].
  destruct (String.eqb k k') eqn:E; simpl; [done | by rewrite E].
Qed.

Lemma get_pop_ne k k' d : k <> k' -> Dict.get k' (Dict.pop k d) = Dict.get k' d.
Proof.
  intros Hne. induction d as [|[k0 v0] d IH]; simpl; [done|].
  destruct (String.eqb k k0) eqn:E; simpl.
  - apply String.eqb_eq in E. subst k0. rewrite eqb_ne; [done | congruence].
  - by rewrite IH.
Qed.

Lemma get_pop_all k ks d :
  k ∉ ks -> Dict.get k (Dict.pop_all ks d) = Dict.get k d.
Proof.
  revert d. induction ks as [|k0 ks IH]; intros d Hk; simpl; [done|].
  apply not_elem_of_cons in Hk as [Hne Hk].
  unfold Dict.pop_all in *. simpl. rewrite IH; [|done].
  apply get_pop_ne. congruence.
Qed.

Lemma get_update_absent k d e :
  k ∉ Dict.keys e -> Dict.get k (Dict.update d e) = Dict.get k d.
Proof.
  revert d. induction e as [|[k0 v0] e IH]; intros d Hk; simpl; [done|].
  simpl in Hk. apply not_elem_of_cons in Hk as [Hne Hk].
  unfold Dict.update in *. simpl. rewrite IH; [|done].
  apply get_set_ne. congruence.
Qed.

Lemma get_not_key k d : k ∉ Dict.keys d -> Dict.get k d = None.
Proof.
  induction d as [|[k0 v0] d IH]; simpl; [done|].
  intros Hk. apply not_elem_of_cons in Hk as [Hne Hk].
  rewrite eqb_ne; auto.
Qed.

(** In a dictionary, whose keys are unique, the entry stored last under a
    key is the entry found first. *)
Lemma get_update_present k v d e :
  NoDup (Dict.keys e) -> Dict.get k e = Some v ->
  Dict.get k (Dict.update d e) = Some v.
Proof.
  revert d. induction e as [|[k0 v0] e IH]; intros d Hnd Hget; simpl in *; [done|].
  apply NoDup_cons in Hnd as [Hk0 Hnd].
  unfold Dict.update in *. simpl.
  destruct (String.eqb k k0) eqn:E.
  - apply String.eqb_eq in E. subst k0. injection Hget as ->.
    fold (Dict.update (Dict.set k v d) e).
    rewrite get_update_absent; [|done]. apply get_set_eq.
  - by apply IH.
Qed.

Lemma pop_set_eq k v d : Dict.pop k (Dict.set k v d) = Dict.pop k d.
Proof.
  induction d as [|[k' v'] d IH]; simpl.
  - by rewrite String.eqb_refl.
  - destruct (String.eqb k k') eqn:E; simpl; rewrite E; [done | by rewrite IH].
Qed.

Lemma pop_set_ne k k' v d :
  k <> k' -> Dict.pop k (Dict.set k' v d) = Dict.set k' v (Dict.pop k d).
Proof.
  intros Hne. induction d as [|[k0 v0] d IH]; simpl.
  - by rewrite eqb_ne.
  - destruct (String.eqb k' k0) eqn:E; simpl.
    + apply String.eqb_eq in E. subst k0. rewrite eqb_ne; [|done].
      simpl. by rewrite String.eqb_refl.
    + destruct (String.eqb k k0) eqn:E'; simpl; [done|]. by rewrite E, IH.
Qed.

Lemma pop_pop k k' d : Dict.pop k (Dict.pop k' d) = Dict.pop k' (Dict.pop k d).
Proof.
  induction d as [|[k0 v0] d IH]; simpl; [done|].
  destruct (String.eqb k' k0) eqn:E, (String.eqb k k0) eqn:E'; simpl;
    rewrite ?E, ?E'; by rewrite ?IH.
Qed.

Lemma pop_pop_all k ks d :
  Dict.pop k (Dict.pop_all ks d) = Dict.pop_all ks (Dict.pop k d).
Proof.
  revert d. induction ks as [|k0 ks IH]; intros d; [done|].
  unfold Dict.pop_all in *. simpl. by rewrite IH, pop_pop.
Qed.

(** A merge followed by the removal of [k] does not see what the left
    dictionary holds under [k]. *)
Lemma pop_update_congr k d1 d2 e :
  Dict.pop k d1 = Dict.pop k d2 ->
  Dict.pop k (Dict.update d1 e) = Dict.pop k (Dict.update d2 e).
Proof.
  revert d1 d2. induction e as [|[k0 v0] e IH]; intros d1 d2 H; [done|].
  unfold Dict.update in *. simpl. apply IH.
  destruct (decide (k = k0)) as [->|Hne].
  - by rewrite !pop_set_eq.
  - by rewrite !pop_set_ne, H.
Qed.

Lemma pop_all_congr k ks d1 d2 :
  k ∈ ks -> Dict.pop k d1 = Dict.pop k d2 ->
  Dict.pop_all ks d1 = Dict.pop_all ks d2.
Proof.
  revert d1 d2. induction ks as [|k0 ks IH]; intros d1 d2 Hin H.
  - by apply elem_of_nil in Hin.
  - unfold Dict.pop_all in *. simpl.
    destruct (decide (k = k0)) as [->|Hne].
    + by rewrite H.
    + apply elem_of_cons in Hin as [?|Hin]; [done|].
      apply IH; [done|]. by rewrite (pop_pop k k0 d1), (pop_pop k k0 d2), H.
Qed.

Lemma as_dicts_map (fl : list pydict) : as_dicts (map PDict fl) = Some fl.
Proof. induction fl as [|d fl IH]; simpl; [done | by rewrite IH]. Qed.

End DictFacts.

(** ** The fingerprint *)

Section Fingerprint.

Context (C : Collaborators).

Lemma to_dict_same_definition D1 D2 :
  same_definition D1 D2 -> RawDataset_to_dict D1 = RawDataset_to_dict D2.
Proof.
  intros (Hn & Hf & Hl & Hd). unfold RawDataset_to_dict.
  by rewrite Hn, Hf, Hl, Hd.
Qed.

Lemma from_dict_to_dict D :
  is_Some (transforms C (func_module (load_function D)) (func_name (load_function D))) ->
  RawDataset_from_dict C (RawDataset_to_dict D) =
    inr (RawDataset_init C (Some (name D)) (Some (load_function D)) (Some (dataset_dir D))
           (Some (file_list D))).
Proof.
  intros [fn Hfn]. destruct D as [n fl [m fname a kw] dir f ff u up]. simpl in *.
  unfold RawDataset_from_dict, deserialize_partial, RawDataset_to_dict. cbn.
  rewrite Hfn. by rewrite as_dicts_map.
Qed.

Lemma from_dict_unregistered D :
  transforms C (func_module (load_function D)) (func_name (load_function D)) = None ->
  RawDataset_from_dict C (RawDataset_to_dict D) =
    inl (UnknownFunction (func_module (load_function D)) (func_name (load_function D))).
Proof.
  intros Hfn. destruct D as [n fl [m fname a kw] dir f ff u up]. simpl in *.
  unfold RawDataset_from_dict, deserialize_partial, RawDataset_to_dict. cbn.
  by rewrite Hfn.
Qed.

(** C1. The key is a function of the declarative definition and of the
    transform arguments: any two raw datasets with the same definition
    get the same key for the same arguments, whatever their progress
    flags; and when the transform of [D] is registered,
    [from_dict(to_dict(D))] succeeds and the dataset it builds has the
    definition of [D], hence its key. *)
Theorem to_hash_deterministic (D D2 : RawDataset) (ignore : option (list string))
    (hash_type : string) (A : pydict) :
  same_definition D D2 ->
  is_Some (transforms C (func_module (load_function D)) (func_name (load_function D))) ->
  RawDataset_to_hash C ignore hash_type A D2 = RawDataset_to_hash C ignore hash_type A D /\
  exists D', RawDataset_from_dict C (RawDataset_to_dict D) = inr D' /\
             same_definition D D' /\
             RawDataset_to_hash C ignore hash_type A D' =
               RawDataset_to_hash C ignore hash_type A D.
Proof.
  intros Hsame Hreg. split.
  - unfold RawDataset_to_hash, to_hash_dict.
    by rewrite (to_dict_same_definition D D2 Hsame).
  - eexists. split; [by apply from_dict_to_dict|].
    assert (Hd : same_definition D
              (RawDataset_init C (Some (name D)) (Some (load_function D))
                 (Some (dataset_dir D)) (Some (file_list D)))) by done.
    split; [done|].
    unfold RawDataset_to_hash, to_hash_dict.
    by rewrite <- (to_dict_same_definition _ _ Hd).
Qed.

Lemma to_dict_pop_dir D1 D2 :
  same_but_dir D1 D2 ->
  Dict.pop "dataset_dir" (RawDataset_to_dict D1) =
  Dict.pop "dataset_dir" (RawDataset_to_dict D2).
Proof.
  intros (Hn & Hf & Hl). unfold RawDataset_to_dict.
  by rewrite !pop_set_eq, Hn, Hf, Hl.
Qed.

(** The dictionary that is hashed is the same for both as soon as
    ['dataset_dir'] is among the ignored keys. *)
Lemma to_hash_dict_ignores_dir D1 D2 (ignore : list string) (A : pydict) :
  same_but_dir D1 D2 -> "dataset_dir" ∈ ignore ->
  to_hash_dict (Some ignore) A D1 = to_hash_dict (Some ignore) A D2.
Proof.
  intros Hsame Hin. unfold to_hash_dict. simpl.
  apply (pop_all_congr "dataset_dir"); [done|].
  apply pop_update_congr. by apply to_dict_pop_dir.
Qed.

(** C4. With the default [ignore], two raw datasets that differ only in
    [dataset_dir] and in [fetched_], [fetched_files_], [unpacked_],
    [unpack_path_] get the same key for the same extra arguments, under
    every hash type. *)
Theorem to_hash_ignores_dataset_dir (D1 D2 : RawDataset) (hash_type : string)
    (A : pydict) :
  same_but_dir D1 D2 ->
  RawDataset_to_hash C None hash_type A D1 = RawDataset_to_hash C None hash_type A D2.
Proof.
  intros Hsame. unfold RawDataset_to_hash. f_equal. f_equal.
  apply (to_hash_dict_ignores_dir D1 D2 ["dataset_dir"] A Hsame).
  constructor.
Qed.

(** The same, for the key as [process] computes it, when no keyword
    argument is bound to the [ignore] parameter. *)
Lemma to_hash_kw_ignores_dataset_dir (D1 D2 : RawDataset) (A : pydict) :
  same_but_dir D1 D2 -> Dict.get "ignore" A = None ->
  to_hash_kw C A D1 = to_hash_kw C A D2.
Proof.
  intros Hsame Hig. unfold to_hash_kw, Dict.get_default. rewrite Hig.
  assert (Hd : forall kw, to_hash_dict None kw D1 = to_hash_dict None kw D2).
  { intros kw. apply (to_hash_dict_ignores_dir D1 D2 ["dataset_dir"] kw Hsame).
    constructor. }
  destruct (Dict.get "hash_type" A) as [[| | |ht| |]|]; try done;
    unfold RawDataset_to_hash; by rewrite Hd.
Qed.

End Fingerprint.

(** ** Sensitivity of the fingerprint *)

Section Sensitivity.

Context (C : Collaborators).

Lemma map_PDict_inj (l1 l2 : list pydict) : map PDict l1 = map PDict l2 -> l1 = l2.
Proof.
  revert l2. induction l1 as [|d l1 IH]; intros [|d2 l2] H; simpl in H; try done.
  injection H as -> H. f_equal. by apply IH.
Qed.

(** Writing another hash value into a file of the list changes the list. *)
Lemma set_file_hash_changes (fl : list pydict) (i : nat) (item : pydict) (hv : pyval) :
  fl !! i = Some item -> Dict.get "hash_value" item <> Some hv ->
  <[i := Dict.set "hash_value" hv item]> fl <> fl.
Proof.
  intros Hi Hne Heq.
  assert (Hlt : (i < length fl)%nat) by (eapply lookup_lt_Some; exact Hi).
  pose proof (list_lookup_insert_eq fl i (Dict.set "hash_value" hv item) Hlt) as Hl.
  rewrite Heq, Hi in Hl. injection Hl as Hl.
  apply Hne. rewrite Hl. apply get_set_eq.
Qed.

Lemma get_to_hash_dict (k : string) (A : pydict) (D : RawDataset) :
  k <> "dataset_dir" ->
  Dict.get k (to_hash_dict None A D) = Dict.get k (Dict.update (RawDataset_to_dict D) A).
Proof.
  intros Hk. unfold to_hash_dict. simpl. apply get_pop_ne. congruence.
Qed.

Lemma get_to_hash_dict_own (k : string) (A : pydict) (D : RawDataset) :
  k <> "dataset_dir" -> k ∉ Dict.keys A ->
  Dict.get k (to_hash_dict None A D) = Dict.get k (RawDataset_to_dict D).
Proof.
  intros Hk HA. rewrite get_to_hash_dict; [|done]. by apply get_update_absent.
Qed.

Lemma identity_change_dict (D D' : RawDataset) (A A' : pydict) :
  identity_change D A D' A' -> to_hash_dict None A D <> to_hash_dict None A' D'.
Proof.
  intros Hch Heq.
  assert (Hget : forall k, Dict.get k (to_hash_dict None A D) =
                           Dict.get k (to_hash_dict None A' D'))
    by (intros k; by rewrite Heq).
  destruct Hch as [D' Hne HA | D' i item hv Hi Hhv Hfl HA
                  | D' Hne HA | D' Hne HA | D' Hne HA | D' Hne HA
                  | D' Hne HA | A' k v v' HndA HndA' Hk Hv Hv' Hne
                  | A' k v' HndA' Hk Hown HA Hv'].
  - specialize (Hget "url_list"). rewrite !get_to_hash_dict_own in Hget by done.
    cbn in Hget. injection Hget as Hget. by apply map_PDict_inj in Hget.
  - specialize (Hget "url_list"). rewrite !get_to_hash_dict_own in Hget by done.
    cbn in Hget. injection Hget as Hget. apply map_PDict_inj in Hget.
    rewrite Hfl in Hget. symmetry in Hget.
    by apply (set_file_hash_changes _ _ _ _ Hi Hhv).
  - specialize (Hget "load_function_module").
    rewrite !get_to_hash_dict_own in Hget by done. cbn in Hget. congruence.
  - specialize (Hget "load_function_name").
    rewrite !get_to_hash_dict_own in Hget by done. cbn in Hget. congruence.
  - specialize (Hget "load_function_args").
    rewrite !get_to_hash_dict_own in Hget by done. cbn in Hget. congruence.
  - specialize (Hget "load_function_kwargs").
    rewrite !get_to_hash_dict_own in Hget by done. cbn in Hget. congruence.
  - specialize (Hget "name"). rewrite !get_to_hash_dict_own in Hget by done.
    cbn in Hget. congruence.
  - specialize (Hget k). rewrite !get_to_hash_dict in Hget by done.
    rewrite (get_update_present k v) in Hget by done.
    rewrite (get_update_present k v') in Hget by done. congruence.
  - specialize (Hget k). rewrite get_to_hash_dict_own in Hget by done.
    rewrite get_to_hash_dict in Hget by done.
    rewrite (get_update_present k v') in Hget by done.
    rewrite get_not_key in Hget by done. done.
Qed.

(** C3, as the code has it.  With the default [ignore], a change of the
    file list (a file's hash value among it), of the transform's module,
    name, bound arguments or bound keywords, or of the dataset name
    changes the key when no extra argument is passed under the key of
    the changed entry; a change of the value of an extra argument other
    than ['dataset_dir'], or a new extra argument under a fresh key,
    changes the key; each for a hash that does not collide on the two
    dictionaries. *)
Theorem to_hash_sensitive (D D' : RawDataset) (hash_type : string) (A A' : pydict) :
  identity_change D A D' A' ->
  collision_free C hash_type (to_hash_dict None A D) (to_hash_dict None A' D') ->
  RawDataset_to_hash C None hash_type A D <> RawDataset_to_hash C None hash_type A' D'.
Proof.
  intros Hch Hfree Heq. unfold RawDataset_to_hash in Heq.
  by apply (identity_change_dict D D' A A' Hch), Hfree.
Qed.

End Sensitivity.

Lemma to_hash_sensitive_witness :
  RawDataset_to_hash Demo.collaborators None "sha1" [] Demo.toy <>
  RawDataset_to_hash Demo.collaborators None "sha1" [] Demo.toy_renamed.
Proof.
  apply (to_hash_sensitive Demo.collaborators Demo.toy Demo.toy_renamed "sha1" [] []).
  - apply change_name; [simpl; discriminate | simpl; apply not_elem_of_nil].
  - intros H. vm_compute in H. discriminate H.
Defined.

(** C3, as stated, fails on the code: an extra argument under the key
    ['dataset_dir'] is removed together with the attribute, so that
    changing it leaves the hashed dictionary (hence the key, under every
    hash) as it was; and an extra argument under the key ['name']
    replaces the dataset name, so that renaming the dataset leaves it as
    it was. *)
Lemma to_hash_insensitive :
  (PStr "/tmp/a" <> PStr "/tmp/b" /\
   to_hash_dict None [("dataset_dir", PStr "/tmp/a")] Demo.toy =
   to_hash_dict None [("dataset_dir", PStr "/tmp/b")] Demo.toy /\
   RawDataset_to_hash Demo.collaborators None "sha1" [("dataset_dir", PStr "/tmp/a")] Demo.toy =
   RawDataset_to_hash Demo.collaborators None "sha1" [("dataset_dir", PStr "/tmp/b")] Demo.toy) /\
  (name Demo.toy <> name Demo.toy_renamed /\
   to_hash_dict None [("name", PStr "shared")] Demo.toy =
   to_hash_dict None [("name", PStr "shared")] Demo.toy_renamed /\
   RawDataset_to_hash Demo.collaborators None "sha1" [("name", PStr "shared")] Demo.toy =
   RawDataset_to_hash Demo.collaborators None "sha1" [("name", PStr "shared")] Demo.toy_renamed).
Proof.
  repeat split; try discriminate; vm_compute; reflexivity.
Qed.

(** ** The fetch and unpack stages *)

Section Stages.

Context (C : Collaborators).

Lemma fetch_loop_spec (items : list pydict) :
  forall (ff : list pyval) (w : World C) completed items' ff' w',
  fetch_loop C items ff w = (completed, items', ff', w') ->
  exists attempts : list (pydict * bool),
    trace w' = trace w ++ fetch_events attempts /\
    files w' = files w /\
    (completed = true ->
       map fst attempts = items /\ Forall (fun a => remote_failure a = false) attempts) /\
    (completed = false ->
       exists pre item rest,
         items = map fst pre ++ item :: rest /\ attempts = pre ++ [(item, false)] /\
         has_url item = true /\ Forall (fun a => remote_failure a = false) pre).
Proof.
  induction items as [|item rest IH]; intros ff w completed items' ff' w' H; simpl in H.
  - injection H as <- <- <- <-. exists []. simpl. rewrite app_nil_r.
    split; [done|]. split; [done|]. split; [|done].
    intros _. split; [done | constructor].
  - destruct (fetch_file C item (ext w)) as [e [[status result] hv]].
    destruct status.
    + destruct (fetch_loop C rest _ _) as [[[c r'] f'] w2] eqn:E.
      injection H as <- <- <- <-.
      destruct (IH _ _ _ _ _ _ E) as (att & Htr & Hfi & Hok & Hbr).
      exists ((item, true) :: att). simpl in *. rewrite Htr, <- app_assoc. simpl.
      split; [done|]. split; [done|]. split.
      * intros Hc. destruct (Hok Hc) as [-> Hall]. split; [done|]. by constructor.
      * intros Hc. destruct (Hbr Hc) as (pre & it & rs & -> & -> & Hu & Hpre).
        exists ((item, true) :: pre), it, rs. split_and!; try done; by constructor.
    + destruct (has_url item) eqn:Hurl.
      * injection H as <- <- <- <-. exists [(item, false)]. simpl.
        split; [done|]. split; [done|]. split; [done|].
        intros _. exists [], item, rest. split_and!; try done; constructor.
      * destruct (fetch_loop C rest _ _) as [[[c r'] f'] w2] eqn:E.
        injection H as <- <- <- <-.
        destruct (IH _ _ _ _ _ _ E) as (att & Htr & Hfi & Hok & Hbr).
        assert (Hnr : remote_failure (item, false) = false)
          by (unfold remote_failure; simpl; by rewrite Hurl).
        exists ((item, false) :: att). simpl in *. rewrite Htr, <- app_assoc. simpl.
        split; [done|]. split; [done|]. split.
        -- intros Hc. destruct (Hok Hc) as [-> Hall]. split; [done|]. by constructor.
        -- intros Hc. destruct (Hbr Hc) as (pre & it & rs & -> & -> & Hu & Hpre).
           exists ((item, false) :: pre), it, rs. split_and!; try done; by constructor.
Qed.

Lemma unpack_loop_ok (filenames : list pyval) (dst : string) :
  forall (w w' : World C),
  unpack_loop C filenames dst w = (None, w') ->
  trace w' = trace w ++ unpack_events dst filenames /\ files w' = files w.
Proof.
  induction filenames as [|f rest IH]; intros w w' H; simpl in H.
  - injection H as <-. simpl. by rewrite app_nil_r.
  - destruct (unpack C f dst _) as [e|e'] eqn:E; [done|].
    destruct (IH _ _ H) as [Htr Hfi]. simpl in *.
    rewrite Htr, <- app_assoc. done.
Qed.

Lemma unpack_loop_raise (filenames : list pyval) (dst : string) :
  forall (w w' : World C) (e : exn),
  unpack_loop C filenames dst w = (Some e, w') ->
  files w' = files w /\
  exists pre f post,
    filenames = pre ++ f :: post /\
    trace w' = trace w ++ unpack_events dst (pre ++ [f]).
Proof.
  induction filenames as [|f rest IH]; intros w w' e H; simpl in H; [done|].
  destruct (unpack C f dst _) as [e0|e'] eqn:E.
  - injection H as <- <-. split; [done|]. by exists [], f, rest.
  - destruct (IH _ _ _ H) as (Hfi & pre & f' & post & -> & Htr). simpl in *.
    split; [done|]. exists (f :: pre), f', post. split; [done|].
    rewrite Htr, <- app_assoc. done.
Qed.




(** C9, on the code.  With [fetched_] true, [fetch(force=False)] changes
    nothing, and what it returns is [None], not the status. *)
Theorem fetch_skip_returns_None (fetch_path : option string) (self : RawDataset)
    (w : World C) :
  fetched_ self = true ->
  RawDataset_fetch C fetch_path false self w = (None, self, w).
Proof. intros H. unfold RawDataset_fetch. by rewrite H. Qed.


Lemma fetch_keeps_unpacked (fetch_path : option string) (force : bool)
    (self : RawDataset) (w : World C) :
  unpacked_ (RawDataset_fetch C fetch_path force self w).1.2 = unpacked_ self /\
  name (RawDataset_fetch C fetch_path force self w).1.2 = name self.
Proof.
  unfold RawDataset_fetch. destruct (fetched_ self && negb force); [done|].
  by destruct (fetch_loop C (file_list self) [] w) as [[[? ?] ?] ?].
Qed.

Lemma ensure_fetched_keeps (self : RawDataset) (w : World C) :
  unpacked_ (ensure_fetched C self w).1 = unpacked_ self /\
  name (ensure_fetched C self w).1 = name self.
Proof.
  unfold ensure_fetched. destruct (fetched_ self); simpl; [done|].
  pose proof (fetch_keeps_unpacked None false self w) as H.
  by destruct (RawDataset_fetch C None false self w) as [[? ?] ?].
Qed.

(** C8, as the code has it.  When [fetch] runs its loop (the dataset is
    not fetched yet, or [force] is given), it sets [fetched_] only when
    it has visited the whole file list and every item with a url was
    fetched with success, and a failed item with a url leaves it false.
    When [unpack] runs its loop (the dataset is not unpacked yet, or
    [force] is given), whatever [fetched_] was, it sets [unpacked_] only
    after the unpacker has returned for every file of [fetched_files_],
    and when the unpacker raises the flag is left as it was: false on a
    dataset that was not unpacked. *)
Theorem stage_flags (fetch_path unpack_path : option string) (force : bool)
    (self : RawDataset) (w : World C) :
  (fetched_ self && negb force = false ->
   exists attempts : list (pydict * bool),
     let '(_, self', w') := RawDataset_fetch C fetch_path force self w in
     trace w' = trace w ++ fetch_events attempts /\
     (fetched_ self' = true ->
        map fst attempts = file_list self /\
        forall a, a ∈ attempts -> has_url a.1 = true -> a.2 = true) /\
     (forall a, a ∈ attempts -> has_url a.1 = true -> a.2 = false ->
        fetched_ self' = false)) /\
  (unpacked_ self && negb force = false ->
   let '(self1, w1) := ensure_fetched C self w in
   let '(r, self', w') := RawDataset_unpack C unpack_path force self w in
   match r with
   | inr _ =>
       unpacked_ self' = true /\
       exists dst, unpack_path_ self' = Some dst /\
                   trace w' = trace w1 ++ unpack_events dst (fetched_files_ self1)
   | inl _ => unpacked_ self' = unpacked_ self
   end).
Proof.
  split.
  - intros Hrun. unfold RawDataset_fetch. rewrite Hrun.
    destruct (fetch_loop C (file_list self) [] w) as [[[c items'] ff'] w'] eqn:E.
    destruct (fetch_loop_spec _ _ _ _ _ _ _ E) as (att & Htr & _ & Hok & Hbr).
    exists att. simpl. split; [done|]. split.
    + intros ->. destruct (Hok eq_refl) as [Hmap Hall]. split; [done|].
      intros a Hin Hurl. rewrite Forall_forall in Hall. apply Hall in Hin.
      unfold remote_failure in Hin. rewrite Hurl in Hin.
      destruct (a.2); simpl in *; done.
    + intros a Hin Hurl Hst. destruct c; [|done].
      destruct (Hok eq_refl) as [_ Hall]. rewrite Forall_forall in Hall.
      apply Hall in Hin. unfold remote_failure in Hin.
      rewrite Hurl, Hst in Hin. done.
  - intros Hrun. unfold RawDataset_unpack.
    pose proof (ensure_fetched_keeps self w) as [Hk _].
    destruct (ensure_fetched C self w) as [self1 w1]. simpl in Hk.
    rewrite Hk, Hrun.
    destruct (unpack_loop C (fetched_files_ self1) _ w1) as [[e|] w2] eqn:E.
    + simpl. congruence.
    + simpl. split; [done|]. eexists. split; [done|].
      by apply unpack_loop_ok in E as [-> _].
Qed.


End Stages.


Lemma fetch_skip_returns_None_witness :
  RawDataset_fetch Demo.collaborators None false Demo.toy_fetched Demo.world0 =
    (None, Demo.toy_fetched, Demo.world0).
Proof.
  apply (fetch_skip_returns_None Demo.collaborators None Demo.toy_fetched Demo.world0).
  reflexivity.
Defined.

Lemma stage_flags_witness :
  (exists attempts : list (pydict * bool),
     let '(_, self', w') :=
       RawDataset_fetch Demo.collaborators None true Demo.toy_fetched Demo.world0 in
     trace w' = trace Demo.world0 ++ fetch_events attempts /\
     (fetched_ self' = true ->
        map fst attempts = file_list Demo.toy_fetched /\
        forall a, a ∈ attempts -> has_url a.1 = true -> a.2 = true) /\
     (forall a, a ∈ attempts -> has_url a.1 = true -> a.2 = false ->
        fetched_ self' = false)) /\
  (let '(self1, w1) := ensure_fetched Demo.collaborators Demo.toy_fetched Demo.world0 in
   let '(r, self', w') :=
     RawDataset_unpack Demo.collaborators None true Demo.toy_fetched Demo.world0 in
   match r with
   | inr _ =>
       unpacked_ self' = true /\
       exists dst, unpack_path_ self' = Some dst /\
                   trace w' = trace w1 ++ unpack_events dst (fetched_files_ self1)
   | inl _ => unpacked_ self' = unpacked_ Demo.toy_fetched
   end).
Proof.
  destruct (stage_flags Demo.collaborators None None true Demo.toy_fetched Demo.world0)
    as [Hfetch Hunpack].
  split; [apply Hfetch | apply Hunpack]; reflexivity.
Defined.

(** C8, as stated, fails on the code.  The one file of [raw_local_bad]
    has no url and its fetch fails: [fetch] sets [fetched_] all the same.
    The second file of [raw_remote_bad] is never fetched: [unpack] sets
    [unpacked_] after unpacking the first file alone. *)
Lemma flag_set_despite_failure :
  (file_list Demo.raw_local_bad = [Demo.local_bad] /\
   trace (RawDataset_fetch Demo.collaborators None false Demo.raw_local_bad
            Demo.world0).2 = [EvFetch Demo.local_bad false] /\
   fetched_ (RawDataset_fetch Demo.collaborators None false Demo.raw_local_bad
               Demo.world0).1.2 = true) /\
  (file_list Demo.raw_remote_bad = [Demo.local_good; Demo.remote_bad; Demo.local_good] /\
   trace (RawDataset_unpack Demo.collaborators None false Demo.raw_remote_bad
            Demo.world0).2 =
     [EvFetch Demo.local_good true; EvFetch Demo.remote_bad false;
      EvUnpack (PStr "toy.csv") "data/interim/remote"] /\
   unpacked_ (RawDataset_unpack Demo.collaborators None false Demo.raw_remote_bad
                Demo.world0).1.2 = true).
Proof. repeat split; vm_compute; reflexivity. Qed.


(** ** Dumping a Dataset *)

Section Dump.

Context (C : Collaborators).

Lemma metadata_dataset_paths (dir base : string) :
  path_join dir (base +:+ ".metadata") <> path_join dir (base +:+ ".dataset").
Proof.
  unfold path_join. intros H.
  apply (inj (String.app dir)) in H.
  apply (inj (String.app "/")) in H.
  apply (inj (String.app base)) in H.
  discriminate H.
Qed.

Lemma items_le_spec (a b : pydict) :
  items_le a b = true <->
  (length a <= length b)%nat /\ forall kv, kv ∈ a -> item_in kv b = true.
Proof.
  unfold items_le. rewrite andb_true_iff, Nat.leb_le, forallb_forall.
  split; intros [Hl H]; (split; [done|]); intros kv Hin; apply H;
    by apply list_elem_of_In.
Qed.

(** The full record always embeds the metadata merged with the hashes of
    the payload as it is when [dump] is called. *)
Lemma dump_full_record (file_base dump_path : option string) (hash_type : string)
    (create_dirs dump_metadata : bool) (self metadata : pydict) (base : string)
    (w : World C) :
  Dict.get "metadata" self = Some (PDict metadata) ->
  dump_file_base file_base metadata = inr base ->
  let dir := default (processed_data_path C) dump_path in
  let self' :=
    Dict.set "metadata"
      (PDict (Dict.update metadata (Dataset_get_data_hashes C None hash_type self))) self in
  Dataset_dump C file_base dump_path hash_type true create_dirs dump_metadata self w =
    (inr tt, self',
     write_file C (path_join dir (base +:+ ".dataset")) (PDict self')
       (if dump_metadata
        then write_file C (path_join dir (base +:+ ".metadata")) (PDict metadata) w
        else w)).
Proof.
  intros Hm Hb. unfold Dataset_dump. rewrite Hm, Hb. simpl. reflexivity.
Qed.

Lemma get_elem_of (k : string) (v : pyval) (d : pydict) :
  Dict.get k d = Some v -> (k, v) ∈ d.
Proof.
  induction d as [|[k' v'] d IH]; simpl; [done|].
  destruct (String.eqb k k') eqn:E.
  - apply String.eqb_eq in E as <-. intros [= <-]. constructor.
  - intros H. constructor. by apply IH.
Qed.

Lemma load_metadata_record (base : string) (dump_path : option string) (v : pyval)
    (w : World C) :
  Dataset_load C base dump_path true w = inr v ->
  Dict.get (path_join (default (processed_data_path C) dump_path) (base +:+ ".metadata"))
    (files w) = Some v.
Proof.
  unfold Dataset_load. simpl.
  destruct (Dict.get _ (files w)) as [v'|]; [|done]. by intros [= <-].
Qed.

(** C6, on the code.  A metadata-only record exists under the file-base
    name and the hash algorithm is one that [joblib.hash] supports.
    Without [force], [dump] raises and leaves every file as it was, as
    the claim says; but which exception it raises is decided on the
    metadata as [dump] found it, not on the metadata that the dataset
    carries from then on, with the hashes [dump] has just refreshed: it
    reports matching metadata also when that new metadata has an entry
    that the record does not hold.  With [force], creating the
    directory and writing the metadata copy, [dump] returns and [load]
    reads back what this call wrote. *)
Theorem dump_conflict_test_stale (file_base dump_path : option string)
    (hash_type : string) (create_dirs dump_metadata : bool)
    (self metadata cached : pydict) (base : string) (w : World C) :
  supported_hash hash_type ->
  Dict.get "metadata" self = Some (PDict metadata) ->
  dump_file_base file_base metadata = inr base ->
  Dataset_load C base dump_path true w = inr (PDict cached) ->
  let refreshed :=
    Dict.update metadata (Dataset_get_data_hashes C None hash_type self) in
  (let '(r, self', w') :=
     Dataset_dump C file_base dump_path hash_type false create_dirs dump_metadata self w in
   r = inl (if items_le metadata cached then MatchingMetadataExists
            else MetadataChanged (base +:+ ".metadata")) /\
   w' = w /\
   Dict.get "metadata" self' = Some (PDict refreshed) /\
   (items_le metadata cached = true ->
    (exists k v, Dict.get k refreshed = Some v /\ item_in (k, v) cached = false) ->
    r = inl MatchingMetadataExists /\ items_le refreshed cached = false)) /\
  (let '(r, self', w') :=
     Dataset_dump C file_base dump_path hash_type true true true self w in
   r = inr tt /\
   Dataset_load C base dump_path true w' = inr (PDict metadata) /\
   Dataset_load C base dump_path false w' = inr (PDict self')).
Proof.
  intros _ Hm Hb Hex refreshed. apply load_metadata_record in Hex. split.
  - unfold Dataset_dump. rewrite Hm, Hb. simpl. rewrite Hex.
    assert (Hstale : items_le metadata cached = true ->
              (exists k v, Dict.get k refreshed = Some v /\
                           item_in (k, v) cached = false) ->
              items_le refreshed cached = false).
    { intros _ (k & v & Hget & Hnot).
      destruct (items_le refreshed cached) eqn:E; [|done].
      apply items_le_spec in E as [_ E].
      apply get_elem_of, E in Hget. congruence. }
    destruct (items_le metadata cached); simpl.
    + split_and!; [done | done | apply get_set_eq |].
      intros H1 H2. split; [done | by apply Hstale].
    + split_and!; [done | done | apply get_set_eq | done].
  - rewrite (dump_full_record file_base dump_path hash_type true true
               self metadata base w Hm Hb).
    split; [done|]. unfold Dataset_load. simpl. split.
    + rewrite get_set_ne by (symmetry; apply metadata_dataset_paths).
      by rewrite get_set_eq.
    + by rewrite get_set_eq.
Qed.

(** When the metadata already carries the hashes of the payload, as it
    does right after the constructor ran with [update_hashes], the two
    records written by one [dump] hold the same metadata. *)
Lemma dump_records_agree (file_base dump_path : option string) (hash_type : string)
    (create_dirs : bool) (self metadata : pydict) (base : string) (w : World C) :
  Dict.get "metadata" self = Some (PDict metadata) ->
  dump_file_base file_base metadata = inr base ->
  Dict.update metadata (Dataset_get_data_hashes C None hash_type self) = metadata ->
  let dir := default (processed_data_path C) dump_path in
  let '(_, self', w') :=
    Dataset_dump C file_base dump_path hash_type true create_dirs true self w in
  exists m, Dict.get (path_join dir (base +:+ ".metadata")) (files w') =
              Some (PDict m) /\
            Dict.get "metadata" self' = Some (PDict m).
Proof.
  intros Hm Hb Hfresh dir.
  rewrite (dump_full_record file_base dump_path hash_type create_dirs true
             self metadata base w Hm Hb).
  fold dir. exists metadata. simpl. split.
  - rewrite get_set_ne by (symmetry; apply metadata_dataset_paths).
    by rewrite get_set_eq.
  - by rewrite Hfresh, get_set_eq.
Qed.

(** C7, on the code.  [Dataset(dataset_name='toy', data=[1, 2, 3],
    update_hashes=False)] is dumped under its name: the metadata-only
    record holds the metadata without any hash, the full record embeds
    the metadata with the refreshed hashes. *)
Theorem dump_metadata_record_stale (w : World C) :
  let data := PList [PInt 1; PInt 2; PInt 3] in
  let opts := [("dataset_name", PStr "toy"); ("data", data);
               ("update_hashes", PBool false)] in
  exists ds,
    Dataset_init C opts = inr ds /\
    let '(r, ds', w') := Dataset_dump C None (Some "cache") "sha1" true true true ds w in
    r = inr tt /\
    Dict.get "cache/toy.metadata" (files w') =
      Some (PDict [("dataset_name", PStr "toy")]) /\
    Dict.get "cache/toy.dataset" (files w') = Some (PDict ds') /\
    Dict.get "metadata" ds' =
      Some (PDict [("dataset_name", PStr "toy"); ("hash_type", PStr "sha1");
                   ("data_hash", PStr (joblib_hash C "sha1" data));
                   ("target_hash", PStr (joblib_hash C "sha1" PNone))]).
Proof.
  intros data opts. eexists. split; [reflexivity|].
  erewrite (dump_full_record None (Some "cache") "sha1" true true _ _ "toy" w);
    [|reflexivity|reflexivity].
  split; [done|]. split_and!.
  - simpl. rewrite get_set_ne by done. apply get_set_eq.
  - simpl. apply get_set_eq.
  - reflexivity.
Qed.

End Dump.

(** ** Processing twice *)

Section Process.

Context (C : Collaborators).

Lemma transform_calls_app (t1 t2 : list event) :
  transform_calls (t1 ++ t2) = (transform_calls t1 + transform_calls t2)%nat.
Proof.
  induction t1 as [|[] t1 IH]; simpl; [done| done | done |]. by rewrite IH.
Qed.

(** A [dump] that returns has written the full record, and calls no
    collaborator. *)
Lemma dump_stores (file_base dump_path hash_type : string)
    (force create_dirs dump_metadata : bool) (self self' : pydict) (w w' : World C) (u : unit) :
  Dataset_dump C (Some file_base) (Some dump_path) hash_type force create_dirs
    dump_metadata self w = (inr u, self', w') ->
  Dict.get (path_join dump_path (file_base +:+ ".dataset")) (files w') =
    Some (PDict self') /\
  trace w' = trace w.
Proof.
  unfold Dataset_dump. destruct (Dict.get "metadata" self) as [[| | | | |m]|]; try done.
  simpl.
  destruct (if negb force then _ else _) as [[| | | | |cm]|]; try done.
  - by destruct (items_le m cm).
  - intros H. injection H as _ <- <-. simpl. split; [apply get_set_eq|].
    by destruct dump_metadata.
Qed.

Lemma call_load_function_trace (f : callable) (kwargs : pydict) (w w' : World C)
    (v : pyval) :
  call_load_function C f kwargs w = (inr v, w') ->
  transform_calls (trace w') = S (transform_calls (trace w)) /\ files w' = files w.
Proof.
  unfold call_load_function.
  destruct (transforms C (func_module f) (func_name f)) as [fn|]; [|done].
  destruct (fn _ _ _) as [r e]. intros H. injection H as -> <-. simpl.
  rewrite transform_calls_app. simpl. split; [lia | done].
Qed.

(** The creation branch of [process], when it returns, has run the
    transform once and left the dataset in the cache under the key. *)
Lemma process_create_stores (cache_path meta_hash : string) (use_docstring : bool)
    (kwargs : pydict) (self : RawDataset) (w w' : World C) (dset : pydict) :
  process_create C cache_path meta_hash use_docstring kwargs self w = (inr dset, w') ->
  Dict.get (path_join cache_path (meta_hash +:+ ".dataset")) (files w') =
    Some (PDict dset) /\
  transform_calls (trace w') = S (transform_calls (trace w)).
Proof.
  unfold process_create.
  destruct (RawDataset_default_metadata C use_docstring self w) as [e|metadata]; [done|].
  destruct (Dict.get_default "metadata" (PDict []) kwargs) as [| | | | |sm]; try done.
  destruct (call_load_function C _ _ w) as [[e|v] w1] eqn:Ecall; [done|].
  apply call_load_function_trace in Ecall as [Htr _].
  destruct v as [| | | | |dset_opts]; try done.
  destruct (Dataset_init C dset_opts) as [e|d0]; [done|].
  destruct (Dataset_dump C _ _ _ _ _ _ d0 w1) as [[[e|u] d1] w2] eqn:Edump; [done|].
  intros H. injection H as <- <-.
  apply dump_stores in Edump as [Hfile Htr2]. split; [done|]. by rewrite Htr2.
Qed.

(** C2. On an unpacked raw dataset, when [process(force=False)] returns
    a value, the same call made again returns the same value (the same
    Dataset, hence the same metadata) and changes nothing; that value is
    what the cache holds under the fingerprint key; and the transform was
    invoked at most once over the two calls. *)
Theorem process_idempotent (cache_path : option string)
    (return_X_y use_docstring : bool) (kwargs : pydict)
    (self self1 : RawDataset) (w w1 : World C) (r1 : pyval) :
  unpacked_ self = true ->
  RawDataset_process C cache_path false return_X_y use_docstring kwargs self w =
    (inr r1, self1, w1) ->
  RawDataset_process C cache_path false return_X_y use_docstring kwargs self1 w1 =
    (inr r1, self1, w1) /\
  (exists meta_hash dset,
     to_hash_kw C kwargs self1 = inr meta_hash /\
     Dataset_load C meta_hash (Some (default (interim_data_path C) cache_path)) false w1 =
       inr dset /\
     process_return return_X_y dset = inr r1) /\
  (transform_calls (trace w1) <= S (transform_calls (trace w)))%nat.
Proof.
  intros Hu H. unfold RawDataset_process in H. rewrite Hu in H. simpl in H.
  destruct (to_hash_kw C kwargs self) as [e|mh] eqn:Eh; [done|].
  set (cp := default (interim_data_path C) cache_path) in *.
  assert (Hmiss : forall w2 d,
            process_create C cp mh use_docstring kwargs self w = (inr d, w2) ->
            process_return return_X_y (PDict d) = inr r1 -> self1 = self -> w1 = w2 ->
            RawDataset_process C cache_path false return_X_y use_docstring kwargs
              self1 w1 = (inr r1, self1, w1) /\
            (exists meta_hash dset,
               to_hash_kw C kwargs self1 = inr meta_hash /\
               Dataset_load C meta_hash (Some cp) false w1 = inr dset /\
               process_return return_X_y dset = inr r1) /\
            (transform_calls (trace w1) <= S (transform_calls (trace w)))%nat).
  { intros w2 d Ec Hr -> ->. apply process_create_stores in Ec as [Hfile Htr].
    assert (Hload : Dataset_load C mh (Some cp) false w2 = inr (PDict d))
      by (unfold Dataset_load; simpl; by rewrite Hfile).
    split_and!.
    - unfold RawDataset_process. rewrite Hu. simpl. rewrite Eh. simpl. fold cp.
      rewrite Hload. by rewrite Hr.
    - by exists mh, (PDict d).
    - lia. }
  assert (Hhit : forall v,
            Dataset_load C mh (Some cp) false w = inr v -> v <> PNone ->
            process_return return_X_y v = inr r1 -> self1 = self -> w1 = w ->
            RawDataset_process C cache_path false return_X_y use_docstring kwargs
              self1 w1 = (inr r1, self1, w1) /\
            (exists meta_hash dset,
               to_hash_kw C kwargs self1 = inr meta_hash /\
               Dataset_load C meta_hash (Some cp) false w1 = inr dset /\
               process_return return_X_y dset = inr r1) /\
            (transform_calls (trace w1) <= S (transform_calls (trace w)))%nat).
  { intros v Hload Hv Hr -> ->. split_and!.
    - unfold RawDataset_process. rewrite Hu. simpl. rewrite Eh. simpl. fold cp.
      rewrite Hload. destruct v; try done; by rewrite Hr.
    - by exists mh, v.
    - lia. }
  destruct (Dataset_load C mh (Some cp) false w) as [e|v] eqn:El.
  - destruct (process_create C cp mh use_docstring kwargs self w) as [[e'|d] w2] eqn:Ec;
      [done|].
    injection H as Hr <- <-. by apply (Hmiss w2 d).
  - destruct v;
      try (injection H as Hr <- <-; by apply (Hhit _ eq_refl)).
    destruct (process_create C cp mh use_docstring kwargs self w) as [[e'|d] w2] eqn:Ec;
      [done|].
    injection H as Hr <- <-. by apply (Hmiss w2 d).
Qed.

End Process.

Lemma to_hash_deterministic_witness :
  RawDataset_to_hash Demo.collaborators None "sha1" [] Demo.toy_fetched =
    RawDataset_to_hash Demo.collaborators None "sha1" [] Demo.toy /\
  exists D', RawDataset_from_dict Demo.collaborators (RawDataset_to_dict Demo.toy) = inr D' /\
             same_definition Demo.toy D' /\
             RawDataset_to_hash Demo.collaborators None "sha1" [] D' =
               RawDataset_to_hash Demo.collaborators None "sha1" [] Demo.toy.
Proof.
  apply (to_hash_deterministic Demo.collaborators Demo.toy Demo.toy_fetched None "sha1" []).
  - repeat split; vm_compute; reflexivity.
  - vm_compute. eexists. reflexivity.
Defined.

Lemma to_hash_ignores_dataset_dir_witness :
  dataset_dir Demo.toy <> dataset_dir Demo.toy_elsewhere /\
  RawDataset_to_hash Demo.collaborators None "sha1" [("seed", PInt 7)] Demo.toy =
  RawDataset_to_hash Demo.collaborators None "sha1" [("seed", PInt 7)] Demo.toy_elsewhere.
Proof.
  split; [discriminate|].
  apply (to_hash_ignores_dataset_dir Demo.collaborators Demo.toy Demo.toy_elsewhere).
  repeat split; reflexivity.
Defined.

Lemma dump_conflict_test_stale_witness :
  (Dataset_dump Demo.collaborators None (Some "cache") "sha1" false true true
     Demo.dataset_mutated Demo.world_dumped).1.1 = inl MatchingMetadataExists /\
  Dict.get "data_hash" Demo.metadata_dumped = Some (PStr "sha1:[1,2,3,]") /\
  Dict.get "data_hash"
    (Dict.update Demo.metadata_dumped
       (Dataset_get_data_hashes Demo.collaborators None "sha1" Demo.dataset_mutated)) =
    Some (PStr "sha1:[9,9,9,]") /\
  items_le
    (Dict.update Demo.metadata_dumped
       (Dataset_get_data_hashes Demo.collaborators None "sha1" Demo.dataset_mutated))
    Demo.metadata_dumped = false.
Proof.
  destruct (dump_conflict_test_stale Demo.collaborators None (Some "cache") "sha1" true
              true Demo.dataset_mutated Demo.metadata_dumped Demo.metadata_dumped "toy"
              Demo.world_dumped) as [Hfail _].
  - by right.
  - reflexivity.
  - reflexivity.
  - reflexivity.
  - destruct (Dataset_dump Demo.collaborators None (Some "cache") "sha1" false true true
                Demo.dataset_mutated Demo.world_dumped) as [[r s] w'].
    destruct Hfail as (_ & _ & _ & Hstale).
    destruct Hstale as [-> Hnot]; [reflexivity | |].
    + exists "data_hash", (PStr "sha1:[9,9,9,]"). split; reflexivity.
    + split_and!; [reflexivity | reflexivity | reflexivity | exact Hnot].
Defined.

Lemma process_idempotent_witness :
  exists (r1 : pyval) (w1 : World Demo.collaborators),
    RawDataset_process Demo.collaborators None false false false []
      Demo.toy_unpacked Demo.world_unpacked = (inr r1, Demo.toy_unpacked, w1) /\
    RawDataset_process Demo.collaborators None false false false []
      Demo.toy_unpacked w1 = (inr r1, Demo.toy_unpacked, w1) /\
    transform_calls (trace w1) = 1%nat.
Proof.
  eexists. eexists.
  assert (Hfirst : RawDataset_process Demo.collaborators None false false false []
                     Demo.toy_unpacked Demo.world_unpacked =
                   (inr ?[r1], Demo.toy_unpacked, ?[w1]))
    by (vm_compute; reflexivity).
  split; [exact Hfirst|]. split.
  - apply (process_idempotent Demo.collaborators None false false []
             Demo.toy_unpacked Demo.toy_unpacked Demo.world_unpacked _ _);
      [vm_compute; reflexivity | exact Hfirst].
  - vm_compute. reflexivity.
Defined.

(** ** The pipeline on the toy dataset *)

(** [process()] on a raw dataset that was never fetched nor unpacked runs
    the three stages: both flags end up true, the fetcher, the unpacker
    and the transform were called once each, and the metadata of the
    dataset carries the hashes of its payloads. *)
Example process_from_scratch :
  let r := RawDataset_process Demo.collaborators None false false false []
             Demo.toy Demo.world0 in
  fetched_ r.1.2 = true /\ unpacked_ r.1.2 = true /\
  map (fun ev => match ev with
                 | EvFetch _ _ => "fetch"
                 | EvUnpack _ _ => "unpack"
                 | EvTransform _ _ => "transform"
                 end) (trace r.2) = ["fetch"; "unpack"; "transform"] /\
  r.1.1 = inr (PDict
    [("metadata",
      PDict [("dataset_name", PStr "toy"); ("hash_type", PStr "sha1");
             ("data_hash", PStr "sha1:[1,2,3,]");
             ("target_hash", PStr "sha1:[0,1,0,]")]);
     ("data", PList [PInt 1; PInt 2; PInt 3]);
     ("target", PList [PInt 0; PInt 1; PInt 0])]).
Proof. repeat split; vm_compute; reflexivity. Qed.

(** With [return_X_y], the pair of payloads comes back. *)
Example process_return_X_y :
  (RawDataset_process Demo.collaborators None false true false []
     Demo.toy Demo.world0).1.1 =
  inr (PList [PList [PInt 1; PInt 2; PInt 3]; PList [PInt 0; PInt 1; PInt 0]]).
Proof. vm_compute. reflexivity. Qed.

(** A forced [process()] runs the transform again. *)
Example process_forced_twice :
  let r := RawDataset_process Demo.collaborators None true false false []
             Demo.toy Demo.world0 in
  transform_calls
    (trace (RawDataset_process Demo.collaborators None true false false []
              r.1.2 r.2).2) = 2%nat.
Proof. vm_compute. reflexivity. Qed.

(** An unregistered transform makes [from_dict] fail. *)
Example from_dict_unknown_transform :
  RawDataset_from_dict Demo.collaborators
    [("url_list", PList []); ("load_function_module", PStr "toy");
     ("load_function_name", PStr "missing"); ("load_function_args", PList []);
     ("load_function_kwargs", PDict []); ("name", PStr "x")] =
  inl (UnknownFunction "toy" "missing").
Proof. reflexivity. Qed.

(** The payload of a dataset is replaced after the constructor has
    hashed it; [dump] then writes the hash of the old payload to the
    metadata-only record and the hash of the new one to the full
    record. *)
Example dump_after_mutation :
  match Dataset_init Demo.collaborators
          [("dataset_name", PStr "toy"); ("data", PList [PInt 1])] with
  | inr ds =>
      let ds := Dict.set "data" (PList [PInt 2]) ds in
      let '(_, ds', w') :=
        Dataset_dump Demo.collaborators None (Some "cache") "sha1" true true true
          ds Demo.world0 in
      match Dict.get "cache/toy.metadata" (files w'), Dict.get "metadata" ds' with
      | Some (PDict recorded), Some (PDict embedded) =>
          Dict.get "data_hash" recorded = Some (PStr "sha1:[1,]") /\
          Dict.get "data_hash" embedded = Some (PStr "sha1:[2,]")
      | _, _ => False
      end
  | inl _ => False
  end.
Proof. vm_compute. split; reflexivity. Qed.

(** * Further properties *)

(** ** Fetching and unpacking *)

Section MoreStages.

Context (C : Collaborators).

Lemma set_same (k : string) (v : pyval) (d : pydict) :
  Dict.get k d = Some v -> Dict.set k v d = d.
Proof.
  induction d as [|[k' v'] d IH]; simpl; [done|].
  destruct (String.eqb k k') eqn:E.
  - by intros [= ->].
  - intros H. by rewrite IH.
Qed.

(** What the loop of [fetch] does to the file list, to the list of
    fetched files and to the world. *)
Lemma fetch_loop_shape (items : list pydict) :
  forall (ff : list pyval) (w : World C) completed items' ff' w',
  fetch_loop C items ff w = (completed, items', ff', w') ->
  Forall2 (fun old new => new = old \/ exists hv, new = Dict.set "hash_value" hv old)
    items items' /\
  exists attempts : list (pydict * bool),
    trace w' = trace w ++ fetch_events attempts /\
    (length attempts <= length items)%nat /\
    length ff' = (length ff + length (List.filter snd attempts))%nat.
Proof.
  induction items as [|item rest IH]; intros ff w completed items' ff' w' H; simpl in H.
  - injection H as <- <- <- <-. split; [constructor|].
    exists []. simpl. rewrite app_nil_r. split_and!; [done | done | lia].
  - destruct (fetch_file C item (ext w)) as [e [[status result] hv]].
    destruct status.
    + destruct (fetch_loop C rest _ _) as [[[c r'] f'] w2] eqn:E.
      injection H as <- <- <- <-.
      destruct (IH _ _ _ _ _ _ E) as (Hall & att & Htr & Hlen & Hff).
      split; [constructor; [right; by eexists | done]|].
      exists ((item, true) :: att). simpl in *.
      rewrite Htr, <- app_assoc, Hff, length_app. simpl. split_and!; [done | lia | lia].
    + destruct (has_url item).
      * injection H as <- <- <- <-. split.
        { constructor; [by left|]. apply Forall2_same_length_lookup_2; [done|].
          intros i x y Hx Hy. left. congruence. }
        exists [(item, false)]. simpl. split_and!; [done | lia | lia].
      * destruct (fetch_loop C rest _ _) as [[[c r'] f'] w2] eqn:E.
        injection H as <- <- <- <-.
        destruct (IH _ _ _ _ _ _ E) as (Hall & att & Htr & Hlen & Hff).
        split; [constructor; [by left | done]|].
        exists ((item, false) :: att). simpl in *.
        rewrite Htr, <- app_assoc, Hff. simpl. split_and!; [done | lia | lia].
Qed.

Lemma fetch_frame (fetch_path : option string) (force : bool)
    (self : RawDataset) (w : World C) :
  let '(_, self', w') := RawDataset_fetch C fetch_path force self w in
  name self' = name self /\ load_function self' = load_function self /\
  dataset_dir self' = dataset_dir self /\ unpacked_ self' = unpacked_ self /\
  unpack_path_ self' = unpack_path_ self /\
  Forall2 (fun old new => new = old \/ exists hv, new = Dict.set "hash_value" hv old)
    (file_list self) (file_list self') /\
  files w' = files w.
Proof.
  unfold RawDataset_fetch. destruct (fetched_ self && negb force).
  - split_and!; try done.
    apply Forall2_same_length_lookup_2; [done|]. intros i x y Hx Hy. left. congruence.
  - destruct (fetch_loop C (file_list self) [] w) as [[[c items'] ff'] w'] eqn:E.
    destruct (fetch_loop_shape _ _ _ _ _ _ _ E) as (Hall & _).
    destruct (fetch_loop_spec C _ _ _ _ _ _ _ E) as (_ & _ & Hfiles & _).
    simpl. split_and!; done.
Qed.

(** X1. [fetch] touches nothing but [fetched_], [fetched_files_] and the
    hash values of the files: the name, the transform, the directory and
    the unpack attributes stay, the file list keeps its length, each item
    is left as it was or gets its ['hash_value'] rewritten, and no file
    of the cache is written. *)
Theorem fetch_keeps_definition (fetch_path : option string) (force : bool)
    (self : RawDataset) (w : World C) :
  let '(_, self', w') := RawDataset_fetch C fetch_path force self w in
  name self' = name self /\ load_function self' = load_function self /\
  dataset_dir self' = dataset_dir self /\ unpacked_ self' = unpacked_ self /\
  unpack_path_ self' = unpack_path_ self /\
  Forall2 (fun old new => new = old \/ exists hv, new = Dict.set "hash_value" hv old)
    (file_list self) (file_list self') /\
  files w' = files w.
Proof. exact (fetch_frame fetch_path force self w). Qed.

(** X2. The list of fetched files is rebuilt by every run of the loop:
    whatever it held before, it ends up with one entry per successful
    call to the fetcher, hence no more entries than there are files. *)
Theorem fetch_rebuilds_fetched_files (fetch_path : option string) (force : bool)
    (self : RawDataset) (w : World C) :
  fetched_ self && negb force = false ->
  exists attempts : list (pydict * bool),
    let '(_, self', w') := RawDataset_fetch C fetch_path force self w in
    trace w' = trace w ++ fetch_events attempts /\
    length (fetched_files_ self') = length (List.filter snd attempts) /\
    (length (fetched_files_ self') <= length (file_list self))%nat.
Proof.
  intros Hrun. unfold RawDataset_fetch. rewrite Hrun.
  destruct (fetch_loop C (file_list self) [] w) as [[[c items'] ff'] w'] eqn:E.
  destruct (fetch_loop_shape _ _ _ _ _ _ _ E) as (_ & att & Htr & Hlen & Hff).
  exists att. simpl in *. split_and!; [done | done |].
  rewrite Hff. pose proof (List.filter_length_le snd att). lia.
Qed.

Lemma fetch_loop_local (items : list pydict) :
  Forall (fun item => has_url item = false) items ->
  forall (ff : list pyval) (w : World C), (fetch_loop C items ff w).1.1.1 = true.
Proof.
  induction 1 as [|item rest Hurl Hrest IH]; intros ff w; simpl; [done|].
  destruct (fetch_file C item (ext w)) as [e [[status result] hv]].
  destruct status.
  - specialize (IH (ff ++ [result]) (log C (EvFetch item true) (set_ext C e w))).
    by destruct (fetch_loop C rest _ _) as [[[c r'] f'] w2].
  - rewrite Hurl.
    specialize (IH ff (log C (EvFetch item false) (set_ext C e w))).
    by destruct (fetch_loop C rest _ _) as [[[c r'] f'] w2].
Qed.

(** X3. When no file of the list has a url, a run of [fetch] ends with
    [fetched_] true and returns [True] whatever the fetcher answers,
    having called it on every file. *)
Theorem fetch_local_only (fetch_path : option string) (force : bool)
    (self : RawDataset) (w : World C) :
  fetched_ self && negb force = false ->
  Forall (fun item => has_url item = false) (file_list self) ->
  exists attempts : list (pydict * bool),
    let '(ret, self', w') := RawDataset_fetch C fetch_path force self w in
    ret = Some true /\ fetched_ self' = true /\
    map fst attempts = file_list self /\
    trace w' = trace w ++ fetch_events attempts.
Proof.
  intros Hrun Hlocal. unfold RawDataset_fetch. rewrite Hrun.
  pose proof (fetch_loop_local _ Hlocal [] w) as Hc.
  destruct (fetch_loop C (file_list self) [] w) as [[[c items'] ff'] w'] eqn:E.
  simpl in Hc. subst c.
  destruct (fetch_loop_spec C _ _ _ _ _ _ _ E) as (att & Htr & _ & Hok & _).
  destruct (Hok eq_refl) as [Hmap _]. exists att. simpl. done.
Qed.

Lemma fetch_loop_confirmed (items : list pydict) :
  (forall item e, item ∈ items ->
     (fetch_file C item e).2.1.1 = true ->
     Dict.get "hash_value" item = Some (fetch_file C item e).2.2) ->
  forall (ff : list pyval) (w : World C), (fetch_loop C items ff w).1.1.2 = items.
Proof.
  induction items as [|item rest IH]; intros Hok ff w; simpl; [done|].
  pose proof (Hok item (ext w) ltac:(constructor)) as Hitem.
  assert (Hrest : forall it e, it ∈ rest ->
            (fetch_file C it e).2.1.1 = true ->
            Dict.get "hash_value" it = Some (fetch_file C it e).2.2)
    by (intros it e Hin; apply Hok; by constructor).
  destruct (fetch_file C item (ext w)) as [e [[status result] hv]]. simpl in Hitem.
  destruct status.
  - specialize (IH Hrest (ff ++ [result]) (log C (EvFetch item true) (set_ext C e w))).
    destruct (fetch_loop C rest _ _) as [[[c r'] f'] w2]. simpl in *.
    by rewrite IH, (set_same _ _ _ (Hitem eq_refl)).
  - destruct (has_url item); [done|].
    specialize (IH Hrest ff (log C (EvFetch item false) (set_ext C e w))).
    destruct (fetch_loop C rest _ _) as [[[c r'] f'] w2]. simpl in *. by rewrite IH.
Qed.

(** X4. When the fetcher, on success, returns the hash that the file
    already declares, [fetch] leaves the file list as it was, and with
    it the key of the dataset, for every [ignore], hash type and extra
    arguments. *)
Theorem fetch_confirmed_keeps_key (fetch_path : option string) (force : bool)
    (self : RawDataset) (w : World C) :
  (forall item e, item ∈ file_list self ->
     (fetch_file C item e).2.1.1 = true ->
     Dict.get "hash_value" item = Some (fetch_file C item e).2.2) ->
  let self' := (RawDataset_fetch C fetch_path force self w).1.2 in
  file_list self' = file_list self /\
  forall ignore hash_type A,
    RawDataset_to_hash C ignore hash_type A self' =
    RawDataset_to_hash C ignore hash_type A self.
Proof.
  intros Hok self'.
  assert (Hfl : file_list self' = file_list self).
  { unfold self', RawDataset_fetch. destruct (fetched_ self && negb force); [done|].
    pose proof (fetch_loop_confirmed _ Hok [] w) as H.
    by destruct (fetch_loop C (file_list self) [] w) as [[[c items'] ff'] w']. }
  split; [done|]. intros ignore hash_type A.
  pose proof (fetch_frame fetch_path force self w) as Hk.
  unfold self' in *.
  destruct (RawDataset_fetch C fetch_path force self w) as [[ret s] w']. simpl in *.
  destruct Hk as (Hn & Hl & Hd & _).
  unfold RawDataset_to_hash, to_hash_dict, RawDataset_to_dict.
  by rewrite Hn, Hl, Hd, Hfl.
Qed.

Lemma ensure_fetched_files (self : RawDataset) (w : World C) :
  files (ensure_fetched C self w).2 = files w.
Proof.
  unfold ensure_fetched. destruct (fetched_ self); simpl; [done|].
  pose proof (fetch_frame None false self w) as H.
  destruct (RawDataset_fetch C None false self w) as [[? ?] ?]. simpl. apply H.
Qed.

(** X5. When [unpack] raises, it does so in the loop over the fetched
    files: the files before the offending one were unpacked, the files
    after it are not attempted, the dataset is left as the implicit
    fetch left it (so [unpacked_] keeps its value), and no file of the
    cache is written. *)
Theorem unpack_raises (unpack_path : option string) (force : bool)
    (self self' : RawDataset) (w w' : World C) (e : exn) :
  RawDataset_unpack C unpack_path force self w = (inl e, self', w') ->
  let dst := default (path_join (interim_data_path C) (name self)) unpack_path in
  self' = (ensure_fetched C self w).1 /\ unpacked_ self' = unpacked_ self /\
  files w' = files w /\
  exists pre f post,
    fetched_files_ self' = pre ++ f :: post /\
    trace w' = trace (ensure_fetched C self w).2 ++ unpack_events dst (pre ++ [f]).
Proof.
  intros H dst. unfold RawDataset_unpack in H.
  pose proof (ensure_fetched_keeps C self w) as [Hu Hn].
  pose proof (ensure_fetched_files self w) as Hf.
  destruct (ensure_fetched C self w) as [self1 w1]. simpl in *.
  destruct (unpacked_ self1 && negb force); [done|].
  rewrite Hn in H. fold dst in H.
  destruct (unpack_loop C (fetched_files_ self1) dst w1) as [[e0|] w2] eqn:E; [|done].
  injection H as <- <- <-.
  apply unpack_loop_raise in E as (Hfiles & pre & f & post & Hpre & Htr).
  split_and!; try done; [congruence|]. by exists pre, f, post.
Qed.

End MoreStages.

(** ** Adding files to a raw dataset *)

Section Adding.

Context (C : Collaborators).

Lemma fetch_loop_nonempty (items : list pydict) (ff : list pyval) (w : World C)
    completed items' ff' w' :
  items <> [] ->
  fetch_loop C items ff w = (completed, items', ff', w') ->
  exists attempts : list (pydict * bool),
    attempts <> [] /\ trace w' = trace w ++ fetch_events attempts /\
    (length attempts <= length items)%nat.
Proof.
  intros Hne E.
  destruct (fetch_loop_spec C _ _ _ _ _ _ _ E) as (att & Htr & _ & Hok & Hbr).
  exists att. destruct completed.
  - destruct (Hok eq_refl) as [Hmap _]. split_and!; [|done|].
    + intros ->. by apply Hne.
    + by rewrite <- Hmap, length_map.
  - destruct (Hbr eq_refl) as (pre & item & rest & -> & -> & _). split_and!; [|done|].
    + by destruct pre.
    + rewrite !length_app, length_map. simpl. lia.
Qed.

Lemma append_entry_unpack (entry : pydict) (unpack_path : option string)
    (self : RawDataset) (w : World C) :
  unpacked_ self = true ->
  exists attempts : list (pydict * bool),
    attempts <> [] /\
    let '(r, self', w') :=
      RawDataset_unpack C unpack_path false (append_entry entry self) w in
    r = inr (unpack_path_ self) /\ unpacked_ self' = true /\
    length (file_list self') = S (length (file_list self)) /\
    trace w' = trace w ++ fetch_events attempts /\
    (length attempts <= S (length (file_list self)))%nat.
Proof.
  intros Hu. unfold RawDataset_unpack, ensure_fetched. simpl.
  unfold RawDataset_fetch. simpl.
  destruct (fetch_loop C (file_list self ++ [entry]) [] w)
    as [[[c items'] ff'] w'] eqn:E.
  destruct (fetch_loop_shape C _ _ _ _ _ _ _ E) as (Hall & _).
  assert (Hitems : file_list self ++ [entry] <> [])
    by (intros Heq; by apply app_eq_nil in Heq as [_ ?]).
  destruct (fetch_loop_nonempty _ _ _ _ _ _ _ Hitems E) as (att & Hne & Htr & Hlen).
  exists att. split; [done|]. simpl. rewrite Hu. simpl.
  apply Forall2_length in Hall. rewrite length_app in Hall, Hlen. simpl in *.
  split_and!; try done; lia.
Qed.

(** X6. A file added with [add_url] or [add_file] to a dataset that is
    already unpacked is not unpacked by the next [unpack()]: that call
    runs the fetcher again, at least once (the fetched flag was reset),
    but never the unpacker, and returns the old unpack directory. *)
Theorem added_file_is_not_unpacked (url : option string) (hash_type : string)
    (hash_value label file_name unpack_path : option string) (local_name : string)
    (self : RawDataset) (w : World C) :
  unpacked_ self = true ->
  (exists attempts : list (pydict * bool),
     attempts <> [] /\
     let '(r, self', w') :=
       RawDataset_unpack C unpack_path false
         (RawDataset_add_url url hash_type hash_value label file_name self) w in
     r = inr (unpack_path_ self) /\ unpacked_ self' = true /\
     length (file_list self') = S (length (file_list self)) /\
     trace w' = trace w ++ fetch_events attempts /\
     (length attempts <= S (length (file_list self)))%nat) /\
  (exists attempts : list (pydict * bool),
     attempts <> [] /\
     let '(r, self', w') :=
       RawDataset_unpack C unpack_path false
         (RawDataset_add_file hash_type hash_value label local_name self) w in
     r = inr (unpack_path_ self) /\ unpacked_ self' = true /\
     length (file_list self') = S (length (file_list self)) /\
     trace w' = trace w ++ fetch_events attempts /\
     (length attempts <= S (length (file_list self)))%nat).
Proof.
  intros Hu. split; by apply append_entry_unpack.
Qed.

Lemma append_entry_changes (entry : pydict) (self : RawDataset) :
  file_list (append_entry entry self) <> file_list self.
Proof.
  simpl. intros H. apply (f_equal length) in H. rewrite length_app in H.
  simpl in H. lia.
Qed.

(** X7. Adding a file changes the key: the dictionary that is hashed
    after [add_url], [add_file] or a successful [add_metadata] differs
    from the one before, so that the keys differ for a hash that does
    not collide on the two, when no extra argument is passed under
    ['url_list']. *)
Theorem added_file_changes_key (url filename contents metadata_path : option string)
    (file_hash_type kind local_name : string) (hash_value label file_name : option string)
    (hash_type : string) (A : pydict) (self self' : RawDataset) :
  self' = RawDataset_add_url url file_hash_type hash_value label file_name self \/
  self' = RawDataset_add_file file_hash_type hash_value label local_name self \/
  RawDataset_add_metadata filename contents metadata_path kind self = (inr tt, self') ->
  "url_list" ∉ Dict.keys A ->
  collision_free C hash_type (to_hash_dict None A self) (to_hash_dict None A self') ->
  RawDataset_to_hash C None hash_type A self' <>
  RawDataset_to_hash C None hash_type A self.
Proof.
  intros Hadd HA Hfree Heq.
  assert (Hshape : exists entry, self' = append_entry entry self).
  { destruct Hadd as [->| [->|Hadd]]; [by eexists | by eexists |].
    unfold RawDataset_add_metadata in Hadd.
    destruct (filename_map self kind); [|done].
    destruct filename as [f|]; [|destruct contents as [c|]; [|done]];
      injection Hadd as <-; by eexists. }
  destruct Hshape as (entry & ->).
  unfold RawDataset_to_hash in Heq. symmetry in Heq.
  apply Hfree in Heq. revert Heq.
  apply identity_change_dict, change_file_list; [|done].
  apply append_entry_changes.
Qed.

Lemma default_metadata_loop_app (fl1 fl2 : list pydict) (e : Ext C) :
  forall metadata md1,
  default_metadata_loop C fl1 metadata e = inr md1 ->
  default_metadata_loop C (fl1 ++ fl2) metadata e = default_metadata_loop C fl2 md1 e.
Proof.
  induction fl1 as [|fd fl1 IH]; intros metadata md1 H; simpl in *.
  - by injection H as ->.
  - destruct (optmap (Dict.get_default "name" PNone fd)) as [ex|[key|]]; [done| |].
    + destruct (read_text C _ e) as [ex|txt]; [done|]. by apply IH.
    + by apply IH.
Qed.

(** X8. The description added last wins: after
    [add_metadata(kind='DESCR', contents=...)] (or with a file name), if
    the default metadata could be built before and the file of the new
    entry can be read, [default_metadata()] holds the text of that file
    under ['descr'], whatever description the file list carried
    before. *)
Theorem added_description_wins (filename contents metadata_path : option string)
    (self self' : RawDataset) (w : World C) (before : pydict) (txt : string) :
  RawDataset_add_metadata filename contents metadata_path "DESCR" self = (inr tt, self') ->
  RawDataset_default_metadata C false self w = inr before ->
  (forall entry, last (file_list self') = Some entry ->
     read_text C (path_join (raw_data_path C) (get_dataset_filename C entry)) (ext w) =
       inr txt) ->
  exists md,
    RawDataset_default_metadata C false self' w = inr md /\
    Dict.get "descr" md = Some (PStr txt) /\
    Dict.get "dataset_name" md = Some (PStr (name self')).
Proof.
  intros Hadd Hbefore Hread.
  assert (Hshape : exists entry,
            self' = append_entry entry self /\
            Dict.get_default "name" PNone entry = PStr "DESCR").
  { unfold RawDataset_add_metadata in Hadd. simpl in Hadd.
    destruct filename as [f|]; [|destruct contents as [c|]; [|done]];
      injection Hadd as <-; eexists; split; reflexivity. }
  destruct Hshape as (entry & -> & Hname).
  specialize (Hread entry). simpl in Hread. rewrite last_snoc in Hread.
  specialize (Hread eq_refl).
  unfold RawDataset_default_metadata in *. simpl.
  destruct (default_metadata_loop C (file_list self) [] (ext w)) as [ex|md0] eqn:E;
    [done|].
  rewrite (default_metadata_loop_app _ [entry] _ _ _ E). simpl.
  rewrite Hname. simpl. rewrite Hread.
  eexists. split; [reflexivity|]. split.
  - rewrite get_set_ne by done. apply get_set_eq.
  - apply get_set_eq.
Qed.

End Adding.

(** ** The content hashes of a Dataset *)

Section Hashes.

Context (C : Collaborators).

Lemma ends_with_append (suffix k : string) : ends_with suffix (k +:+ suffix) = true.
Proof.
  induction k as [|c k IH]; simpl.
  - destruct suffix; simpl; [done|]. by rewrite Ascii.eqb_refl, String.eqb_refl.
  - rewrite IH. apply orb_true_r.
Qed.

Lemma length_append (a b : string) :
  String.length (a +:+ b) = (String.length a + String.length b)%nat.
Proof. induction a as [|c a IH]; simpl; [done | by rewrite IH]. Qed.

Lemma append_inj_r (t a b : string) : a +:+ t = b +:+ t -> a = b.
Proof.
  revert b. induction a as [|c a IH]; intros [|c' b] H; simpl in H; try done.
  - apply (f_equal String.length) in H. simpl in H.
    rewrite !length_append in H. simpl in H. lia.
  - apply (f_equal String.length) in H. simpl in H.
    rewrite !length_append in H. simpl in H. lia.
  - injection H as -> H. f_equal. by apply IH.
Qed.

Lemma keys_set (k : string) (v : pyval) (d : pydict) :
  Dict.keys (Dict.set k v d) =
  if Dict.mem k d then Dict.keys d else Dict.keys d ++ [k].
Proof.
  unfold Dict.mem. induction d as [|[k' v'] d IH]; simpl; [done|].
  destruct (String.eqb k k') eqn:E; simpl; [done|].
  rewrite IH. by destruct (Dict.get k d).
Qed.

Lemma get_key_iff (k : string) (d : pydict) :
  k ∈ Dict.keys d <-> Dict.get k d <> None.
Proof.
  induction d as [|[k' v'] d IH]; simpl.
  - split; [by intros ?%elem_of_nil | done].
  - destruct (String.eqb k k') eqn:E.
    + apply String.eqb_eq in E as ->. split; [done | intros _; constructor].
    + apply String.eqb_neq in E. rewrite elem_of_cons. split.
      * intros [?|?]; [done | by apply IH].
      * intros ?. right. by apply IH.
Qed.

Lemma set_NoDup (k : string) (v : pyval) (d : pydict) :
  NoDup (Dict.keys d) -> NoDup (Dict.keys (Dict.set k v d)).
Proof.
  intros Hnd. rewrite keys_set. unfold Dict.mem.
  destruct (Dict.get k d) eqn:E; [done|].
  apply NoDup_app. split_and!; [done | | apply NoDup_singleton].
  intros x Hx Hin. apply list_elem_of_singleton in Hin as ->.
  apply get_key_iff in Hx. done.
Qed.

Lemma pop_keys (k x : string) (d : pydict) :
  x ∈ Dict.keys (Dict.pop k d) -> x ∈ Dict.keys d /\ x <> k.
Proof.
  intros Hx. apply get_key_iff in Hx.
  destruct (decide (k = x)) as [->|Hne]; [by rewrite get_pop_eq in Hx|].
  rewrite get_pop_ne in Hx by done. split; [by apply get_key_iff | done].
Qed.

Lemma pop_NoDup (k : string) (d : pydict) :
  NoDup (Dict.keys d) -> NoDup (Dict.keys (Dict.pop k d)).
Proof.
  induction d as [|[k' v'] d IH]; simpl; [done|].
  intros [Hk Hnd]%NoDup_cons. destruct (String.eqb k k'); [by apply IH|].
  simpl. apply NoDup_cons. split; [|by apply IH].
  intros Hin. by apply pop_keys in Hin as [? _].
Qed.

Lemma pop_all_NoDup (ks : list string) (d : pydict) :
  NoDup (Dict.keys d) -> NoDup (Dict.keys (Dict.pop_all ks d)).
Proof.
  revert d. induction ks as [|k ks IH]; intros d H; [done|].
  unfold Dict.pop_all in *. simpl. by apply IH, pop_NoDup.
Qed.

Lemma excluded_iff (k : string) (l : list string) :
  existsb (String.eqb k) l = true <-> k ∈ l.
Proof.
  rewrite existsb_exists. split.
  - intros (x & Hin & ->%String.eqb_eq). by apply list_elem_of_In.
  - intros Hin. exists k. split; [by apply list_elem_of_In | apply String.eqb_refl].
Qed.

Lemma hash_fold_NoDup (ex : list string) (ht : string) (l acc : pydict) :
  NoDup (Dict.keys acc) -> NoDup (Dict.keys (fold_left (hash_step C ex ht) l acc)).
Proof.
  revert acc. induction l as [|kv l IH]; intros acc H; simpl; [done|].
  apply IH. unfold hash_step. destruct (existsb _ ex); [done | by apply set_NoDup].
Qed.

Lemma hash_fold_other (ex : list string) (ht key : string) (l acc : pydict) :
  (forall k, k ∈ Dict.keys l -> k ∉ ex -> key <> (k +:+ "_hash")) ->
  Dict.get key (fold_left (hash_step C ex ht) l acc) = Dict.get key acc.
Proof.
  revert acc. induction l as [|[k v] l IH]; intros acc H; simpl; [done|].
  rewrite IH by (intros k' Hin; apply H; simpl; by constructor).
  unfold hash_step. simpl. destruct (existsb _ ex) eqn:E; [done|].
  apply get_set_ne. intros Heq. apply (H k); [simpl; constructor | | done].
  intros Hin. apply excluded_iff in Hin. congruence.
Qed.

Lemma hash_fold_field (ex : list string) (ht k : string) (v : pyval) (l acc : pydict) :
  NoDup (Dict.keys l) -> Dict.get k l = Some v -> k ∉ ex ->
  Dict.get (k +:+ "_hash") (fold_left (hash_step C ex ht) l acc) =
    Some (PStr (joblib_hash C ht v)).
Proof.
  revert acc. induction l as [|[k0 v0] l IH]; intros acc Hnd Hget Hex; simpl in *; [done|].
  apply NoDup_cons in Hnd as [Hk0 Hnd].
  destruct (String.eqb k k0) eqn:E.
  - apply String.eqb_eq in E as ->. injection Hget as ->.
    rewrite hash_fold_other.
    + unfold hash_step. simpl.
      destruct (existsb _ ex) eqn:Eex; [by apply excluded_iff in Eex|].
      apply get_set_eq.
    + intros k' Hin _ Heq. apply append_inj_r in Heq as ->. done.
  - by apply IH.
Qed.

Lemma hash_type_not_field (k : string) : "hash_type" <> (k +:+ "_hash").
Proof.
  intros Heq. pose proof (ends_with_append "_hash" k) as H.
  rewrite <- Heq in H. discriminate H.
Qed.

Lemma get_data_hashes_fields (exclude_list : option (list string)) (hash_type : string)
    (self : pydict) :
  NoDup (Dict.keys self) ->
  let ex := default ["metadata"] exclude_list in
  let ret := Dataset_get_data_hashes C exclude_list hash_type self in
  Dict.get "hash_type" ret = Some (PStr hash_type) /\
  (forall k v, Dict.get k self = Some v -> k ∉ ex ->
     Dict.get (k +:+ "_hash") ret = Some (PStr (joblib_hash C hash_type v))).
Proof.
  intros Hnd ex ret.
  assert (Hret : ret = fold_left (hash_step C ex hash_type) self
                         [("hash_type", PStr hash_type)]) by reflexivity.
  split.
  - rewrite Hret, hash_fold_other; [done|]. intros k _ _. apply hash_type_not_field.
  - intros k v Hget Hex. rewrite Hret. by apply hash_fold_field.
Qed.

(** X9. [get_data_hashes] on a dataset, for an algorithm that
    [joblib.hash] supports: the entry ['hash_type'] is the
    requested algorithm and is never overwritten by the hash of a field;
    every field that is not excluded has its hash under
    ['<field>_hash']; an excluded field ([metadata] by default) has
    none; and there is no other entry. *)
Theorem get_data_hashes_spec (exclude_list : option (list string)) (hash_type : string)
    (self : pydict) :
  supported_hash hash_type ->
  NoDup (Dict.keys self) ->
  let ex := default ["metadata"] exclude_list in
  let ret := Dataset_get_data_hashes C exclude_list hash_type self in
  Dict.get "hash_type" ret = Some (PStr hash_type) /\
  (forall k v, Dict.get k self = Some v -> k ∉ ex ->
     Dict.get (k +:+ "_hash") ret = Some (PStr (joblib_hash C hash_type v))) /\
  (forall k, k ∈ ex -> Dict.get (k +:+ "_hash") ret = None) /\
  (forall key, Dict.get key ret <> None ->
     key = "hash_type" \/
     exists k, k ∈ Dict.keys self /\ (k ∉ ex) /\ key = (k +:+ "_hash")).
Proof.
  intros _ Hnd ex ret.
  assert (Hret : ret = fold_left (hash_step C ex hash_type) self
                         [("hash_type", PStr hash_type)]) by reflexivity.
  pose proof hash_type_not_field as Htype.
  split_and!.
  - by apply get_data_hashes_fields.
  - by apply get_data_hashes_fields.
  - intros k Hex. rewrite Hret, hash_fold_other.
    + simpl. rewrite eqb_ne; [done|]. intros Heq. by apply (Htype k).
    + intros k' _ Hk' Heq. apply append_inj_r in Heq as ->. done.
  - intros key Hkey.
    destruct (decide (key = "hash_type")) as [->|Hne]; [by left|]. right.
    destruct (decide (Exists (fun k => (k ∉ ex) /\ key = (k +:+ "_hash")) (Dict.keys self)))
      as [Hex|Hno].
    + apply Exists_exists in Hex as (k & Hin & Hk & ->). by exists k.
    + exfalso. apply Hkey. rewrite Hret, hash_fold_other.
      * simpl. by rewrite eqb_ne.
      * intros k Hin Hk Heq. apply Hno, Exists_exists. by exists k.
Qed.

Lemma hash_fold_set_metadata (ht : string) (m : pyval) (self : pydict) :
  forall acc,
  fold_left (hash_step C ["metadata"] ht) (Dict.set "metadata" m self) acc =
  fold_left (hash_step C ["metadata"] ht) self acc.
Proof.
  induction self as [|[k v] self IH]; intros acc; cbn [Dict.set fold_left]; [done|].
  destruct (String.eqb "metadata" k) eqn:E; cbn [fold_left].
  - apply String.eqb_eq in E as <-. reflexivity.
  - apply IH.
Qed.

(** X10. The metadata never enters the content hashes: storing another
    metadata in the dataset leaves [get_data_hashes()] as it was. *)
Theorem get_data_hashes_ignores_metadata (hash_type : string) (m : pyval)
    (self : pydict) :
  Dataset_get_data_hashes C None hash_type (Dict.set "metadata" m self) =
  Dataset_get_data_hashes C None hash_type self.
Proof. apply (hash_fold_set_metadata hash_type m self). Qed.

End Hashes.

(** ** Dumping and loading *)

Section DumpLoad.

Context (C : Collaborators).

(** What a [dump] that returns has done. *)
Lemma dump_success (file_base dump_path : option string) (hash_type : string)
    (force create_dirs dump_metadata : bool) (self self' : pydict) (w w' : World C)
    (u : unit) :
  Dataset_dump C file_base dump_path hash_type force create_dirs dump_metadata self w =
    (inr u, self', w') ->
  exists metadata base,
    Dict.get "metadata" self = Some (PDict metadata) /\
    dump_file_base file_base metadata = inr base /\
    self' = Dict.set "metadata"
              (PDict (Dict.update metadata (Dataset_get_data_hashes C None hash_type self)))
              self /\
    w' = write_file C
           (path_join (default (processed_data_path C) dump_path) (base +:+ ".dataset"))
           (PDict self')
           (if dump_metadata
            then write_file C
                   (path_join (default (processed_data_path C) dump_path)
                      (base +:+ ".metadata")) (PDict metadata) w
            else w).
Proof.
  unfold Dataset_dump.
  destruct (Dict.get "metadata" self) as [[| | | | |m]|]; try done.
  destruct (dump_file_base file_base m) as [e|base] eqn:Eb; [done|]. simpl.
  destruct (if negb force then _ else _) as [[| | | | |cm]|]; try done.
  - by destruct (items_le m cm).
  - intros H. injection H as _ <- <-. by exists m, base.
Qed.

Lemma hashes_NoDup (hash_type : string) (self : pydict) :
  NoDup (Dict.keys (Dataset_get_data_hashes C None hash_type self)).
Proof.
  apply (hash_fold_NoDup C ["metadata"] hash_type self [("hash_type", PStr hash_type)]).
  apply NoDup_singleton.
Qed.

(** X11. The full record is never stale: after a [dump] that returns,
    the dataset (and the full record, which holds it) carries in its
    metadata the algorithm under ['hash_type'] and, for every field
    other than the metadata, the hash of the value the field has at that
    moment; the fields themselves are as they were. *)
Theorem dump_full_record_fresh (file_base dump_path : option string) (hash_type : string)
    (force create_dirs dump_metadata : bool) (self self' : pydict) (w w' : World C)
    (u : unit) :
  NoDup (Dict.keys self) ->
  Dataset_dump C file_base dump_path hash_type force create_dirs dump_metadata self w =
    (inr u, self', w') ->
  exists metadata',
    Dict.get "metadata" self' = Some (PDict metadata') /\
    Dict.get "hash_type" metadata' = Some (PStr hash_type) /\
    forall k v, k <> "metadata" -> Dict.get k self' = Some v ->
      Dict.get k self = Some v /\
      Dict.get (k +:+ "_hash") metadata' = Some (PStr (joblib_hash C hash_type v)).
Proof.
  intros Hnd Hdump.
  apply dump_success in Hdump as (m & base & Hm & _ & -> & _).
  destruct (get_data_hashes_fields C None hash_type self Hnd) as (Htype & Hfield).
  eexists. split; [apply get_set_eq|]. split.
  - by apply get_update_present; [apply hashes_NoDup|].
  - intros k v Hk Hget. rewrite get_set_ne in Hget by done. split; [done|].
    apply get_update_present; [apply hashes_NoDup|].
    apply Hfield; [done|]. simpl. intros Hin.
    apply list_elem_of_singleton in Hin. done.
Qed.

(** X12. Round trip: after a [dump] that returns, [load] under the same
    name and directory gives back the dataset as [dump] left it, and,
    when the metadata copy was written, [load(metadata_only=True)] gives
    the metadata the dataset had when [dump] was called. *)
Theorem dump_load_roundtrip (file_base dump_path : option string) (hash_type : string)
    (force create_dirs dump_metadata : bool) (self self' : pydict) (w w' : World C)
    (u : unit) :
  Dataset_dump C file_base dump_path hash_type force create_dirs dump_metadata self w =
    (inr u, self', w') ->
  exists metadata base,
    Dict.get "metadata" self = Some (PDict metadata) /\
    dump_file_base file_base metadata = inr base /\
    Dataset_load C base dump_path false w' = inr (PDict self') /\
    (dump_metadata = true ->
     Dataset_load C base dump_path true w' = inr (PDict metadata)).
Proof.
  intros Hdump.
  apply dump_success in Hdump as (m & base & Hm & Hb & Hself & ->).
  exists m, base. split; [done|]. split; [done|]. unfold Dataset_load. simpl. split.
  - by rewrite get_set_eq.
  - intros ->. simpl.
    rewrite get_set_ne by (symmetry; apply metadata_dataset_paths).
    by rewrite get_set_eq.
Qed.

Lemma update_absorb (d h : pydict) :
  (forall k v, Dict.get k h = Some v -> Dict.get k d = Some v) ->
  NoDup (Dict.keys h) -> Dict.update d h = d.
Proof.
  unfold Dict.update. induction h as [|[k v] h IH]; intros Hcov Hnd; simpl; [done|].
  apply NoDup_cons in Hnd as [Hk Hnd].
  rewrite set_same by (apply Hcov; simpl; by rewrite String.eqb_refl).
  apply IH; [|done]. intros k' v' Hget. apply Hcov. simpl.
  destruct (String.eqb k' k) eqn:E; [|done].
  apply String.eqb_eq in E as ->. exfalso. apply Hk.
  apply (proj2 (get_key_iff k h)). congruence.
Qed.

Lemma hashes_no_dataset_name (hash_type : string) (self : pydict) :
  "dataset_name" ∉ Dict.keys (Dataset_get_data_hashes C None hash_type self).
Proof.
  intros Hin. apply get_key_iff in Hin. apply Hin.
  unfold Dataset_get_data_hashes. simpl.
  rewrite (hash_fold_other C ["metadata"] hash_type "dataset_name"); [done|].
  intros k _ _ Heq. pose proof (ends_with_append "_hash" k) as H.
  rewrite <- Heq in H. discriminate H.
Qed.

(** X13. Dumping again heals the metadata copy: when the dataset that a
    [dump] returned is dumped once more, with the same algorithm, that
    [dump] leaves the dataset as it is and writes the same metadata to
    the metadata-only record as the full record embeds. *)
Theorem dump_again_agrees (file_base dump_path : option string) (hash_type : string)
    (force create_dirs dump_metadata : bool) (self self1 : pydict) (w w1 : World C)
    (u : unit) :
  Dataset_dump C file_base dump_path hash_type force create_dirs dump_metadata self w =
    (inr u, self1, w1) ->
  exists metadata1 base,
    Dict.get "metadata" self1 = Some (PDict metadata1) /\
    let '(r, self2, w2) :=
      Dataset_dump C file_base dump_path hash_type true create_dirs true self1 w1 in
    r = inr tt /\ self2 = self1 /\
    Dataset_load C base dump_path true w2 = inr (PDict metadata1) /\
    Dataset_load C base dump_path false w2 = inr (PDict self1).
Proof.
  intros Hdump.
  apply dump_success in Hdump as (m & base & Hm & Hb & Hself & _).
  set (h := Dataset_get_data_hashes C None hash_type self) in *.
  set (m1 := Dict.update m h) in *.
  assert (Hm1 : Dict.get "metadata" self1 = Some (PDict m1))
    by (rewrite Hself; apply get_set_eq).
  assert (Hh1 : Dataset_get_data_hashes C None hash_type self1 = h)
    by (rewrite Hself; apply (hash_fold_set_metadata C hash_type)).
  assert (Habs : Dict.update m1 h = m1).
  { apply update_absorb; [|apply hashes_NoDup].
    intros k v Hget. by apply get_update_present; [apply hashes_NoDup|]. }
  assert (Hb1 : dump_file_base file_base m1 = inr base).
  { unfold dump_file_base in *. destruct file_base; [done|].
    unfold Dict.get_default, m1 in *.
    by rewrite get_update_absent by apply hashes_no_dataset_name. }
  exists m1, base. split; [done|].
  rewrite (dump_full_record C file_base dump_path hash_type create_dirs true
             self1 m1 base w1 Hm1 Hb1).
  rewrite Hh1, Habs.
  assert (Hid : Dict.set "metadata" (PDict m1) self1 = self1) by by apply set_same.
  rewrite Hid. split; [done|]. split; [done|]. unfold Dataset_load. simpl. split.
  - rewrite get_set_ne by (symmetry; apply metadata_dataset_paths).
    by rewrite get_set_eq.
  - by rewrite get_set_eq.
Qed.

(** X14. The conflict test looks at the metadata-only record alone.
    With no such record under the name, a [dump] without [force] and
    without metadata copy (creating the directory, with a supported
    hash algorithm) returns and leaves the name without one, so
    that the next [dump] without [force], of whatever dataset, returns
    too and replaces the full record. *)
Theorem dump_without_copy_is_unprotected (base : string) (dump_path : option string)
    (hash_type : string) (dump_metadata : bool)
    (a b ma mb : pydict) (w : World C) :
  supported_hash hash_type ->
  Dict.get "metadata" a = Some (PDict ma) ->
  Dict.get "metadata" b = Some (PDict mb) ->
  (forall m, Dataset_load C base dump_path true w <> inr m) ->
  let '(r1, a', w1) :=
    Dataset_dump C (Some base) dump_path hash_type false true false a w in
  let '(r2, b', w2) :=
    Dataset_dump C (Some base) dump_path hash_type false true dump_metadata b w1 in
  r1 = inr tt /\ Dataset_load C base dump_path false w1 = inr (PDict a') /\
  (forall m, Dataset_load C base dump_path true w1 <> inr m) /\
  r2 = inr tt /\ Dataset_load C base dump_path false w2 = inr (PDict b').
Proof.
  intros _ Ha Hb Hload.
  set (dir := default (processed_data_path C) dump_path).
  assert (Hnone : Dict.get (path_join dir (base +:+ ".metadata")) (files w) = None).
  { specialize (Hload (default PNone
                         (Dict.get (path_join dir (base +:+ ".metadata")) (files w)))).
    unfold Dataset_load in Hload. simpl in Hload. fold dir in Hload.
    by destruct (Dict.get _ (files w)). }
  unfold Dataset_dump. rewrite Ha, Hb. simpl.
  fold dir. rewrite Hnone. simpl.
  rewrite get_set_ne by (symmetry; apply metadata_dataset_paths).
  rewrite Hnone. unfold Dataset_load. simpl. fold dir.
  rewrite !get_set_eq. split_and!; try done.
  intros m. rewrite get_set_ne by (symmetry; apply metadata_dataset_paths).
  by rewrite Hnone.
Qed.


End DumpLoad.

(** ** Constructing a Dataset and naming it *)

Section Construct.

Context (C : Collaborators).


Lemma Dataset_init_built (opts ds : pydict) :
  Dataset_init C opts = inr ds ->
  let data := Dict.get_default "data" PNone opts in
  let target := Dict.get_default "target" PNone opts in
  let given :=
    match Dict.get_default "metadata" PNone opts with PDict m => m | _ => [] end in
  let dataset_name :=
    match Dict.get_default "dataset_name" PNone opts with
    | PNone => Dict.get_default "dataset_name" PNone given
    | v => v
    end in
  let m0 := Dict.set "dataset_name" dataset_name given in
  let self0 :=
    Dict.set "target" target
      (Dict.set "data" data
         (Dict.set "metadata" (PDict m0)
            (Dict.pop_all ["dataset_name"; "data"; "target"; "metadata"; "update_hashes"]
               opts))) in
  dataset_name <> PNone /\
  ds = if truthy (Dict.get_default "update_hashes" (PBool true) opts)
       then Dict.set "metadata"
              (PDict (Dict.update m0 (Dataset_get_data_hashes C None "sha1" self0)))
              self0
       else self0.
Proof.
  intros Hinit data target given dataset_name m0 self0.
  unfold Dataset_init in Hinit. fold data target in Hinit.
  unfold self0, m0, dataset_name, given.
  destruct (Dict.get_default "metadata" PNone opts) as [| | | | |mm];
    destruct (Dict.get_default "dataset_name" PNone opts) eqn:En; try done;
    try (destruct (Dict.get_default "dataset_name" PNone mm) eqn:Em; try done);
    destruct (truthy _); by injection Hinit as <-.
Qed.

(** X16. What the constructor builds: the payloads are stored as given;
    the name in the metadata is the [dataset_name] argument when there
    is one, else the name the metadata came with; with [update_hashes]
    the metadata carries the sha1 hashes of the two payloads, without it
    the metadata is the one given plus the name. *)
Theorem Dataset_init_result (opts ds : pydict) :
  NoDup (Dict.keys opts) ->
  Dataset_init C opts = inr ds ->
  let data := Dict.get_default "data" PNone opts in
  let target := Dict.get_default "target" PNone opts in
  let given :=
    match Dict.get_default "metadata" PNone opts with PDict m => m | _ => [] end in
  let dataset_name :=
    match Dict.get_default "dataset_name" PNone opts with
    | PNone => Dict.get_default "dataset_name" PNone given
    | v => v
    end in
  Dict.get "data" ds = Some data /\ Dict.get "target" ds = Some target /\
  exists m,
    Dict.get "metadata" ds = Some (PDict m) /\
    Dict.get "dataset_name" m = Some dataset_name /\
    if truthy (Dict.get_default "update_hashes" (PBool true) opts)
    then Dict.get "hash_type" m = Some (PStr "sha1") /\
         Dict.get "data_hash" m = Some (PStr (joblib_hash C "sha1" data)) /\
         Dict.get "target_hash" m = Some (PStr (joblib_hash C "sha1" target))
    else m = Dict.set "dataset_name" dataset_name given.
Proof.
  intros Hnd Hinit data target given dataset_name.
  set (kwargs := Dict.pop_all
         ["dataset_name"; "data"; "target"; "metadata"; "update_hashes"] opts).
  set (m0 := Dict.set "dataset_name" dataset_name given).
  set (self0 := Dict.set "target" target
                  (Dict.set "data" data (Dict.set "metadata" (PDict m0) kwargs))).
  assert (Hds : ds = if truthy (Dict.get_default "update_hashes" (PBool true) opts)
                     then Dict.set "metadata"
                            (PDict (Dict.update m0
                                      (Dataset_get_data_hashes C None "sha1" self0)))
                            self0
                     else self0)
    by apply (Dataset_init_built opts ds Hinit).
  assert (Hnd0 : NoDup (Dict.keys self0))
    by (unfold self0; do 3 apply set_NoDup; by apply pop_all_NoDup).
  assert (Hdata : Dict.get "data" self0 = Some data)
    by (unfold self0; rewrite get_set_ne by done; apply get_set_eq).
  assert (Htarget : Dict.get "target" self0 = Some target)
    by (unfold self0; apply get_set_eq).
  assert (Hmeta : Dict.get "metadata" self0 = Some (PDict m0))
    by (unfold self0; rewrite !get_set_ne by done; apply get_set_eq).
  assert (Hname : Dict.get "dataset_name" m0 = Some dataset_name)
    by apply get_set_eq.
  rewrite Hds. destruct (truthy _).
  - rewrite !get_set_ne by done. split; [done|]. split; [done|].
    eexists. split; [apply get_set_eq|].
    destruct (get_data_hashes_fields C None "sha1" self0 Hnd0) as (Htype & Hfield).
    split_and!.
    + rewrite get_update_absent; [done | apply hashes_no_dataset_name].
    + by apply get_update_present; [apply hashes_NoDup|].
    + apply get_update_present; [apply hashes_NoDup|].
      apply (Hfield "data" data Hdata). simpl. by intros ?%list_elem_of_singleton.
    + apply get_update_present; [apply hashes_NoDup|].
      apply (Hfield "target" target Htarget). simpl. by intros ?%list_elem_of_singleton.
  - split; [done|]. split; [done|]. by exists m0.
Qed.

(** X29. A constructed dataset has a name: whenever the constructor
    returns, the property [name] gives the resolved name, which is not
    [None], and [has_target] tells whether a target other than [None]
    was passed. *)
Theorem Dataset_init_name_and_target (opts ds : pydict) :
  Dataset_init C opts = inr ds ->
  exists dataset_name,
    Dataset_name ds = inr dataset_name /\ dataset_name <> PNone /\
    (Dict.get_default "dataset_name" PNone opts <> PNone ->
     dataset_name = Dict.get_default "dataset_name" PNone opts) /\
    Dataset_has_target ds =
      inr (match Dict.get_default "target" PNone opts with PNone => false | _ => true end).
Proof.
  intros Hinit.
  destruct (Dataset_init_built opts ds Hinit) as (Hname & ->).
  eexists. split_and!; [| exact Hname | |].
  - unfold Dataset_name. destruct (truthy _).
    + rewrite get_set_eq. unfold Dict.get_default.
      rewrite get_update_absent by apply hashes_no_dataset_name.
      by rewrite get_set_eq.
    + rewrite !get_set_ne by done. rewrite get_set_eq. unfold Dict.get_default.
      by rewrite get_set_eq.
  - intros Hgiven. by destruct (Dict.get_default "dataset_name" PNone opts).
  - unfold Dataset_has_target.
    destruct (truthy _); [rewrite get_set_ne by done|]; rewrite get_set_eq;
      by destruct (Dict.get_default "target" PNone opts).
Qed.

Lemma set_metadata_get (k : string) (v : pyval) (self self' : pydict) :
  set_metadata k v self = inr self' ->
  exists m, Dict.get "metadata" self = Some (PDict m) /\
            self' = Dict.set "metadata" (PDict (Dict.set k v m)) self.
Proof.
  unfold set_metadata. destruct (Dict.get "metadata" self) as [[| | | | |m]|]; try done.
  intros [= <-]. by exists m.
Qed.

(** X17. Attribute access to the metadata round-trips: after an
    upper-case attribute, of ASCII characters, is assigned, reading the
    same attribute gives the value back; the value sits in the metadata
    under the lower-case key, and no other item of the dataset has
    changed. *)
Theorem metadata_attribute_roundtrip (key : string) (value : pyval)
    (self self' : pydict) :
  ascii_only key = true ->
  isupper key = true ->
  Dataset_setattr key value self = inr self' ->
  Dataset_getattribute key self' = Some (inr value) /\
  (exists m, Dict.get "metadata" self' = Some (PDict m) /\
             Dict.get (lower key) m = Some value) /\
  forall k, k <> "metadata" -> Dict.get k self' = Dict.get k self.
Proof.
  intros _ Hup Hset. unfold Dataset_setattr in Hset. rewrite Hup in Hset.
  apply set_metadata_get in Hset as (m & Hm & ->).
  unfold Dataset_getattribute. rewrite Hup, !get_set_eq. split_and!; [done | |].
  - eexists. split; [done | apply get_set_eq].
  - intros k Hk. by apply get_set_ne.
Qed.

(** X18. Renaming a dataset redirects its dump: after the attribute
    [name] is assigned a string, the property [name] and the attribute
    [DATASET_NAME] read it back, and a forced [dump] without
    [file_base], creating the directory and hashing with a supported
    algorithm, writes its two records under that name. *)
Theorem renamed_dataset_dump (new_name hash_type : string) (dump_path : option string)
    (self self1 : pydict) (w : World C) :
  supported_hash hash_type ->
  Dataset_setattr "name" (PStr new_name) self = inr self1 ->
  Dataset_name self1 = inr (PStr new_name) /\
  Dataset_getattribute "DATASET_NAME" self1 = Some (inr (PStr new_name)) /\
  let '(r, self2, w') :=
    Dataset_dump C None dump_path hash_type true true true self1 w in
  r = inr tt /\
  Dataset_load C new_name dump_path false w' = inr (PDict self2) /\
  (exists m, Dataset_load C new_name dump_path true w' = inr (PDict m)) /\
  Dataset_name self2 = inr (PStr new_name).
Proof.
  intros _ Hset. change (Dataset_setattr "name" (PStr new_name) self)
    with (set_metadata "dataset_name" (PStr new_name) self) in Hset.
  apply set_metadata_get in Hset as (m & Hm & ->).
  set (m1 := Dict.set "dataset_name" (PStr new_name) m).
  set (self1 := Dict.set "metadata" (PDict m1) self).
  assert (Hm1 : Dict.get "metadata" self1 = Some (PDict m1)) by apply get_set_eq.
  assert (Hn1 : Dict.get "dataset_name" m1 = Some (PStr new_name)) by apply get_set_eq.
  split_and!.
  - unfold Dataset_name, Dict.get_default. by rewrite Hm1, Hn1.
  - change (Dataset_getattribute "DATASET_NAME" self1)
      with (Some (match Dict.get "metadata" self1 with
                  | Some (PDict m) =>
                      match Dict.get "dataset_name" m with
                      | Some v => inr v
                      | None => inl (AttributeError "DATASET_NAME")
                      end
                  | _ => inl (AttributeError "DATASET_NAME")
                  end)).
    by rewrite Hm1, Hn1.
  - assert (Hb : dump_file_base None m1 = inr new_name)
      by (unfold dump_file_base, Dict.get_default; by rewrite Hn1).
    rewrite (dump_full_record C None dump_path hash_type true true
               self1 m1 new_name w Hm1 Hb).
    unfold Dataset_load. simpl. rewrite get_set_eq.
    rewrite get_set_ne by (symmetry; apply metadata_dataset_paths).
    rewrite get_set_eq. split_and!; [done | done | by eexists |].
    unfold Dataset_name, Dict.get_default. rewrite get_set_eq.
    rewrite get_update_absent by apply hashes_no_dataset_name. by rewrite Hn1.
Qed.

End Construct.

(** ** More on process *)

Section MoreProcess.

Context (C : Collaborators).

Lemma transform_calls_fetch (attempts : list (pydict * bool)) :
  transform_calls (fetch_events attempts) = 0%nat.
Proof. induction attempts as [|a l IH]; simpl; done. Qed.

Lemma transform_calls_unpack (dst : string) (filenames : list pyval) :
  transform_calls (unpack_events dst filenames) = 0%nat.
Proof. induction filenames as [|a l IH]; simpl; done. Qed.

(** [fetch] and [unpack] never call a transform nor write a file of the
    cache. *)
Lemma fetch_quiet (fetch_path : option string) (force : bool) (self : RawDataset)
    (w : World C) :
  transform_calls (trace (RawDataset_fetch C fetch_path force self w).2) =
    transform_calls (trace w) /\
  files (RawDataset_fetch C fetch_path force self w).2 = files w.
Proof.
  unfold RawDataset_fetch. destruct (fetched_ self && negb force); [done|].
  destruct (fetch_loop C (file_list self) [] w) as [[[c items'] ff'] w'] eqn:E.
  destruct (fetch_loop_spec C _ _ _ _ _ _ _ E) as (att & Htr & Hf & _). simpl.
  rewrite Htr, transform_calls_app, transform_calls_fetch. split; [lia | done].
Qed.

Lemma unpack_quiet (unpack_path : option string) (force : bool) (self : RawDataset)
    (w : World C) :
  transform_calls (trace (RawDataset_unpack C unpack_path force self w).2) =
    transform_calls (trace w) /\
  files (RawDataset_unpack C unpack_path force self w).2 = files w.
Proof.
  unfold RawDataset_unpack, ensure_fetched.
  assert (Hq : transform_calls
                 (trace (if negb (fetched_ self)
                         then let '(_, s, w') := RawDataset_fetch C None false self w in
                              (s, w')
                         else (self, w)).2) = transform_calls (trace w) /\
               files (if negb (fetched_ self)
                      then let '(_, s, w') := RawDataset_fetch C None false self w in
                           (s, w')
                      else (self, w)).2 = files w).
  { destruct (negb (fetched_ self)); [|done].
    pose proof (fetch_quiet None false self w) as H.
    by destruct (RawDataset_fetch C None false self w) as [[? ?] ?]. }
  destruct (if negb (fetched_ self) then _ else _) as [self1 w1]. simpl in Hq.
  destruct Hq as [Ht Hf].
  destruct (unpacked_ self1 && negb force); [done|].
  destruct (unpack_loop C (fetched_files_ self1) _ w1) as [[e|] w2] eqn:E; simpl.
  - apply unpack_loop_raise in E as (Hfiles & pre & f & post & _ & Htr).
    rewrite Htr, transform_calls_app, transform_calls_unpack.
    split; [lia | congruence].
  - apply unpack_loop_ok in E as [Htr Hfiles].
    rewrite Htr, transform_calls_app, transform_calls_unpack.
    split; [lia | congruence].
Qed.

Lemma unpack_returns_unpacked (unpack_path : option string) (force : bool)
    (self self' : RawDataset) (w w' : World C) (p : option string) :
  RawDataset_unpack C unpack_path force self w = (inr p, self', w') ->
  unpacked_ self' = true /\ name self' = name self /\
  load_function self' = load_function self /\ dataset_dir self' = dataset_dir self /\
  length (file_list self') = length (file_list self).
Proof.
  unfold RawDataset_unpack, ensure_fetched.
  assert (Hk : let s := (if negb (fetched_ self)
                         then let '(_, s, w') := RawDataset_fetch C None false self w in
                              (s, w')
                         else (self, w)).1 in
               name s = name self /\ load_function s = load_function self /\
               dataset_dir s = dataset_dir self /\
               length (file_list s) = length (file_list self)).
  { destruct (negb (fetched_ self)); [|done].
    pose proof (fetch_frame C None false self w) as H.
    destruct (RawDataset_fetch C None false self w) as [[? s] ?]. simpl.
    destruct H as (? & ? & ? & _ & _ & Hall & _).
    apply Forall2_length in Hall. done. }
  destruct (if negb (fetched_ self) then _ else _) as [self1 w1]. simpl in Hk.
  destruct (unpacked_ self1 && negb force) eqn:Eu.
  - intros [= _ <- _]. apply andb_true_iff in Eu as [Eu _]. done.
  - destruct (unpack_loop C (fetched_files_ self1) _ w1) as [[e|] w2]; [done|].
    intros [= _ <- _]. simpl. done.
Qed.

(** When the implicit [unpack] of [process] returns, the rest of
    [process] is [process] on the unpacked dataset. *)
Lemma process_after_unpack (cache_path : option string)
    (force return_X_y use_docstring : bool) (kwargs : pydict)
    (self self1 : RawDataset) (w w1 : World C) (p : option string) :
  unpacked_ self = false ->
  RawDataset_unpack C None false self w = (inr p, self1, w1) ->
  RawDataset_process C cache_path force return_X_y use_docstring kwargs self w =
  RawDataset_process C cache_path force return_X_y use_docstring kwargs self1 w1.
Proof.
  intros Hu Hunpack. pose proof (unpack_returns_unpacked _ _ _ _ _ _ _ Hunpack) as [Hu1 _].
  unfold RawDataset_process. rewrite Hu, Hu1, Hunpack. reflexivity.
Qed.

Lemma process_unpacked_cached (cache_path : option string)
    (force return_X_y use_docstring : bool) (kwargs : pydict)
    (self self1 : RawDataset) (w w1 : World C) (r1 : pyval) :
  unpacked_ self = true ->
  RawDataset_process C cache_path force return_X_y use_docstring kwargs self w =
    (inr r1, self1, w1) ->
  self1 = self /\
  (transform_calls (trace w1) <= S (transform_calls (trace w)))%nat /\
  (force = true -> transform_calls (trace w1) = S (transform_calls (trace w))) /\
  exists key dset,
    to_hash_kw C kwargs self = inr key /\
    Dataset_load C key (Some (default (interim_data_path C) cache_path)) false w1 =
      inr dset /\
    dset <> PNone /\ process_return return_X_y dset = inr r1.
Proof.
  intros Hu H. unfold RawDataset_process in H. rewrite Hu in H. simpl in H.
  destruct (to_hash_kw C kwargs self) as [e|key] eqn:Eh; [done|].
  set (cp := default (interim_data_path C) cache_path) in *.
  assert (Hmiss : forall w2 d,
            process_create C cp key use_docstring kwargs self w = (inr d, w2) ->
            process_return return_X_y (PDict d) = inr r1 -> self = self1 -> w2 = w1 ->
            self1 = self /\
            (transform_calls (trace w1) <= S (transform_calls (trace w)))%nat /\
            (force = true -> transform_calls (trace w1) = S (transform_calls (trace w))) /\
            exists key' dset,
              @inr exn string key = inr key' /\
              Dataset_load C key' (Some cp) false w1 = inr dset /\
              dset <> PNone /\ process_return return_X_y dset = inr r1).
  { intros w2 d Ec Hr <- <-. apply process_create_stores in Ec as [Hfile Htr].
    split_and!; [done | lia | done |].
    exists key, (PDict d). unfold Dataset_load. simpl. by rewrite Hfile. }
  destruct force; simpl in H.
  - destruct (process_create C cp key use_docstring kwargs self w) as [[e'|d] w2] eqn:Ec;
      [done|].
    injection H as Hr Hs Hw. by apply (Hmiss w2 d).
  - destruct (Dataset_load C key (Some cp) false w) as [e|v] eqn:El.
    + destruct (process_create C cp key use_docstring kwargs self w)
        as [[e'|d] w2] eqn:Ec; [done|].
      injection H as Hr Hs Hw. by apply (Hmiss w2 d).
    + destruct v;
        try (injection H as Hr <- <-;
             split_and!; [done | lia | done |]; eexists _, _; by split_and!).
      destruct (process_create C cp key use_docstring kwargs self w)
        as [[e'|d] w2] eqn:Ec; [done|].
      injection H as Hr Hs Hw. by apply (Hmiss w2 d).
Qed.

Lemma process_hit (cache_path : option string) (return_X_y use_docstring : bool)
    (kwargs : pydict) (self : RawDataset) (w : World C) (key : string) (dset : pyval) :
  unpacked_ self = true ->
  to_hash_kw C kwargs self = inr key ->
  Dataset_load C key (Some (default (interim_data_path C) cache_path)) false w =
    inr dset ->
  dset <> PNone ->
  RawDataset_process C cache_path false return_X_y use_docstring kwargs self w =
    (process_return return_X_y dset, self, w).
Proof.
  intros Hu Hk Hl Hn. unfold RawDataset_process. rewrite Hu. simpl.
  rewrite Hk. simpl. rewrite Hl. by destruct dset.
Qed.

(** X19. Whatever way [process] has returned (forced or not, from any
    stage of the pipeline, with any [return_X_y] and [use_docstring]),
    it leaves the dataset unpacked and the processed dataset in the
    cache under the key of the extra arguments; a later unforced call
    with these extra arguments and this cache directory is served that
    dataset, for every [return_X_y] and [use_docstring], without a call
    to any collaborator.  In particular [use_docstring] is no part of
    the key. *)
Theorem process_then_cached (cache_path : option string)
    (force return_X_y use_docstring : bool) (kwargs : pydict)
    (self self1 : RawDataset) (w w1 : World C) (r1 : pyval) :
  RawDataset_process C cache_path force return_X_y use_docstring kwargs self w =
    (inr r1, self1, w1) ->
  unpacked_ self1 = true /\
  exists key dset,
    to_hash_kw C kwargs self1 = inr key /\
    Dataset_load C key (Some (default (interim_data_path C) cache_path)) false w1 =
      inr dset /\
    process_return return_X_y dset = inr r1 /\
    forall return_X_y2 use_docstring2,
      RawDataset_process C cache_path false return_X_y2 use_docstring2 kwargs self1 w1 =
        (process_return return_X_y2 dset, self1, w1).
Proof.
  intros H.
  assert (Hcore : forall s v,
            unpacked_ s = true ->
            RawDataset_process C cache_path force return_X_y use_docstring kwargs s v =
              (inr r1, self1, w1) ->
            unpacked_ self1 = true /\
            exists key dset,
              to_hash_kw C kwargs self1 = inr key /\
              Dataset_load C key (Some (default (interim_data_path C) cache_path))
                false w1 = inr dset /\
              process_return return_X_y dset = inr r1 /\
              forall return_X_y2 use_docstring2,
                RawDataset_process C cache_path false return_X_y2 use_docstring2 kwargs
                  self1 w1 = (process_return return_X_y2 dset, self1, w1)).
  { intros s v Hu Hp.
    destruct (process_unpacked_cached _ _ _ _ _ _ _ _ _ _ Hu Hp)
      as (-> & _ & _ & key & dset & Hk & Hl & Hn & Hr).
    split; [done|]. exists key, dset. split_and!; try done.
    intros r2 u2. by apply (process_hit cache_path r2 u2 kwargs s w1 key dset). }
  destruct (unpacked_ self) eqn:Hu; [by apply (Hcore self w)|].
  destruct (RawDataset_unpack C None false self w) as [[[e|p] s] v] eqn:Eu.
  - unfold RawDataset_process in H. rewrite Hu, Eu in H. done.
  - rewrite (process_after_unpack _ _ _ _ _ _ _ _ _ _ Hu Eu) in H.
    apply (Hcore s v); [|done]. by apply unpack_returns_unpacked in Eu as [? _].
Qed.

(** X20. When the implicit [unpack] of [process] raises, [process]
    raises the same exception: no transform is invoked and no file of
    the cache is written. *)
Theorem process_unpack_failure (cache_path : option string)
    (force return_X_y use_docstring : bool) (kwargs : pydict)
    (self self1 : RawDataset) (w w1 : World C) (e : exn) :
  unpacked_ self = false ->
  RawDataset_unpack C None false self w = (inl e, self1, w1) ->
  RawDataset_process C cache_path force return_X_y use_docstring kwargs self w =
    (inl e, self1, w1) /\
  transform_calls (trace w1) = transform_calls (trace w) /\
  files w1 = files w.
Proof.
  intros Hu Hunpack. split.
  - unfold RawDataset_process. by rewrite Hu, Hunpack.
  - pose proof (unpack_quiet None false self w) as H. by rewrite Hunpack in H.
Qed.

(** X21. [process] invokes the transform at most once per call, exactly
    once when it is forced and returns, and it keeps the name, the
    transform, the directory and the number of files of the dataset. *)
Theorem process_effects (cache_path : option string)
    (force return_X_y use_docstring : bool) (kwargs : pydict)
    (self self1 : RawDataset) (w w1 : World C) (r1 : pyval) :
  RawDataset_process C cache_path force return_X_y use_docstring kwargs self w =
    (inr r1, self1, w1) ->
  (transform_calls (trace w1) <= S (transform_calls (trace w)))%nat /\
  (force = true -> transform_calls (trace w1) = S (transform_calls (trace w))) /\
  name self1 = name self /\ load_function self1 = load_function self /\
  dataset_dir self1 = dataset_dir self /\
  length (file_list self1) = length (file_list self).
Proof.
  intros H. destruct (unpacked_ self) eqn:Hu.
  - destruct (process_unpacked_cached _ _ _ _ _ _ _ _ _ _ Hu H) as (-> & Hle & Hf & _).
    done.
  - destruct (RawDataset_unpack C None false self w) as [[[e|p] s] v] eqn:Eu.
    + unfold RawDataset_process in H. rewrite Hu, Eu in H. done.
    + rewrite (process_after_unpack _ _ _ _ _ _ _ _ _ _ Hu Eu) in H.
      pose proof (unpack_quiet None false self w) as [Hq _]. rewrite Eu in Hq.
      simpl in Hq.
      apply unpack_returns_unpacked in Eu as (Hu1 & Hn & Hl & Hd & Hlen).
      destruct (process_unpacked_cached _ _ _ _ _ _ _ _ _ _ Hu1 H) as (-> & Hle & Hf & _).
      rewrite <- Hq. done.
Qed.

End MoreProcess.

(** ** The metadata handed to the transform *)

Section Metadata.

Context (C : Collaborators).

Lemma default_metadata_loop_keys (fl : list pydict) (e : Ext C) :
  forall metadata md,
  default_metadata_loop C fl metadata e = inr md ->
  forall key, Dict.get key md <> None ->
    Dict.get key metadata <> None \/ key = "descr" \/ key = "license".
Proof.
  induction fl as [|fd fl IH]; intros metadata md H key Hkey; simpl in H.
  - injection H as ->. by left.
  - destruct (optmap (Dict.get_default "name" PNone fd)) as [ex|[k|]] eqn:Eo; [done| |].
    + destruct (read_text C _ e) as [ex|txt]; [done|].
      destruct (IH _ _ H key Hkey) as [Hin|Hr]; [|by right].
      destruct (decide (k = key)) as [<-|Hne].
      * right. unfold optmap in Eo.
        destruct (Dict.get_default "name" PNone fd) as [| | |n| |]; try done.
        destruct (String.eqb n "DESCR"); [injection Eo as <-; by left|].
        destruct (String.eqb n "LICENSE"); [injection Eo as <-; by right|done].
      * left. by rewrite get_set_ne in Hin.
    + by apply (IH _ _ H).
Qed.

Lemma default_metadata_loop_plain (fl : list pydict) (e : Ext C) (metadata : pydict) :
  Forall (fun fd => optmap (Dict.get_default "name" PNone fd) = inr None) fl ->
  default_metadata_loop C fl metadata e = inr metadata.
Proof.
  induction 1 as [|fd fl Hfd Hfl IH]; simpl; [done|]. by rewrite Hfd.
Qed.

Lemma default_metadata_name (use_docstring : bool) (self : RawDataset) (w : World C)
    (md : pydict) :
  RawDataset_default_metadata C use_docstring self w = inr md ->
  Dict.get "dataset_name" md = Some (PStr (name self)).
Proof.
  unfold RawDataset_default_metadata.
  destruct (default_metadata_loop C (file_list self) [] (ext w)) as [ex|md0]; [done|].
  intros [= <-]. apply get_set_eq.
Qed.

(** X22. The default metadata: whenever it can be built, its
    ['dataset_name'] is the name of the raw dataset, it has no keys but
    ['descr'], ['license'] and ['dataset_name'], and with
    [use_docstring] its ['descr'] is the text made from the transform's
    signature and docstring, whatever description the file list
    carries. *)
Theorem default_metadata_spec (use_docstring : bool) (self : RawDataset) (w : World C)
    (md : pydict) :
  RawDataset_default_metadata C use_docstring self w = inr md ->
  Dict.get "dataset_name" md = Some (PStr (name self)) /\
  (forall key, Dict.get key md <> None ->
     key = "descr" \/ key = "license" \/ key = "dataset_name") /\
  (use_docstring = true ->
   let func := load_function self in
   Dict.get "descr" md =
     Some (PStr ("Data processed by: " +:+ (partial_call_signature C func).1 +:+ newline
                 +:+ newline +:+ ">>> " +:+ (partial_call_signature C func).2 +:+ newline
                 +:+ newline +:+ ">>> help(" +:+ func_name func +:+ ")" +:+ newline
                 +:+ newline +:+ func_doc C func))).
Proof.
  unfold RawDataset_default_metadata.
  destruct (default_metadata_loop C (file_list self) [] (ext w)) as [ex|md0] eqn:E;
    [done|].
  intros [= <-]. split_and!.
  - apply get_set_eq.
  - intros key Hkey.
    destruct (decide (key = "dataset_name")) as [->|Hne]; [by right; right|].
    rewrite get_set_ne in Hkey by done.
    assert (Hloop : Dict.get key md0 <> None ->
                    key = "descr" \/ key = "license").
    { intros H. by destruct (default_metadata_loop_keys _ _ _ _ E key H) as [?|?]. }
    destruct use_docstring.
    + destruct (partial_call_signature C (load_function self)) as [fq inv].
      destruct (decide (key = "descr")) as [->|Hd]; [by left|].
      rewrite get_set_ne in Hkey by done.
      destruct (Hloop Hkey) as [?|?]; [by left | by right; left].
    + destruct (Hloop Hkey) as [?|?]; [by left | by right; left].
  - intros ->. simpl.
    destruct (partial_call_signature C (load_function self)) as [fq inv]. simpl.
    rewrite get_set_ne by done. apply get_set_eq.
Qed.

(** X23. A raw dataset without any file tagged [DESCR] or [LICENSE]
    gets, without [use_docstring], the metadata made of its name alone,
    and no file is read for it. *)
Theorem default_metadata_plain (self : RawDataset) (w : World C) :
  Forall (fun fd => optmap (Dict.get_default "name" PNone fd) = inr None)
    (file_list self) ->
  RawDataset_default_metadata C false self w =
    inr [("dataset_name", PStr (name self))].
Proof.
  intros H. unfold RawDataset_default_metadata.
  by rewrite (default_metadata_loop_plain _ (ext w) [] H).
Qed.

Lemma dump_trace (file_base dump_path : option string) (hash_type : string)
    (force create_dirs dump_metadata : bool) (self : pydict) (w : World C) :
  trace (Dataset_dump C file_base dump_path hash_type force create_dirs dump_metadata
           self w).2 = trace w.
Proof.
  unfold Dataset_dump.
  destruct (Dict.get "metadata" self) as [[| | | | |m]|]; try done.
  destruct (dump_file_base file_base m) as [e|base]; [done|]. simpl.
  destruct (if negb force then _ else _) as [[| | | | |cm]|]; try done.
  - by destruct (items_le m cm).
  - simpl. by destruct dump_metadata.
Qed.

(** X24. What the transform is called with when [process] creates the
    dataset: the caller's keyword arguments, except that ['metadata'] is
    the default metadata overridden by the metadata the caller
    supplied.  So the transform is told the name of the dataset unless
    the caller supplied one, and every entry supplied by the caller
    reaches it. *)
Theorem transform_receives_metadata (cache_path : option string)
    (return_X_y use_docstring : bool) (kwargs : pydict) (self : RawDataset)
    (w : World C) (key : string) (md sm : pydict)
    (fn : list pyval -> pydict -> Ext C -> (exn + pyval) * Ext C) :
  unpacked_ self = true ->
  to_hash_kw C kwargs self = inr key ->
  RawDataset_default_metadata C use_docstring self w = inr md ->
  Dict.get_default "metadata" (PDict []) kwargs = PDict sm ->
  NoDup (Dict.keys sm) ->
  transforms C (func_module (load_function self)) (func_name (load_function self)) =
    Some fn ->
  exists kw,
    trace (RawDataset_process C cache_path true return_X_y use_docstring kwargs
             self w).2 = trace w ++ [EvTransform (load_function self) kw] /\
    (forall k, k <> "metadata" -> Dict.get k kw = Dict.get k kwargs) /\
    exists merged,
      Dict.get "metadata" kw = Some (PDict merged) /\
      (forall k v, Dict.get k sm = Some v -> Dict.get k merged = Some v) /\
      (forall k, k ∉ Dict.keys sm -> Dict.get k merged = Dict.get k md) /\
      ("dataset_name" ∉ Dict.keys sm ->
       Dict.get "dataset_name" merged = Some (PStr (name self))).
Proof.
  intros Hu Hk Hmd Hsm Hnd Hfn.
  set (kw := Dict.set "metadata" (PDict (Dict.update md sm)) (Dict.pop "metadata" kwargs)).
  exists kw. split_and!.
  - unfold RawDataset_process. rewrite Hu. simpl. rewrite Hk. simpl.
    unfold process_create. rewrite Hmd, Hsm. fold kw.
    unfold call_load_function. rewrite Hfn.
    destruct (fn _ _ _) as [r e]. simpl.
    destruct r as [ex|[| | | | |dset_opts]]; try done.
    destruct (Dataset_init C dset_opts) as [ex|d0]; [done|].
    pose proof (dump_trace (Some key) (Some (default (interim_data_path C) cache_path))
                  "sha1" true true true d0
                  (set_ext C e (log C (EvTransform (load_function self) kw) w))) as Ht.
    destruct (Dataset_dump C _ _ _ _ _ _ d0 _) as [[[ex|u] d1] w2]; simpl in *; done.
  - intros k Hne. unfold kw. rewrite get_set_ne by done. by apply get_pop_ne.
  - exists (Dict.update md sm). split_and!.
    + apply get_set_eq.
    + intros k v Hget. by apply get_update_present.
    + intros k Hnot. by apply get_update_absent.
    + intros Hnot. rewrite get_update_absent by done.
      by apply (default_metadata_name use_docstring self w md).
Qed.

End Metadata.

(** ** Rebuilding raw datasets and the registry *)

Section Registry.

Context (C : Collaborators).

(** X25. A raw dataset rebuilt by [from_dict] starts afresh: it is
    neither fetched nor unpacked and has no fetched files, its name is
    the ['name'] of the record, its file list is the ['url_list'] (empty
    when the record has none), and its directory is [raw_data_path] when
    the record names none. *)
Theorem from_dict_fresh (obj_dict : pydict) (D : RawDataset) :
  RawDataset_from_dict C obj_dict = inr D ->
  fetched_ D = false /\ fetched_files_ D = [] /\
  unpacked_ D = false /\ unpack_path_ D = None /\
  Dict.get "name" obj_dict = Some (PStr (name D)) /\
  Dict.get_default "url_list" (PList []) obj_dict = PList (map PDict (file_list D)) /\
  (Dict.get "url_list" obj_dict = None -> file_list D = []) /\
  (Dict.get_default "dataset_dir" PNone obj_dict = PNone ->
   dataset_dir D = raw_data_path C) /\
  is_Some (transforms C (func_module (load_function D)) (func_name (load_function D))).
Proof.
  unfold RawDataset_from_dict.
  destruct (deserialize_partial C obj_dict) as [e|lf] eqn:Ed; [done|].
  assert (Hreg : is_Some (transforms C (func_module lf) (func_name lf))).
  { unfold deserialize_partial in Ed.
    destruct (Dict.get "load_function_module" obj_dict) as [[| | |m| |]|]; try done;
      destruct (Dict.get "load_function_name" obj_dict) as [[| | |n| |]|]; try done;
      destruct (Dict.get "load_function_args" obj_dict) as [[| | | |a|]|]; try done;
      destruct (Dict.get "load_function_kwargs" obj_dict) as [[| | | | |k]|]; try done.
    destruct (transforms C m n) eqn:Et; [|done]. injection Ed as <-. simpl.
    by rewrite Et. }
  destruct (Dict.get "name" obj_dict) as [nm|]; [|done].
  assert (Hdicts : forall l fl, as_dicts l = Some fl -> l = map PDict fl).
  { induction l as [|x l IH]; intros fl H; simpl in H.
    - by injection H as <-.
    - destruct x as [| | | | |d]; try done.
      destruct (as_dicts l) as [ds|]; [|done]. injection H as <-.
      simpl. f_equal. by apply IH. }
  remember (Dict.get_default "url_list" (PList []) obj_dict) as ul eqn:Eul.
  remember (Dict.get_default "dataset_dir" PNone obj_dict) as dd eqn:Edd.
  assert (Hnil : forall fl, Dict.get "url_list" obj_dict = None ->
            ul = PList (map PDict fl) -> fl = []).
  { intros fl Hn Hfl. unfold Dict.get_default in Eul. rewrite Hn in Eul.
    rewrite Hfl in Eul. by destruct fl. }
  destruct ul as [| | | |l|]; try done. destruct nm as [| | |n| |]; try done.
  destruct dd as [| | |dir| |]; try done;
    destruct (as_dicts l) as [fl|] eqn:Ea; try done; intros [= <-]; simpl;
    rewrite (Hdicts _ _ Ea) in *; split_and!; try done;
    intros Hn; by apply Hnil.
Qed.

Lemma registry_after_add (module_dir : string) (rawds : RawDataset) (w w1 : World C) :
  add_raw_dataset C module_dir rawds w = (inr tt, w1) ->
  exists before,
    available_raw_datasets C module_dir "raw_datasets.json" None false w =
      inr (inr (before, path_join module_dir "raw_datasets.json")) /\
    available_raw_datasets C module_dir "raw_datasets.json" None false w1 =
      inr (inr (Dict.set (name rawds) (PDict (RawDataset_to_dict rawds)) before,
                path_join module_dir "raw_datasets.json")) /\
    trace w1 = trace w.
Proof.
  unfold add_raw_dataset.
  destruct (available_raw_datasets C module_dir "raw_datasets.json" None false w)
    as [e|[l|[before fq]]] eqn:Ea; try done.
  intros [= <-]. exists before.
  unfold available_raw_datasets in *. simpl in *.
  destruct (match load_json C _ w with None => _ | Some _ => _ end) as [e|d] eqn:El;
    [done|].
  injection Ea as -> <-. split; [done|]. split; [|done].
  unfold load_json, save_json. simpl. by rewrite get_set_eq.
Qed.

(** X26. Through the registry: after [add_raw_dataset] has returned for
    a raw dataset whose transform is registered, [from_name] under its
    name returns a raw dataset of that name, with the same transform
    function and as many files, and with every progress attribute
    reset, whatever stage the registered object had reached; and the
    name is among [available_raw_datasets()].  Nothing is said of the
    values in the file list and of the bound arguments, which come back
    as the registry file renders them. *)
Theorem registry_roundtrip (module_dir : string) (rawds : RawDataset) (w w1 : World C) :
  add_raw_dataset C module_dir rawds w = (inr tt, w1) ->
  is_Some (transforms C (func_module (load_function rawds))
             (func_name (load_function rawds))) ->
  exists D names,
    RawDataset_from_name C module_dir (name rawds) "raw_datasets.json" None w1 = inr D /\
    name D = name rawds /\
    func_module (load_function D) = func_module (load_function rawds) /\
    func_name (load_function D) = func_name (load_function rawds) /\
    length (file_list D) = length (file_list rawds) /\
    fetched_ D = false /\ fetched_files_ D = [] /\
    unpacked_ D = false /\ unpack_path_ D = None /\
    available_raw_datasets C module_dir "raw_datasets.json" None true w1 =
      inr (inl names) /\
    name rawds ∈ names.
Proof.
  intros Hadd Hreg.
  apply registry_after_add in Hadd as (before & _ & Hafter & _).
  set (after := Dict.set (name rawds) (PDict (RawDataset_to_dict rawds)) before) in *.
  exists (RawDataset_init C (Some (name rawds)) (Some (load_function rawds))
            (Some (dataset_dir rawds)) (Some (file_list rawds))), (Dict.keys after).
  split_and!; try done.
  - unfold RawDataset_from_name. rewrite Hafter. unfold after.
    rewrite get_set_eq. by apply from_dict_to_dict.
  - unfold available_raw_datasets in *. simpl in *.
    destruct (match load_json C _ w1 with None => _ | Some _ => _ end) as [e|d];
      [done|]. by injection Hafter as ->.
  - apply get_key_iff. unfold after. by rewrite get_set_eq.
Qed.

(** X27. Registering a raw dataset leaves the other records alone:
    [from_name] under any other name gives after [add_raw_dataset] what
    it gave before, and no collaborator is called. *)
Theorem registry_keeps_others (module_dir other : string) (rawds : RawDataset)
    (w w1 : World C) :
  add_raw_dataset C module_dir rawds w = (inr tt, w1) ->
  other <> name rawds ->
  RawDataset_from_name C module_dir other "raw_datasets.json" None w1 =
    RawDataset_from_name C module_dir other "raw_datasets.json" None w /\
  trace w1 = trace w.
Proof.
  intros Hadd Hne.
  apply registry_after_add in Hadd as (before & Hbefore & Hafter & Htr).
  split; [|done]. unfold RawDataset_from_name. rewrite Hbefore, Hafter.
  by rewrite get_set_ne.
Qed.

(** X28. A name that the registry does not hold: [from_name] raises
    [KeyError], [Dataset.from_raw] raises "Unknown Dataset" before
    anything is fetched, and the world is left as it was.  This is the
    case of every name when the registry file does not exist, the list
    of available raw datasets being empty then. *)
Theorem unknown_raw_dataset (module_dir dataset_name : string)
    (cache_path fetch_path unpack_path : option string) (force : bool)
    (kwargs : pydict) (w : World C) (registry : pydict) :
  available_raw_datasets C module_dir "raw_datasets.json" None false w =
    inr (inr (registry, path_join module_dir "raw_datasets.json")) ->
  Dict.get dataset_name registry = None ->
  RawDataset_from_name C module_dir dataset_name "raw_datasets.json" None w =
    inl (KeyError dataset_name) /\
  Dataset_from_raw C module_dir dataset_name cache_path fetch_path force unpack_path
    kwargs w = (inl (UnknownDataset dataset_name), w) /\
  (load_json C (path_join module_dir "raw_datasets.json") w = None ->
   registry = [] /\
   available_raw_datasets C module_dir "raw_datasets.json" None true w = inr (inl [])).
Proof.
  intros Hav Hnone. split_and!.
  - unfold RawDataset_from_name. by rewrite Hav, Hnone.
  - unfold Dataset_from_raw. by rewrite Hav, Hnone.
  - intros Hfile. unfold available_raw_datasets in *. simpl in *.
    rewrite Hfile in *. by injection Hav as <-.
Qed.

End Registry.

(** ** The further properties on the toy datasets *)

Lemma fetch_rebuilds_fetched_files_witness :
  length (fetched_files_
            (RawDataset_fetch Demo.collaborators None true Demo.toy_fetched
               Demo.world0).1.2) = 1%nat.
Proof.
  destruct (fetch_rebuilds_fetched_files Demo.collaborators None true Demo.toy_fetched
              Demo.world0 eq_refl) as (att & H).
  destruct (RawDataset_fetch Demo.collaborators None true Demo.toy_fetched Demo.world0)
    as [[r s] w'] eqn:E.
  destruct H as (_ & _ & Hle). simpl.
  assert (Hs : s = (RawDataset_fetch Demo.collaborators None true Demo.toy_fetched
                      Demo.world0).1.2) by (by rewrite E).
  rewrite Hs. reflexivity.
Defined.

Lemma fetch_local_only_witness :
  fetched_ (RawDataset_fetch Demo.collaborators None false Demo.raw_local_bad
              Demo.world0).1.2 = true.
Proof.
  assert (Hlocal : Forall (fun item => has_url item = false)
                     (file_list Demo.raw_local_bad))
    by (repeat constructor).
  destruct (fetch_local_only Demo.collaborators None false Demo.raw_local_bad
              Demo.world0 eq_refl Hlocal) as (att & H).
  destruct (RawDataset_fetch Demo.collaborators None false Demo.raw_local_bad
              Demo.world0) as [[r s] w'].
  by destruct H as (_ & H & _).
Defined.

Lemma fetch_confirmed_keeps_key_witness :
  file_list (RawDataset_fetch Demo.collaborators None false Demo.toy Demo.world0).1.2 =
  file_list Demo.toy.
Proof.
  apply (fetch_confirmed_keeps_key Demo.collaborators None false Demo.toy Demo.world0).
  intros item e Hin _.
  apply list_elem_of_singleton in Hin as ->. reflexivity.
Defined.

Lemma unpack_raises_witness :
  unpacked_ (RawDataset_unpack Demo.strict None false Demo.raw_broken
               Demo.strict_world0).1.2 = false /\
  trace (RawDataset_unpack Demo.strict None false Demo.raw_broken
           Demo.strict_world0).2 =
    [EvFetch [("file_name", PStr "good.zip")] true;
     EvFetch [("file_name", PStr "broken.zip")] true;
     EvFetch [("file_name", PStr "later.zip")] true;
     EvUnpack (PStr "good.zip") "data/interim/broken";
     EvUnpack (PStr "broken.zip") "data/interim/broken"].
Proof.
  destruct (unpack_raises Demo.strict None false Demo.raw_broken
              (RawDataset_unpack Demo.strict None false Demo.raw_broken
                 Demo.strict_world0).1.2
              Demo.strict_world0
              (RawDataset_unpack Demo.strict None false Demo.raw_broken
                 Demo.strict_world0).2
              (CollaboratorError "bad archive") eq_refl) as (_ & Hu & _).
  split; [exact Hu | reflexivity].
Defined.

Lemma added_file_is_not_unpacked_witness :
  exists attempts : list (pydict * bool),
    attempts <> [] /\
    trace (RawDataset_unpack Demo.collaborators None false
             (RawDataset_add_url (Some "http://example.org/more.zip") "sha1" None None
                (Some "more.zip") Demo.toy_unpacked) Demo.world_unpacked).2 =
      trace Demo.world_unpacked ++ fetch_events attempts /\
    (RawDataset_unpack Demo.collaborators None false
       (RawDataset_add_url (Some "http://example.org/more.zip") "sha1" None None
          (Some "more.zip") Demo.toy_unpacked) Demo.world_unpacked).1.1 =
      inr (Some "data/interim/toy").
Proof.
  destruct (added_file_is_not_unpacked Demo.collaborators
              (Some "http://example.org/more.zip") "sha1" None None (Some "more.zip")
              None "more.csv" Demo.toy_unpacked Demo.world_unpacked eq_refl)
    as [(att & Hne & H) _].
  exists att. split; [exact Hne|].
  destruct (RawDataset_unpack Demo.collaborators None false _ Demo.world_unpacked)
    as [[r s] w'].
  destruct H as (-> & _ & _ & Htr & _). split; [exact Htr | reflexivity].
Defined.

Lemma added_file_changes_key_witness :
  RawDataset_to_hash Demo.collaborators None "sha1" []
    (RawDataset_add_file "sha1" None None "more.csv" Demo.toy) <>
  RawDataset_to_hash Demo.collaborators None "sha1" [] Demo.toy.
Proof.
  apply (added_file_changes_key Demo.collaborators None None None None "sha1" "DESCR"
           "more.csv" None None None "sha1" [] Demo.toy).
  - right. left. reflexivity.
  - apply not_elem_of_nil.
  - intros H. vm_compute in H. discriminate H.
Defined.

Lemma added_description_wins_witness :
  exists md,
    RawDataset_default_metadata Demo.collaborators false
      (RawDataset_add_metadata None (Some "A toy dataset.") None "DESCR" Demo.toy).2
      Demo.world0 = inr md /\
    Dict.get "descr" md = Some (PStr "contents of data/raw/toy.readme").
Proof.
  destruct (added_description_wins Demo.collaborators None (Some "A toy dataset.") None
              Demo.toy
              (RawDataset_add_metadata None (Some "A toy dataset.") None "DESCR"
                 Demo.toy).2
              Demo.world0 [("dataset_name", PStr "toy")]
              "contents of data/raw/toy.readme")
    as (md & Hmd & Hd & _).
  - reflexivity.
  - reflexivity.
  - intros entry [= <-]. reflexivity.
  - by exists md.
Defined.

Lemma get_data_hashes_spec_witness :
  Dict.get "data_hash" (Dataset_get_data_hashes Demo.collaborators None "md5" Demo.dataset) =
    Some (PStr (joblib_hash Demo.collaborators "md5" (PList [PInt 1; PInt 2; PInt 3]))).
Proof.
  assert (Hnd : NoDup (Dict.keys Demo.dataset)).
  { apply (bool_decide_unpack _). vm_compute. exact I. }
  destruct (get_data_hashes_spec Demo.collaborators None "md5" Demo.dataset
              (or_introl eq_refl) Hnd) as (_ & H & _).
  apply (H "data"); [reflexivity|].
  intros Hin. apply list_elem_of_singleton in Hin. discriminate Hin.
Defined.

Lemma dump_full_record_fresh_witness :
  exists metadata',
    Dict.get "metadata"
      (Dataset_dump Demo.collaborators None None "sha1" false true true Demo.dataset
         Demo.world0).1.2 = Some (PDict metadata') /\
    Dict.get "hash_type" metadata' = Some (PStr "sha1").
Proof.
  assert (Hnd : NoDup (Dict.keys Demo.dataset)).
  { apply (bool_decide_unpack _). vm_compute. exact I. }
  destruct (dump_full_record_fresh Demo.collaborators None None "sha1" false true true
              Demo.dataset
              (Dataset_dump Demo.collaborators None None "sha1" false true true
                 Demo.dataset Demo.world0).1.2
              Demo.world0
              (Dataset_dump Demo.collaborators None None "sha1" false true true
                 Demo.dataset Demo.world0).2
              tt Hnd eq_refl) as (m & H1 & H2 & _).
  by exists m.
Defined.

Lemma dump_load_roundtrip_witness :
  Dataset_load Demo.collaborators "toy" None false
    (Dataset_dump Demo.collaborators None None "sha1" false true true Demo.dataset
       Demo.world0).2 =
  inr (PDict (Dataset_dump Demo.collaborators None None "sha1" false true true
                Demo.dataset Demo.world0).1.2).
Proof.
  destruct (dump_load_roundtrip Demo.collaborators None None "sha1" false true true
              Demo.dataset
              (Dataset_dump Demo.collaborators None None "sha1" false true true
                 Demo.dataset Demo.world0).1.2
              Demo.world0
              (Dataset_dump Demo.collaborators None None "sha1" false true true
                 Demo.dataset Demo.world0).2
              tt eq_refl) as (m & base & Hm & Hb & Hl & _).
  injection Hm as <-. injection Hb as <-. exact Hl.
Defined.

Lemma dump_again_agrees_witness :
  exists metadata1 base,
    Dict.get "metadata"
      (Dataset_dump Demo.collaborators None None "sha1" false true false Demo.dataset
         Demo.world0).1.2 = Some (PDict metadata1) /\
    let '(r, self2, w2) :=
      Dataset_dump Demo.collaborators None None "sha1" true true true
        (Dataset_dump Demo.collaborators None None "sha1" false true false Demo.dataset
           Demo.world0).1.2
        (Dataset_dump Demo.collaborators None None "sha1" false true false Demo.dataset
           Demo.world0).2 in
    r = inr tt /\
    self2 = (Dataset_dump Demo.collaborators None None "sha1" false true false
               Demo.dataset Demo.world0).1.2 /\
    Dataset_load Demo.collaborators base None true w2 = inr (PDict metadata1) /\
    Dataset_load Demo.collaborators base None false w2 =
      inr (PDict (Dataset_dump Demo.collaborators None None "sha1" false true false
                    Demo.dataset Demo.world0).1.2).
Proof.
  exact (dump_again_agrees Demo.collaborators None None "sha1" false true false
           Demo.dataset _ Demo.world0 _ tt eq_refl).
Defined.

Lemma dump_without_copy_is_unprotected_witness :
  let '(r1, a', w1) :=
    Dataset_dump Demo.collaborators (Some "toy") None "sha1" false true false
      Demo.dataset Demo.world0 in
  let '(r2, b', w2) :=
    Dataset_dump Demo.collaborators (Some "toy") None "sha1" false true true
      (Dict.set "data" (PList []) Demo.dataset) w1 in
  r1 = inr tt /\
  Dataset_load Demo.collaborators "toy" None false w1 = inr (PDict a') /\
  (forall m, Dataset_load Demo.collaborators "toy" None true w1 <> inr m) /\
  r2 = inr tt /\
  Dataset_load Demo.collaborators "toy" None false w2 = inr (PDict b').
Proof.
  apply (dump_without_copy_is_unprotected Demo.collaborators "toy" None "sha1" true
           Demo.dataset (Dict.set "data" (PList []) Demo.dataset)
           [("dataset_name", PStr "toy")] [("dataset_name", PStr "toy")]
           Demo.world0).
  - by right.
  - reflexivity.
  - reflexivity.
  - intros m H. discriminate H.
Defined.


Lemma Dataset_init_result_witness :
  exists ds m,
    Dataset_init Demo.collaborators Demo.dataset_opts = inr ds /\
    Dict.get "metadata" ds = Some (PDict m) /\
    Dict.get "data_hash" m =
      Some (PStr (joblib_hash Demo.collaborators "sha1" (PList [PInt 1; PInt 2; PInt 3]))).
Proof.
  assert (Hnd : NoDup (Dict.keys Demo.dataset_opts)).
  { apply (bool_decide_unpack _). vm_compute. exact I. }
  destruct (Dataset_init Demo.collaborators Demo.dataset_opts) as [e|ds] eqn:E;
    [discriminate E|].
  destruct (Dataset_init_result Demo.collaborators Demo.dataset_opts ds Hnd E)
    as (_ & _ & m & Hm & _ & _ & Hd & _).
  by exists ds, m.
Defined.

Lemma metadata_attribute_roundtrip_witness :
  exists self',
    Dataset_setattr "LICENSE" (PStr "MIT") Demo.dataset = inr self' /\
    Dataset_getattribute "LICENSE" self' = Some (inr (PStr "MIT")).
Proof.
  destruct (Dataset_setattr "LICENSE" (PStr "MIT") Demo.dataset) as [e|self'] eqn:E;
    [discriminate E|].
  destruct (metadata_attribute_roundtrip "LICENSE" (PStr "MIT") Demo.dataset self'
              eq_refl eq_refl E) as (H & _).
  by exists self'.
Defined.

Lemma renamed_dataset_dump_witness :
  exists self1,
    Dataset_setattr "name" (PStr "toy2") Demo.dataset = inr self1 /\
    Dataset_name self1 = inr (PStr "toy2").
Proof.
  destruct (Dataset_setattr "name" (PStr "toy2") Demo.dataset) as [e|self1] eqn:E;
    [discriminate E|].
  destruct (renamed_dataset_dump Demo.collaborators "toy2" "sha1" None Demo.dataset
              self1 Demo.world0 (or_intror eq_refl) E) as (H & _).
  by exists self1.
Defined.

Lemma process_then_cached_witness :
  let '(_, self1, w1) :=
    RawDataset_process Demo.collaborators None false false false [] Demo.toy
      Demo.world0 in
  unpacked_ self1 = true /\
  transform_calls
    (trace (RawDataset_process Demo.collaborators None false true false [] self1 w1).2) =
    1%nat.
Proof.
  destruct (RawDataset_process Demo.collaborators None false false false [] Demo.toy
              Demo.world0) as [[r self1] w1] eqn:E.
  destruct r as [e|r1]; [vm_compute in E; discriminate E|].
  destruct (process_then_cached Demo.collaborators None false false false [] Demo.toy
              self1 Demo.world0 w1 r1 E) as (Hu & key & dset & _ & _ & _ & Hagain).
  split; [exact Hu|]. rewrite Hagain. simpl.
  assert (Hw : w1 = (RawDataset_process Demo.collaborators None false false false []
                       Demo.toy Demo.world0).2) by (by rewrite E).
  rewrite Hw. reflexivity.
Defined.

Lemma process_unpack_failure_witness :
  (RawDataset_process Demo.strict None false false false [] Demo.raw_broken
     Demo.strict_world0).1.1 = inl (CollaboratorError "bad archive") /\
  files (RawDataset_process Demo.strict None false false false [] Demo.raw_broken
           Demo.strict_world0).2 = [].
Proof.
  destruct (process_unpack_failure Demo.strict None false false false []
              Demo.raw_broken
              (RawDataset_unpack Demo.strict None false Demo.raw_broken
                 Demo.strict_world0).1.2
              Demo.strict_world0
              (RawDataset_unpack Demo.strict None false Demo.raw_broken
                 Demo.strict_world0).2
              (CollaboratorError "bad archive") eq_refl eq_refl) as (H & _ & Hf).
  rewrite H. simpl. split; [reflexivity | exact Hf].
Defined.

Lemma process_effects_witness :
  transform_calls
    (trace (RawDataset_process Demo.collaborators None true false false []
              Demo.toy_unpacked Demo.world_unpacked).2) = 1%nat.
Proof.
  destruct (RawDataset_process Demo.collaborators None true false false []
              Demo.toy_unpacked Demo.world_unpacked) as [[r self1] w1] eqn:E.
  destruct r as [e|r1]; [vm_compute in E; discriminate E|].
  destruct (process_effects Demo.collaborators None true false false []
              Demo.toy_unpacked self1 Demo.world_unpacked w1 r1 E) as (_ & H & _).
  simpl. rewrite (H eq_refl). reflexivity.
Defined.

Lemma default_metadata_spec_witness :
  exists md,
    RawDataset_default_metadata Demo.collaborators true Demo.toy Demo.world0 = inr md /\
    Dict.get "dataset_name" md = Some (PStr "toy").
Proof.
  destruct (RawDataset_default_metadata Demo.collaborators true Demo.toy Demo.world0)
    as [e|md] eqn:E; [discriminate E|].
  destruct (default_metadata_spec Demo.collaborators true Demo.toy Demo.world0 md E)
    as (H & _).
  by exists md.
Defined.

Lemma default_metadata_plain_witness :
  RawDataset_default_metadata Demo.collaborators false Demo.toy Demo.world0 =
    inr [("dataset_name", PStr "toy")].
Proof.
  apply (default_metadata_plain Demo.collaborators Demo.toy Demo.world0).
  repeat constructor.
Defined.

Lemma transform_receives_metadata_witness :
  exists kw,
    trace (RawDataset_process Demo.collaborators None true false false
             [("metadata", PDict [("license", PStr "MIT")])]
             Demo.toy_unpacked Demo.world_unpacked).2 =
      trace Demo.world_unpacked ++ [EvTransform Demo.load kw] /\
    exists merged,
      Dict.get "metadata" kw = Some (PDict merged) /\
      Dict.get "license" merged = Some (PStr "MIT") /\
      Dict.get "dataset_name" merged = Some (PStr "toy").
Proof.
  destruct (to_hash_kw Demo.collaborators
              [("metadata", PDict [("license", PStr "MIT")])] Demo.toy_unpacked)
    as [e|key] eqn:Ek; [discriminate Ek|].
  assert (Hnd : NoDup (Dict.keys [("license", PStr "MIT")])).
  { apply (bool_decide_unpack _). vm_compute. exact I. }
  destruct (transform_receives_metadata Demo.collaborators None false false
              [("metadata", PDict [("license", PStr "MIT")])]
              Demo.toy_unpacked Demo.world_unpacked key
              [("dataset_name", PStr "toy")] [("license", PStr "MIT")]
              Demo.toy_load eq_refl Ek eq_refl eq_refl Hnd eq_refl)
    as (kw & Htr & _ & merged & Hm & Hsm & _ & Hname).
  exists kw. split; [exact Htr|]. exists merged. split_and!.
  - exact Hm.
  - by apply Hsm.
  - apply Hname. intros Hin. apply list_elem_of_singleton in Hin. discriminate Hin.
Defined.

Lemma from_dict_fresh_witness :
  exists D,
    RawDataset_from_dict Demo.collaborators
      (RawDataset_to_dict Demo.toy_unpacked) = inr D /\
    fetched_ D = false /\ unpacked_ D = false.
Proof.
  destruct (RawDataset_from_dict Demo.collaborators
              (RawDataset_to_dict Demo.toy_unpacked))
    as [e|D] eqn:E; [discriminate E|].
  destruct (from_dict_fresh Demo.collaborators _ D E) as (Hf & _ & Hu & _).
  by exists D.
Defined.

Lemma registry_roundtrip_witness :
  exists D,
    RawDataset_from_name Demo.collaborators "src/folklore/data" "toy" "raw_datasets.json"
      None (add_raw_dataset Demo.collaborators "src/folklore/data" Demo.toy_unpacked
              Demo.world0).2 = inr D /\
    name D = "toy" /\ fetched_ D = false /\ unpacked_ D = false.
Proof.
  destruct (registry_roundtrip Demo.collaborators "src/folklore/data" Demo.toy_unpacked
              Demo.world0
              (add_raw_dataset Demo.collaborators "src/folklore/data" Demo.toy_unpacked
                 Demo.world0).2
              eq_refl) as (D & names & H1 & H2 & _ & _ & _ & H3 & _ & H4 & _).
  - by eexists.
  - by exists D.
Defined.

Lemma registry_keeps_others_witness :
  RawDataset_from_name Demo.collaborators "src/folklore/data" "other" "raw_datasets.json"
    None (add_raw_dataset Demo.collaborators "src/folklore/data" Demo.toy
            Demo.world0).2 = inl (KeyError "other").
Proof.
  destruct (registry_keeps_others Demo.collaborators "src/folklore/data" "other"
              Demo.toy Demo.world0
              (add_raw_dataset Demo.collaborators "src/folklore/data" Demo.toy
                 Demo.world0).2
              eq_refl) as [H _].
  - discriminate.
  - rewrite H. reflexivity.
Defined.

Lemma unknown_raw_dataset_witness :
  Dataset_from_raw Demo.collaborators "src/folklore/data" "toy" None None false None []
    Demo.world0 = (inl (UnknownDataset "toy"), Demo.world0).
Proof.
  destruct (unknown_raw_dataset Demo.collaborators "src/folklore/data" "toy" None None
              None false [] Demo.world0 [] eq_refl eq_refl) as (_ & H & _).
  exact H.
Defined.

Lemma Dataset_init_name_and_target_witness :
  exists ds,
    Dataset_init Demo.collaborators Demo.dataset_opts = inr ds /\
    Dataset_name ds = inr (PStr "toy") /\ Dataset_has_target ds = inr true.
Proof.
  destruct (Dataset_init Demo.collaborators Demo.dataset_opts) as [e|ds] eqn:E;
    [discriminate E|].
  destruct (Dataset_init_name_and_target Demo.collaborators Demo.dataset_opts ds E)
    as (n & Hn & _ & Hgiven & Ht).
  exists ds. split; [reflexivity|]. split; [|exact Ht].
  rewrite Hn. f_equal. apply Hgiven. discriminate.
Defined.

